(** * Code-leveling time tracker: a shallow embedding of [src/extension.ts]

    The extension keeps, per project and per calendar day, the active time
    of the user ([totalTime]) and its split by file extension ([fileStats]).
    A one-second interval timer accrues time unless the user has been idle
    for more than thirty seconds; the statistics are kept in the module
    variable [projectStats] and in the host's [globalState] memento.

    The source file holds two variants of the extension.  The second one
    (the per-project, per-day tracker with idle detection) is the subject of
    this development; the pieces of the first one that are referred to are
    embedded in [Module Variant1] further down.

    Conventions.  Millisecond counts and timestamps are JavaScript numbers
    holding integers; they are modelled by [Z], which is exact as long as
    the values stay below 2^53.  Where the code divides ([/ 1000 / 60]) the
    operands are converted to IEEE binary64 ([spec_float]) and the division
    and the rendering follow the floating-point semantics.

    The statistics object is a plain JavaScript object used as a map.  Its
    own properties are modelled by finite maps ([StatsStore]), and the
    sessions of the extension are modelled on them: this is what the
    object does for every project name under which a plain object inherits
    nothing, in a realm whose [Object.prototype] has no property added
    (lemmas [plain_bucketAt_ordinary], [plain_ensureBucket_ordinary] and
    [plain_accrue_ordinary]).  What the lookups do under the names of the
    members of [Object.prototype] (["constructor"], ["__proto__"], ...) is
    modelled in [Module Plain]. *)

From Stdlib Require Import ZArith String Ascii List Lia.
From Stdlib Require Import Floats.SpecFloat.
From stdpp Require Import base option list gmap strings fin_maps pretty.

Set Warnings "-register-all".

Open Scope Z_scope.

(** ** Host language primitives *)

Module JS.

(** *** Numbers *)

Definition number : Type := spec_float.

Definition of_Z (z : Z) : number := binary_normalize 53 1024 z 0 false.

Definition div (x y : number) : number := SFdiv 53 1024 x y.

(** [Math.floor] of a finite number, as an integer. *)
Definition floor (x : number) : Z :=
  match x with
  | S754_finite s m e =>
      let q := if 0 <=? e then Z.pos m * 2 ^ e else Z.pos m / 2 ^ (- e) in
      let exact := (0 <=? e) || (Z.pos m mod 2 ^ (- e) =? 0) in
      if s then (if exact then - q else - q - 1) else q
  | _ => 0
  end.

Definition digit (d : Z) : string :=
  String (ascii_of_N (48 + Z.to_N d)) EmptyString.

(** The [k] low decimal digits of [n], most significant first. *)
Fixpoint pad (k : nat) (n : Z) : string :=
  match k with
  | O => EmptyString
  | S k' => pad k' (n / 10) +:+ digit (n mod 10)
  end.

Section ToFixed.

(** [Number.prototype.toString] is only reached by [toFixed] for magnitudes
    of at least 10^21; it is left to the host. *)
Variable Number_toString : number -> string.

(** [x.toFixed(1)]: the integer [n] for which [n / 10 - x] is closest to
    zero (the larger one on a tie), printed with one digit after the
    point. *)
Definition toFixed1 (x : number) : string :=
  match x with
  | S754_nan => "NaN"
  | S754_infinity s => if s then "-Infinity" else "Infinity"
  | S754_zero _ => "0.0"
  | S754_finite s m e =>
      let sign := if s then "-" else "" in
      let large :=
        if 0 <=? e then 10 ^ 21 <=? Z.pos m * 2 ^ e
        else 10 ^ 21 * 2 ^ (- e) <=? Z.pos m in
      if large then sign +:+ Number_toString (S754_finite false m e)
      else
        let n :=
          if 0 <=? e then 10 * Z.pos m * 2 ^ e
          else (20 * Z.pos m + 2 ^ (- e)) / 2 ^ (1 - e) in
        sign +:+ pretty (n / 10) +:+ "." +:+ digit (n mod 10)
  end.

End ToFixed.

(** *** Dates *)

(** An instant as the host clock gives it: milliseconds since the epoch
    ([Date.now()]) and the offset of local time from UTC, in minutes, that
    applies at that instant. *)
Record Instant := { epochMs : Z; utcOffsetMin : Z }.

Definition msPerDay : Z := 86400000.

(** Proleptic Gregorian date of a day number counted from 1970-01-01. *)
Definition civil_from_days (days : Z) : Z * Z * Z :=
  let z := days + 719468 in
  let era := z / 146097 in
  let doe := z - era * 146097 in
  let yoe := (doe - doe / 1460 + doe / 36524 - doe / 146096) / 365 in
  let doy := doe - (365 * yoe + yoe / 4 - yoe / 100) in
  let mp := (5 * doy + 2) / 153 in
  let d := doy - (153 * mp + 2) / 5 + 1 in
  let m := if mp <? 10 then mp + 3 else mp - 9 in
  let y := yoe + era * 400 + (if m <=? 2 then 1 else 0) in
  (y, m, d).

Definition date_text (ymd : Z * Z * Z) : string :=
  let '(y, m, d) := ymd in
  let year :=
    if (0 <=? y) && (y <=? 9999) then pad 4 y
    else (if y <? 0 then "-" else "+") +:+ pad 6 (Z.abs y) in
  year +:+ "-" +:+ pad 2 m +:+ "-" +:+ pad 2 d.

(** [now.toISOString().split('T')[0]]: the date of the instant in UTC. *)
Definition toISOString_date (i : Instant) : string :=
  date_text (civil_from_days (epochMs i / msPerDay)).

(** The date of the instant on the local wall clock, in the same format. *)
Definition local_date (i : Instant) : string :=
  date_text (civil_from_days ((epochMs i + utcOffsetMin i * 60000) / msPerDay)).

(** [now.getDay()]: the day of the week in local time, 0 for Sunday. *)
Definition getDay (i : Instant) : Z :=
  (4 + (epochMs i + utcOffsetMin i * 60000) / msPerDay) mod 7.

End JS.

Import JS.

(** ** [getCurrentDate] *)

Definition dayNames : list string :=
  ["Sunday"; "Monday"; "Tuesday"; "Wednesday"; "Thursday"; "Friday"; "Saturday"].

Definition getCurrentDate (now : Instant) : string :=
  toISOString_date now +:+ " (" +:+
  default "undefined" (dayNames !! Z.to_nat (getDay now)) +:+ ")".

(** ** Data model *)

(** One day of one project.  [fileStats] is a JavaScript object used as a
    map from file extension to milliseconds; its keys keep the order in
    which they were first assigned, so it is an association list. *)
Record DayBucket := { totalTime : Z; fileStats : list (string * Z) }.

(** The module variable [projectStats]: project name, then date key. *)
Abbreviation StatsStore := (gmap string (gmap string DayBucket)).

(** [fileStats[ext]], [None] standing for [undefined]. *)
Fixpoint fs_get (ext : string) (fs : list (string * Z)) : option Z :=
  match fs with
  | [] => None
  | (k, v) :: rest => if decide (k = ext) then Some v else fs_get ext rest
  end.

(** [fileStats[ext] = v]: an existing key keeps its place, a new key goes
    last. *)
Fixpoint fs_set (ext : string) (v : Z) (fs : list (string * Z)) : list (string * Z) :=
  match fs with
  | [] => [(ext, v)]
  | (k, w) :: rest =>
      if decide (k = ext) then (k, v) :: rest else (k, w) :: fs_set ext v rest
  end.

Definition bucketAt (s : StatsStore) (project date : string) : option DayBucket :=
  s !! project ≫= fun days => days !! date.

Definition emptyBucket : DayBucket := {| totalTime := 0; fileStats := [] |}.

(** Lines 244-247 of [startTrackingTime], on the own properties:
    [if (!projectStats[p]) projectStats[p] = {};
     if (!projectStats[p][d]) projectStats[p][d] = { totalTime: 0, fileStats: {} };]
    ([Plain.ensureBucket] below has the lookups through
    [Object.prototype].) *)
Definition ensureBucket (project date : string) (s : StatsStore) : StatsStore :=
  let s1 := match s !! project with
            | Some _ => s
            | None => <[project := ∅]> s
            end in
  match s1 !! project with
  | Some days =>
      match days !! date with
      | Some _ => s1
      | None => <[project := <[date := emptyBucket]> days]> s1
      end
  | None => s1
  end.

(** The accrual of one tick on a bucket (lines 252-258). *)
Definition addTick (fileExt : string) (b : DayBucket) : DayBucket :=
  let total := totalTime b + 1000 in
  if decide (fileExt = "") then {| totalTime := total; fileStats := fileStats b |}
  else {| totalTime := total;
          fileStats := fs_set fileExt (default 0 (fs_get fileExt (fileStats b)) + 1000)
                              (fileStats b) |}.

Definition accrue (project date fileExt : string) (s : StatsStore) : StatsStore :=
  match s !! project with
  | Some days =>
      match days !! date with
      | Some b => <[project := <[date := addTick fileExt b]> days]> s
      | None => s
      end
  | None => s
  end.

(** ** The statistics object and what it inherits

    [projectStats] and the objects in it are plain objects, read and
    written with [object[key]]: the read of a key that is not an own
    property goes on to [Object.prototype].  The finite maps of
    [StatsStore] are the own properties.  This module adds what the
    lookups of lines 244-258 find beyond them: the members of
    [Object.prototype], and the properties that the extension itself has
    put on the objects every plain object inherits from.

    The project name is any string.  The date keys are results of
    [getCurrentDate] and the extensions results of [path.extname]: a date
    key ends in a closing parenthesis and an extension is empty or starts
    with a dot, so neither is the name of a built-in member of
    [Object.prototype], of a function or of a bucket. *)
Module Plain.

(** The members of [Object.prototype] that are functions; ["constructor"]
    is [Object] itself.  The remaining member, ["__proto__"], reads as
    [Object.prototype]. *)
Definition inheritedFunctions : list string :=
  ["constructor"; "__defineGetter__"; "__defineSetter__"; "hasOwnProperty";
   "__lookupGetter__"; "__lookupSetter__"; "isPrototypeOf";
   "propertyIsEnumerable"; "toString"; "valueOf"; "toLocaleString"].

(** A bucket that was stored on [Object.prototype], with the buckets that
    were stored on that bucket object in turn. *)
Record SharedBucket := { shared : DayBucket; inner : gmap string DayBucket }.

(** What the extension has added to the built-in objects: date keys on
    [Object.prototype], and date keys on its function members. *)
Record Realm := {
  onObjectPrototype : gmap string SharedBucket;
  onFunctions : gmap string (gmap string DayBucket)
}.

(** The realm as the host sets it up. *)
Definition pristine : Realm := {| onObjectPrototype := ∅; onFunctions := ∅ |}.

(** The object [projectStats[p]] evaluates to: an own property first, then
    the members of [Object.prototype]. *)
Inductive Holder :=
| OwnDays
| ObjectPrototype
| InheritedFunction (name : string)
| Shared (key : string).

Definition projectOf (r : Realm) (s : StatsStore) (p : string) : option Holder :=
  match s !! p with
  | Some _ => Some OwnDays
  | None =>
      if decide (p = "__proto__") then Some ObjectPrototype
      else if decide (p ∈ inheritedFunctions) then Some (InheritedFunction p)
      else match onObjectPrototype r !! p with
           | Some _ => Some (Shared p)
           | None => None
           end
  end.

(** Where a bucket object lives. *)
Inductive Place :=
| InDays (p d : string)
| OnPrototype (d : string)
| OnFunction (f d : string)
| InShared (k d : string).

Definition fetch (r : Realm) (s : StatsStore) (place : Place) : option DayBucket :=
  match place with
  | InDays p d => s !! p ≫= fun days => days !! d
  | OnPrototype d => shared <$> onObjectPrototype r !! d
  | OnFunction f d => onFunctions r !! f ≫= fun days => days !! d
  | InShared k d => onObjectPrototype r !! k ≫= fun b => inner b !! d
  end.

(** The own property [d] of the object [projectStats[p]]. *)
Definition ownPlace (h : Holder) (p d : string) : Place :=
  match h with
  | OwnDays => InDays p d
  | ObjectPrototype => OnPrototype d
  | InheritedFunction f => OnFunction f d
  | Shared k => InShared k d
  end.

(** The bucket object [projectStats[p][d]] evaluates to, if any: the own
    property [d] of [projectStats[p]], or else the one that
    [Object.prototype] has under [d]. *)
Definition placeOf (r : Realm) (s : StatsStore) (p d : string) : option Place :=
  match projectOf r s p with
  | None => None
  | Some h =>
      match fetch r s (ownPlace h p d) with
      | Some _ => Some (ownPlace h p d)
      | None =>
          match onObjectPrototype r !! d with
          | Some _ => Some (OnPrototype d)
          | None => None
          end
      end
  end.

(** [projectStats[p]?.[d]] *)
Definition bucketAt (r : Realm) (s : StatsStore) (p d : string) : option DayBucket :=
  placeOf r s p d ≫= fetch r s.

(** [object[d] = v] for a new bucket object [v]. *)
Definition create (place : Place) (v : DayBucket) (rs : Realm * StatsStore)
    : Realm * StatsStore :=
  let '(r, s) := rs in
  match place with
  | InDays p d => (r, <[p := <[d := v]> (default ∅ (s !! p))]> s)
  | OnPrototype d =>
      ({| onObjectPrototype := <[d := {| shared := v; inner := ∅ |}]> (onObjectPrototype r);
          onFunctions := onFunctions r |}, s)
  | OnFunction f d =>
      ({| onObjectPrototype := onObjectPrototype r;
          onFunctions := <[f := <[d := v]> (default ∅ (onFunctions r !! f))]> (onFunctions r) |},
       s)
  | InShared k d =>
      ({| onObjectPrototype :=
            match onObjectPrototype r !! k with
            | Some b => <[k := {| shared := shared b; inner := <[d := v]> (inner b) |}]>
                          (onObjectPrototype r)
            | None => onObjectPrototype r
            end;
          onFunctions := onFunctions r |}, s)
  end.

(** A change of the fields of the bucket object at a place. *)
Definition modify (place : Place) (f : DayBucket -> DayBucket) (rs : Realm * StatsStore)
    : Realm * StatsStore :=
  let '(r, s) := rs in
  match place with
  | InDays p d =>
      match s !! p with
      | Some days =>
          match days !! d with
          | Some b => (r, <[p := <[d := f b]> days]> s)
          | None => (r, s)
          end
      | None => (r, s)
      end
  | OnPrototype d =>
      match onObjectPrototype r !! d with
      | Some b =>
          ({| onObjectPrototype :=
                <[d := {| shared := f (shared b); inner := inner b |}]> (onObjectPrototype r);
              onFunctions := onFunctions r |}, s)
      | None => (r, s)
      end
  | OnFunction fn d =>
      match onFunctions r !! fn with
      | Some days =>
          match days !! d with
          | Some b =>
              ({| onObjectPrototype := onObjectPrototype r;
                  onFunctions := <[fn := <[d := f b]> days]> (onFunctions r) |}, s)
          | None => (r, s)
          end
      | None => (r, s)
      end
  | InShared k d =>
      match onObjectPrototype r !! k with
      | Some b =>
          match inner b !! d with
          | Some b' =>
              ({| onObjectPrototype :=
                    <[k := {| shared := shared b; inner := <[d := f b']> (inner b) |}]>
                      (onObjectPrototype r);
                  onFunctions := onFunctions r |}, s)
          | None => (r, s)
          end
      | None => (r, s)
      end
  end.

(** Lines 244-247 of [startTrackingTime]:
    [if (!projectStats[p]) projectStats[p] = {};
     if (!projectStats[p][d]) projectStats[p][d] = { totalTime: 0, fileStats: {} };] *)
Definition ensureBucket (p d : string) (rs : Realm * StatsStore) : Realm * StatsStore :=
  let '(r, s) := rs in
  let s1 := match projectOf r s p with
            | Some _ => s
            | None => <[p := ∅]> s
            end in
  match projectOf r s1 p with
  | Some h =>
      match placeOf r s1 p d with
      | Some _ => (r, s1)
      | None => create (ownPlace h p d) emptyBucket (r, s1)
      end
  | None => (r, s1)
  end.

(** Lines 252-258 of the accounting tick: [None] when a property is read
    on [undefined] and the callback throws. *)
Definition accrue (p d fileExt : string) (rs : Realm * StatsStore)
    : option (Realm * StatsStore) :=
  match placeOf (fst rs) (snd rs) p d with
  | Some place => Some (modify place (addTick fileExt) rs)
  | None => None
  end.

(** A project name under which a plain object inherits nothing. *)
Definition ordinary (r : Realm) (p : string) : Prop :=
  p ≠ "__proto__" /\ (p ∉ inheritedFunctions) /\ onObjectPrototype r !! p = None.

End Plain.

(** ** The statistics object and the [globalState] memento

    [context.globalState.get('projectStats', {})] hands out the object the
    memento holds, not a copy, so after a reload the module variable and
    the memento are the same object and a mutation through the variable is
    seen by both.  When the key was never written, [get] returns the fresh
    default [{}], which the memento does not hold. *)
Inductive Stores :=
| Aliased (s : StatsStore)
| Separate (mem : StatsStore) (saved : option StatsStore).

(** What [projectStats] currently holds. *)
Definition inMemory (σ : Stores) : StatsStore :=
  match σ with Aliased s => s | Separate mem _ => mem end.

(** What [globalState] holds under the key ['projectStats']. *)
Definition persisted (σ : Stores) : option StatsStore :=
  match σ with Aliased s => Some s | Separate _ saved => saved end.

(** [projectStats = context.globalState.get('projectStats', {}) || {};] *)
Definition globalState_get (σ : Stores) : Stores :=
  match persisted σ with
  | Some s => Aliased s
  | None => Separate ∅ None
  end.

(** A mutation in place of the object [projectStats] refers to. *)
Definition mutate (f : StatsStore -> StatsStore) (σ : Stores) : Stores :=
  match σ with
  | Aliased s => Aliased (f s)
  | Separate mem saved => Separate (f mem) saved
  end.

(** [context.globalState.update('projectStats', projectStats)].  Recent
    hosts keep a JSON copy of the value ([copy = true]), older ones the
    object itself. *)
Definition globalState_update (copy : bool) (σ : Stores) : Stores :=
  if copy then Separate (inMemory σ) (Some (inMemory σ)) else Aliased (inMemory σ).

(** ** Module state and host state *)

Inductive TimerCallback :=
| AccountingTick (currentDate : string)
| StatsReport.

Inductive Notification :=
| TrackingStarted
| TrackingStopped
| NoStatsAvailable
| NoTrackedTimeToday
| StatsSummary (project date : string) (data : DayBucket).

Inductive StatusBar :=
| Blank
| MinutesToday (minutes : Z).

Record State := {
  timerStartTime : option Z;
  timerInterval : option nat;
  statsInterval : option nat;
  projectName : string;
  projectStats : Stores;
  lastActivityTime : Z;
  statusBarItem : option StatusBar;
  (* host side: the interval timers that are set, the next timer handle,
     and the information messages shown so far *)
  timers : list (nat * TimerCallback);
  nextHandle : nat;
  shown : list Notification
}.

(** The module at load time: [lastActivityTime = Date.now()]. *)
Definition initial (loadTime : Z) (saved : option StatsStore) : State :=
  {| timerStartTime := None; timerInterval := None; statsInterval := None;
     projectName := ""; projectStats := Separate ∅ saved;
     lastActivityTime := loadTime; statusBarItem := None;
     timers := []; nextHandle := 0; shown := [] |}.

Definition set_projectStats (σ : Stores) (st : State) : State :=
  {| timerStartTime := timerStartTime st; timerInterval := timerInterval st;
     statsInterval := statsInterval st; projectName := projectName st;
     projectStats := σ; lastActivityTime := lastActivityTime st;
     statusBarItem := statusBarItem st; timers := timers st;
     nextHandle := nextHandle st; shown := shown st |}.

Definition set_statusBarItem (b : option StatusBar) (st : State) : State :=
  {| timerStartTime := timerStartTime st; timerInterval := timerInterval st;
     statsInterval := statsInterval st; projectName := projectName st;
     projectStats := projectStats st; lastActivityTime := lastActivityTime st;
     statusBarItem := b; timers := timers st;
     nextHandle := nextHandle st; shown := shown st |}.

Definition showInformationMessage (n : Notification) (st : State) : State :=
  {| timerStartTime := timerStartTime st; timerInterval := timerInterval st;
     statsInterval := statsInterval st; projectName := projectName st;
     projectStats := projectStats st; lastActivityTime := lastActivityTime st;
     statusBarItem := statusBarItem st; timers := timers st;
     nextHandle := nextHandle st; shown := shown st ++ [n] |}.

Fixpoint timerOf (h : nat) (ts : list (nat * TimerCallback)) : option TimerCallback :=
  match ts with
  | [] => None
  | (k, cb) :: rest => if decide (k = h) then Some cb else timerOf h rest
  end.

Definition clearInterval (h : nat) (ts : list (nat * TimerCallback)) : list (nat * TimerCallback) :=
  filter (fun t => fst t ≠ h) ts.

(** [setInterval(cb, period)]: the host registers the callback and returns
    a fresh handle. *)
Definition setInterval (cb : TimerCallback) (st : State) : nat * State :=
  (nextHandle st,
   {| timerStartTime := timerStartTime st; timerInterval := timerInterval st;
      statsInterval := statsInterval st; projectName := projectName st;
      projectStats := projectStats st; lastActivityTime := lastActivityTime st;
      statusBarItem := statusBarItem st;
      timers := timers st ++ [(nextHandle st, cb)];
      nextHandle := S (nextHandle st); shown := shown st |}).

(** ** The operations of the extension *)

(** [updateStatusBarItem] (lines 292-300). *)
Definition updateStatusBarItem (now : Instant) (st : State) : State :=
  match statusBarItem st, inMemory (projectStats st) !! projectName st with
  | Some _, Some days =>
      let total := default 0 (totalTime <$> days !! getCurrentDate now) in
      let minutes := floor (div (div (of_Z total) (of_Z 1000)) (of_Z 60)) in
      set_statusBarItem (Some (MinutesToday minutes)) st
  | _, _ => st
  end.

(** [vscode.workspace.workspaceFolders?.[0]?.name || 'Unknown Project'];
    [workspaceFolder] is the name of the first workspace folder, if any. *)
Definition resolveProjectName (workspaceFolder : option string) : string :=
  match workspaceFolder with
  | Some n => if decide (n = "") then "Unknown Project" else n
  | None => "Unknown Project"
  end.

(** [startTrackingTime] (lines 235-270).  The statistics are read back from
    [globalState] first; the guard on [timerStartTime] comes second. *)
Definition startTrackingTime (now : Instant) (workspaceFolder : option string)
    (st : State) : State :=
  let st := set_projectStats (globalState_get (projectStats st)) st in
  match timerStartTime st with
  | Some _ => st
  | None =>
      let name := resolveProjectName workspaceFolder in
      let currentDate := getCurrentDate now in
      let st :=
        {| timerStartTime := Some (epochMs now); timerInterval := timerInterval st;
           statsInterval := statsInterval st; projectName := name;
           projectStats := mutate (ensureBucket name currentDate) (projectStats st);
           lastActivityTime := lastActivityTime st;
           statusBarItem := statusBarItem st; timers := timers st;
           nextHandle := nextHandle st; shown := shown st |} in
      let '(tick, st) := setInterval (AccountingTick currentDate) st in
      let '(report, st) := setInterval StatsReport st in
      showInformationMessage TrackingStarted
        {| timerStartTime := timerStartTime st; timerInterval := Some tick;
           statsInterval := Some report; projectName := projectName st;
           projectStats := projectStats st;
           lastActivityTime := lastActivityTime st;
           statusBarItem := statusBarItem st; timers := timers st;
           nextHandle := nextHandle st; shown := shown st |}
  end.

(** [stopTrackingTime] (lines 273-284). *)
Definition stopTrackingTime (st : State) : State :=
  let ts := match timerInterval st with
            | Some h => clearInterval h (timers st)
            | None => timers st
            end in
  let ts := match statsInterval st with
            | Some h => clearInterval h ts
            | None => ts
            end in
  showInformationMessage TrackingStopped
    {| timerStartTime := None; timerInterval := None; statsInterval := None;
       projectName := projectName st; projectStats := projectStats st;
       lastActivityTime := lastActivityTime st;
       statusBarItem := statusBarItem st; timers := ts;
       nextHandle := nextHandle st; shown := shown st |}.

(** [onUserActivity] (lines 287-289). *)
Definition onUserActivity (now : Z) (st : State) : State :=
  {| timerStartTime := timerStartTime st; timerInterval := timerInterval st;
     statsInterval := statsInterval st; projectName := projectName st;
     projectStats := projectStats st; lastActivityTime := now;
     statusBarItem := statusBarItem st; timers := timers st;
     nextHandle := nextHandle st; shown := shown st |}.

(** [showProjectStats] (lines 303-329): what is shown, as data.  The text
    of the message is [message_text] below. *)
Definition showProjectStats (now : Instant) (st : State) : State :=
  let st := set_projectStats (globalState_get (projectStats st)) st in
  if decide (projectName st = "") then showInformationMessage NoStatsAvailable st
  else
    match inMemory (projectStats st) !! projectName st with
    | None => showInformationMessage NoStatsAvailable st
    | Some stats =>
        let currentDate := getCurrentDate now in
        match stats !! currentDate with
        | None => showInformationMessage NoTrackedTimeToday st
        | Some data =>
            showInformationMessage (StatsSummary (projectName st) currentDate data) st
        end
    end.

(** [activate] (lines 332-354), as far as the state goes: the commands and
    the activity listeners it registers are the events of [step] below. *)
Definition activate (now : Instant) (st : State) : State :=
  let st := set_projectStats (globalState_get (projectStats st)) st in
  updateStatusBarItem now (set_statusBarItem (Some Blank) st).

(** The result of running a timer callback: it returns, or it throws a
    [TypeError] (a property read on [undefined]). *)
Inductive outcome :=
| Returned (st : State)
| ThrewTypeError.

Section Tracker.

(** Whether the host's [globalState.update] stores a copy. *)
Variable copy_on_update : bool.

(** The callback of the accounting timer (lines 249-262); [currentDate] is
    the constant captured when the timer was set. *)
Definition tickCallback (currentDate : string) (now : Instant) (fileExt : string)
    (st : State) : outcome :=
  if 30000 <? epochMs now - lastActivityTime st then Returned st
  else
    match bucketAt (inMemory (projectStats st)) (projectName st) currentDate with
    | None => ThrewTypeError
    | Some _ =>
        let σ := mutate (accrue (projectName st) currentDate fileExt) (projectStats st) in
        let σ := globalState_update copy_on_update σ in
        Returned (updateStatusBarItem now (set_projectStats σ st))
    end.

(** What the host can make happen. *)
Inductive Event :=
| Activate (now : Instant)
| CmdStart (now : Instant) (workspaceFolder : option string)
| CmdStop
| CmdShowStats (now : Instant)
| UserActivity (now : Z)
| TimerFires (handle : nat) (now : Instant) (fileExt : string)
| Deactivate.

(** A timer that was cleared does not fire; an exception thrown by a
    callback is lost in the host and leaves the state as it was. *)
Definition step (st : State) (ev : Event) : State :=
  match ev with
  | Activate now => activate now st
  | CmdStart now ws => startTrackingTime now ws st
  | CmdStop => stopTrackingTime st
  | CmdShowStats now => showProjectStats now st
  | UserActivity now => onUserActivity now st
  | TimerFires h now fileExt =>
      match timerOf h (timers st) with
      | Some (AccountingTick currentDate) =>
          match tickCallback currentDate now fileExt st with
          | Returned st' => st'
          | ThrewTypeError => st
          end
      | Some StatsReport => showProjectStats now st
      | None => st
      end
  | Deactivate => stopTrackingTime st
  end.

Definition run (st : State) (evs : list Event) : State := foldl step st evs.

End Tracker.

(** ** The text of the messages *)

Section Render.

Variable Number_toString : number -> string.

Definition newline : string := String (ascii_of_nat 10) EmptyString.

(** [(time / 1000 / 60).toFixed(1)] *)
Definition minutes_text (time : Z) : string :=
  toFixed1 Number_toString (div (div (of_Z time) (of_Z 1000)) (of_Z 60)).

Definition fileEntry (entry : string * Z) : string :=
  "- " +:+ fst entry +:+ ": " +:+ minutes_text (snd entry) +:+ " min".

Definition message_text (n : Notification) : string :=
  match n with
  | TrackingStarted => "Tracking started"
  | TrackingStopped => "Tracking stopped"
  | NoStatsAvailable => "No stats available."
  | NoTrackedTimeToday => "No tracked time today."
  | StatsSummary project date data =>
      let fileEntries := String.concat newline (map fileEntry (fileStats data)) in
      "📊 **Project: " +:+ project +:+ "**" +:+ newline +:+
      "📅 **" +:+ date +:+ "**" +:+ newline +:+
      "🕒 Total: " +:+ minutes_text (totalTime data) +:+ " min" +:+ newline +:+
      (if decide (fileEntries = "") then "📂 No tracked files" else fileEntries)
  end.

End Render.

(** ** Loading the statistics *)

(** The values [globalState] can hold.  Numbers are integers here: the
    statistics hold nothing else, and of the falsy numbers only 0 can be
    stored ([NaN] has no JSON form). *)
Inductive json :=
| JNull
| JBool (b : bool)
| JNum (n : Z)
| JStr (s : string)
| JArr (items : list json)
| JObj (fields : list (string * json)).

(** The value in a boolean context. *)
Definition truthy (v : json) : bool :=
  match v with
  | JNull => false
  | JBool b => b
  | JNum n => negb (n =? 0)
  | JStr s => negb (String.eqb s "")
  | JArr _ | JObj _ => true
  end.

(** [context.globalState.get('projectStats', {}) || {}] on whatever is
    stored under the key, [None] when nothing is. *)
Definition loadProjectStats (stored : option json) : json :=
  let value := default (JObj []) stored in
  if truthy value then value else JObj [].

Fixpoint jget (key : string) (fields : list (string * json)) : option json :=
  match fields with
  | [] => None
  | (k, v) :: rest => if decide (k = key) then Some v else jget key rest
  end.

(** The shape of the statistics: projects, days, buckets. *)
Definition is_fileStats (v : json) : bool :=
  match v with
  | JObj fields =>
      forallb (fun f => match snd f with JNum _ => true | _ => false end) fields
  | _ => false
  end.

Definition is_bucket (v : json) : bool :=
  match v with
  | JObj fields =>
      match jget "totalTime" fields, jget "fileStats" fields with
      | Some (JNum _), Some fs => is_fileStats fs
      | _, _ => false
      end
  | _ => false
  end.

Definition is_days (v : json) : bool :=
  match v with
  | JObj fields => forallb (fun f => is_bucket (snd f)) fields
  | _ => false
  end.

Definition is_projectStats (v : json) : bool :=
  match v with
  | JObj fields => forallb (fun f => is_days (snd f)) fields
  | _ => false
  end.

Definition json_of_bucket (b : DayBucket) : json :=
  JObj [("totalTime", JNum (totalTime b));
        ("fileStats", JObj (map (fun f => (fst f, JNum (snd f))) (fileStats b)))].

Definition json_of_days (days : gmap string DayBucket) : json :=
  JObj (map (fun f => (fst f, json_of_bucket (snd f))) (map_to_list days)).

Definition json_of_store (s : StatsStore) : json :=
  JObj (map (fun f => (fst f, json_of_days (snd f))) (map_to_list s)).

(** ** The first variant of the extension

    The file-based tracker of the first half of the source file, as far as
    a repeated start and the loading of the saved data go. *)

Module Variant1.

Inductive TimerCallback :=
| LanguageTick
| SayHi.

Record State := {
  timerStartTime : option Z;
  timerInterval : option nat;
  timeSpent : Z;
  currentLanguage : string;
  (* assigned from the parsed file without any check, hence untyped *)
  totalTimeSpent : json;
  startDate : json;
  projectName : json;
  projectStats : json;
  (* host side *)
  timers : list (nat * TimerCallback);
  nextHandle : nat;
  errorsShown : list string
}.

(** The module at load time (lines 6-13). *)
Definition initial : State :=
  {| timerStartTime := None; timerInterval := None; timeSpent := 0;
     currentLanguage := ""; totalTimeSpent := JNum 0; startDate := JStr "";
     projectName := JStr ""; projectStats := JObj [];
     timers := []; nextHandle := 0; errorsShown := [] |}.

(** [startTrackingTime] (lines 23-52): the guard comes first. *)
Definition startTrackingTime (now : Instant) (workspaceName : option string)
    (st : State) : State :=
  match timerStartTime st with
  | Some _ => st
  | None =>
      let name :=
        if truthy (projectName st) then projectName st
        else JStr (match workspaceName with
                   | Some n => if decide (n = "") then "Unknown Project" else n
                   | None => "Unknown Project"
                   end) in
      {| timerStartTime := Some (epochMs now);
         timerInterval := Some (nextHandle st);
         timeSpent := timeSpent st; currentLanguage := currentLanguage st;
         totalTimeSpent := totalTimeSpent st;
         startDate := JStr (toISOString_date now);
         projectName := name; projectStats := projectStats st;
         timers := timers st ++ [(nextHandle st, LanguageTick);
                                 (S (nextHandle st), SayHi)];
         nextHandle := S (S (nextHandle st));
         errorsShown := errorsShown st |}
  end.

Definition showErrorMessage (text : string) (st : State) : State :=
  {| timerStartTime := timerStartTime st; timerInterval := timerInterval st;
     timeSpent := timeSpent st; currentLanguage := currentLanguage st;
     totalTimeSpent := totalTimeSpent st; startDate := startDate st;
     projectName := projectName st; projectStats := projectStats st;
     timers := timers st; nextHandle := nextHandle st;
     errorsShown := errorsShown st ++ [text] |}.

(** [value.key], [None] standing for [undefined]; the read on [null] is
    the one that throws and is dealt with by the caller. *)
Definition field (key : string) (value : json) : option json :=
  match value with
  | JObj fields => jget key fields
  | _ => None
  end.

Definition truthy_field (key : string) (value : json) : bool :=
  match field key value with
  | Some v => truthy v
  | None => false
  end.

Section Load.

(** [JSON.parse]: the parsed value, or the message of the [SyntaxError]. *)
Variable JSON_parse : string -> string + json.

(** The message of the [TypeError] of a property read on [null]. *)
Variable null_read_message : string.

(** The callback of [fs.readFile] in [loadTimeTrackingData] (lines
    99-118); [file] is [None] when the read failed. *)
Definition loadTimeTrackingData (file : option string) (st : State) : State :=
  match file with
  | None => st
  | Some data =>
      match JSON_parse data with
      | inl message =>
          showErrorMessage ("Error parsing time tracking data: " +:+ message) st
      | inr JNull =>
          showErrorMessage ("Error parsing time tracking data: " +:+ null_read_message) st
      | inr parsedData =>
          match field "projectStats" parsedData with
          | Some stats =>
              if truthy stats then
                let named := truthy_field "projectName" parsedData
                             && truthy_field "startDate" parsedData in
                let totalled := truthy_field "totalTimeSpent" parsedData in
                {| timerStartTime := timerStartTime st;
                   timerInterval := timerInterval st;
                   timeSpent := timeSpent st; currentLanguage := currentLanguage st;
                   totalTimeSpent :=
                     if totalled
                     then default (totalTimeSpent st) (field "totalTimeSpent" parsedData)
                     else totalTimeSpent st;
                   startDate :=
                     if named then default (startDate st) (field "startDate" parsedData)
                     else startDate st;
                   projectName :=
                     if named then default (projectName st) (field "projectName" parsedData)
                     else projectName st;
                   projectStats := stats;
                   timers := timers st; nextHandle := nextHandle st;
                   errorsShown := errorsShown st |}
              else st
          | None => st
          end
      end
  end.

End Load.

End Variant1.

(** ** The first variant: the tracking session

    The per-language tracker of the first half of the source file, with
    the variables at the types the source declares for them
    ([projectStats: { [key: string]: number }], [totalTimeSpent: number],
    and so on).  What [loadTimeTrackingData] may assign to them from a file
    of any content is the subject of [Variant1] above. *)

Module Session1.

Inductive TimerCallback :=
| LanguageTick
| SayHi.

(** The information messages, by their template and the values put in:
    ['Hi'], [`Started tracking time for ${language}`],
    ['No active document found!'],
    [`Stopped tracking time for ${currentLanguage}. Time spent: ${timeSpent / 1000}s`],
    [`Now tracking ${newLanguage}`],
    [`Time spent on ${currentLanguage}: ${projectStats[currentLanguage] / 1000}s`]
    and the project statistics of [showProjectStats]. *)
Inductive Notification :=
| Hi
| StartedTracking (language : string)
| NoActiveDocument
| StoppedTracking (language : string) (timeSpent : Z)
| NowTracking (language : string)
| TimeSpentOn (language : string) (time : option Z)
| ProjectStats (projectName : string) (totalTimeSpent : Z)
               (languages : list (string * Z)).

(** The object [saveTimeTrackingData] writes. *)
Record SavedData := {
  saved_currentLanguage : string;
  saved_timeSpent : Z;
  saved_totalTimeSpent : Z;
  saved_startDate : string;
  saved_projectName : string;
  saved_projectStats : list (string * Z)
}.

Record State := {
  timerStartTime : option Z;
  timerInterval : option nat;
  timeSpent : Z;
  currentLanguage : string;
  totalTimeSpent : Z;
  startDate : string;
  projectName : string;
  projectStats : list (string * Z);
  (* the status bar item, once created, with the hours and minutes shown *)
  statusBarItem : option (option (Z * Z));
  (* host side: the timers that are set, the next handle, the messages
     shown and the data handed to [fs.writeFile], oldest first *)
  timers : list (nat * TimerCallback);
  nextHandle : nat;
  shown : list Notification;
  written : list SavedData
}.

(** The module at load time (lines 6-13). *)
Definition initial : State :=
  {| timerStartTime := None; timerInterval := None; timeSpent := 0;
     currentLanguage := ""; totalTimeSpent := 0; startDate := "";
     projectName := ""; projectStats := []; statusBarItem := None;
     timers := []; nextHandle := 0; shown := []; written := [] |}.

(** [if (timerStartTime)]: set, and not the number 0. *)
Definition running (st : State) : option Z :=
  match timerStartTime st with
  | Some t => if decide (t = 0) then None else Some t
  | None => None
  end.

(** [Object.values(projectStats).reduce((acc, time) => acc + time, 0)] *)
Definition sumOfStats (stats : list (string * Z)) : Z :=
  foldl (fun acc entry => acc + snd entry) 0 stats.

(** [projectStats[language] = (projectStats[language] || 0) + amount],
    done only [if (currentLanguage)]. *)
Definition credit (language : string) (amount : Z) (stats : list (string * Z))
    : list (string * Z) :=
  if decide (language = "") then stats
  else fs_set language (default 0 (fs_get language stats) + amount) stats.

Definition showInformationMessage (n : Notification) (st : State) : State :=
  {| timerStartTime := timerStartTime st; timerInterval := timerInterval st;
     timeSpent := timeSpent st; currentLanguage := currentLanguage st;
     totalTimeSpent := totalTimeSpent st; startDate := startDate st;
     projectName := projectName st; projectStats := projectStats st;
     statusBarItem := statusBarItem st; timers := timers st;
     nextHandle := nextHandle st; shown := shown st ++ [n];
     written := written st |}.

Definition set_currentLanguage (language : string) (st : State) : State :=
  {| timerStartTime := timerStartTime st; timerInterval := timerInterval st;
     timeSpent := timeSpent st; currentLanguage := language;
     totalTimeSpent := totalTimeSpent st; startDate := startDate st;
     projectName := projectName st; projectStats := projectStats st;
     statusBarItem := statusBarItem st; timers := timers st;
     nextHandle := nextHandle st; shown := shown st;
     written := written st |}.

(** [updateStatusBarItem] (lines 133-142). *)
Definition updateStatusBarItem (st : State) : State :=
  match statusBarItem st with
  | None => st
  | Some _ =>
      let totalTimeInMinutes :=
        floor (div (div (of_Z (totalTimeSpent st)) (of_Z 1000)) (of_Z 60)) in
      let hours := floor (div (of_Z totalTimeInMinutes) (of_Z 60)) in
      let minutes := Z.rem totalTimeInMinutes 60 in
      {| timerStartTime := timerStartTime st; timerInterval := timerInterval st;
         timeSpent := timeSpent st; currentLanguage := currentLanguage st;
         totalTimeSpent := totalTimeSpent st; startDate := startDate st;
         projectName := projectName st; projectStats := projectStats st;
         statusBarItem := Some (Some (hours, minutes)); timers := timers st;
         nextHandle := nextHandle st; shown := shown st;
         written := written st |}
  end.

(** [saveTimeTrackingData] (lines 80-95): the data are serialised at once
    and handed to [fs.writeFile]. *)
Definition saveTimeTrackingData (st : State) : State :=
  let data :=
    {| saved_currentLanguage := currentLanguage st;
       saved_timeSpent := default 0 (fs_get (currentLanguage st) (projectStats st));
       saved_totalTimeSpent := totalTimeSpent st;
       saved_startDate := startDate st;
       saved_projectName := projectName st;
       saved_projectStats := projectStats st |} in
  {| timerStartTime := timerStartTime st; timerInterval := timerInterval st;
     timeSpent := timeSpent st; currentLanguage := currentLanguage st;
     totalTimeSpent := totalTimeSpent st; startDate := startDate st;
     projectName := projectName st; projectStats := projectStats st;
     statusBarItem := statusBarItem st; timers := timers st;
     nextHandle := nextHandle st; shown := shown st;
     written := written st ++ [data] |}.

(** [startTrackingTime] (lines 23-52).  The handle of the second timer is
    not kept. *)
Definition startTrackingTime (now : Instant) (workspaceName : option string)
    (st : State) : State :=
  match timerStartTime st with
  | Some _ => st
  | None =>
      {| timerStartTime := Some (epochMs now);
         timerInterval := Some (nextHandle st);
         timeSpent := timeSpent st; currentLanguage := currentLanguage st;
         totalTimeSpent := totalTimeSpent st;
         startDate := toISOString_date now;
         projectName :=
           if decide (projectName st = "") then resolveProjectName workspaceName
           else projectName st;
         projectStats := projectStats st;
         statusBarItem := statusBarItem st;
         timers := timers st ++ [(nextHandle st, LanguageTick);
                                 (S (nextHandle st), SayHi)];
         nextHandle := S (S (nextHandle st));
         shown := shown st; written := written st |}
  end.

(** The callback of the one-second timer (lines 34-48). *)
Definition tickCallback (now : Instant) (st : State) : State :=
  match running st with
  | None => st
  | Some start =>
      let stats := credit (currentLanguage st) 1000 (projectStats st) in
      updateStatusBarItem
        {| timerStartTime := timerStartTime st; timerInterval := timerInterval st;
           timeSpent := epochMs now - start; currentLanguage := currentLanguage st;
           totalTimeSpent := sumOfStats stats; startDate := startDate st;
           projectName := projectName st; projectStats := stats;
           statusBarItem := statusBarItem st; timers := timers st;
           nextHandle := nextHandle st; shown := shown st;
           written := written st |}
  end.

Definition clearInterval (h : nat) (ts : list (nat * TimerCallback))
    : list (nat * TimerCallback) :=
  filter (fun t => fst t ≠ h) ts.

(** [stopTrackingTime] (lines 60-77). *)
Definition stopTrackingTime (now : Instant) (st : State) : State :=
  let ts := match timerInterval st with
            | Some h => clearInterval h (timers st)
            | None => timers st
            end in
  match running st with
  | None =>
      {| timerStartTime := timerStartTime st; timerInterval := None;
         timeSpent := timeSpent st; currentLanguage := currentLanguage st;
         totalTimeSpent := totalTimeSpent st; startDate := startDate st;
         projectName := projectName st; projectStats := projectStats st;
         statusBarItem := statusBarItem st; timers := ts;
         nextHandle := nextHandle st; shown := shown st;
         written := written st |}
  | Some start =>
      let spent := epochMs now - start in
      let stats := credit (currentLanguage st) spent (projectStats st) in
      showInformationMessage (StoppedTracking (currentLanguage st) spent)
        (updateStatusBarItem
           (saveTimeTrackingData
              {| timerStartTime := None; timerInterval := None;
                 timeSpent := spent; currentLanguage := currentLanguage st;
                 totalTimeSpent := sumOfStats stats; startDate := startDate st;
                 projectName := projectName st; projectStats := stats;
                 statusBarItem := statusBarItem st; timers := ts;
                 nextHandle := nextHandle st; shown := shown st;
                 written := written st |}))
  end.

(** [onEditorChange] (lines 122-130); [newLanguage] is the language of the
    active editor, if there is one. *)
Definition onEditorChange (newLanguage : option string) (now : Instant)
    (workspaceName : option string) (st : State) : State :=
  match newLanguage with
  | Some language =>
      if decide (language = "") then st
      else if decide (language = currentLanguage st) then st
      else
        showInformationMessage (NowTracking language)
          (startTrackingTime now workspaceName
             (stopTrackingTime now (set_currentLanguage language st)))
  | None => st
  end.

(** The callback of [fs.readFile] in [loadTimeTrackingData] (lines
    99-118) on a file that holds data as [saveTimeTrackingData] writes
    them. *)
Definition loadSaved (data : SavedData) (st : State) : State :=
  let named := bool_decide (saved_projectName data ≠ "")
               && bool_decide (saved_startDate data ≠ "") in
  {| timerStartTime := timerStartTime st; timerInterval := timerInterval st;
     timeSpent := timeSpent st; currentLanguage := currentLanguage st;
     totalTimeSpent :=
       if decide (saved_totalTimeSpent data = 0) then totalTimeSpent st
       else saved_totalTimeSpent data;
     startDate := if named then saved_startDate data else startDate st;
     projectName := if named then saved_projectName data else projectName st;
     projectStats := saved_projectStats data;
     statusBarItem := statusBarItem st; timers := timers st;
     nextHandle := nextHandle st; shown := shown st;
     written := written st |}.

(** [activate] (lines 156-203) creates the status bar item; the read of
    the file it starts completes later ([FileLoaded] below). *)
Definition activate (st : State) : State :=
  {| timerStartTime := timerStartTime st; timerInterval := timerInterval st;
     timeSpent := timeSpent st; currentLanguage := currentLanguage st;
     totalTimeSpent := totalTimeSpent st; startDate := startDate st;
     projectName := projectName st; projectStats := projectStats st;
     statusBarItem := Some None; timers := timers st;
     nextHandle := nextHandle st; shown := shown st;
     written := written st |}.

Fixpoint timerOf (h : nat) (ts : list (nat * TimerCallback)) : option TimerCallback :=
  match ts with
  | [] => None
  | (k, cb) :: rest => if decide (k = h) then Some cb else timerOf h rest
  end.

(** What the host can make happen: the activation, the end of the read of
    a saved file, the commands registered by [activate] (lines 166-195), a
    change of the active editor, a timer firing, and the deactivation
    (lines 206-210). *)
Inductive Event :=
| Activate
| FileLoaded (data : SavedData)
| CmdStart (language : option string) (now : Instant) (workspaceName : option string)
| CmdStop (now : Instant)
| CmdShowTime
| CmdShowProjectStats
| EditorChanged (language : option string) (now : Instant)
                (workspaceName : option string)
| TimerFires (handle : nat) (now : Instant)
| Deactivate.

Definition step (st : State) (ev : Event) : State :=
  match ev with
  | Activate => activate st
  | FileLoaded data => loadSaved data st
  | CmdStart language now ws =>
      match language with
      | Some l =>
          if decide (l = "") then showInformationMessage NoActiveDocument st
          else showInformationMessage (StartedTracking l)
                 (startTrackingTime now ws (set_currentLanguage l st))
      | None => showInformationMessage NoActiveDocument st
      end
  | CmdStop now =>
      let st := stopTrackingTime now st in
      showInformationMessage (StoppedTracking (currentLanguage st) (timeSpent st)) st
  | CmdShowTime =>
      showInformationMessage
        (TimeSpentOn (currentLanguage st) (fs_get (currentLanguage st) (projectStats st)))
        st
  | CmdShowProjectStats =>
      showInformationMessage
        (ProjectStats (projectName st) (totalTimeSpent st) (projectStats st)) st
  | EditorChanged language now ws => onEditorChange language now ws st
  | TimerFires h now =>
      match timerOf h (timers st) with
      | Some LanguageTick => tickCallback now st
      | Some SayHi => showInformationMessage Hi st
      | None => st
      end
  | Deactivate =>
      match timerInterval st with
      | Some h =>
          {| timerStartTime := timerStartTime st; timerInterval := timerInterval st;
             timeSpent := timeSpent st; currentLanguage := currentLanguage st;
             totalTimeSpent := totalTimeSpent st; startDate := startDate st;
             projectName := projectName st; projectStats := projectStats st;
             statusBarItem := statusBarItem st;
             timers := clearInterval h (timers st);
             nextHandle := nextHandle st; shown := shown st;
             written := written st |}
      | None => st
      end
  end.

Definition run (st : State) (evs : list Event) : State := foldl step st evs.

(** The number of ['Hi'] timers the host holds. *)
Definition hiTimers (st : State) : nat :=
  length (List.filter (fun t => match snd t with SayHi => true | _ => false end)
                      (timers st)).

End Session1.

(** ** The vocabulary of the properties *)

(** The handles of the timers that are set were all handed out already. *)
Definition handles_fresh (st : State) : Prop :=
  Forall (fun t => (fst t < nextHandle st)%nat) (timers st).

(** The signals of a tracking session: ticks of the accounting timer and
    activity signals. *)
Inductive Signal :=
| Tick (now : Instant)
| Touch (now : Z).

Definition signal_event (h : nat) (fileExt : string) (sig : Signal) : Event :=
  match sig with
  | Tick now => TimerFires h now fileExt
  | Touch now => UserActivity now
  end.

Fixpoint ticks (sigs : list Signal) : nat :=
  match sigs with
  | [] => O
  | Tick _ :: rest => S (ticks rest)
  | Touch _ :: rest => ticks rest
  end.



(** The sum of the values of [fileStats]. *)
Definition fs_sum (fs : list (string * Z)) : Z :=
  foldr (fun entry acc => snd entry + acc) 0 fs.

(** The time attributed to extensions is at most the time of the day. *)
Definition bucket_ok (b : DayBucket) : Prop := fs_sum (fileStats b) <= totalTime b.

Definition store_ok (s : StatsStore) : Prop :=
  forall p d b, bucketAt s p d = Some b -> bucket_ok b.

(** A property of the statistics that holds of those in memory and of
    those [globalState] holds. *)
Definition stores_all (P : StatsStore -> Prop) (σ : Stores) : Prop :=
  P (inMemory σ) /\ forall s, persisted σ = Some s -> P s.

Definition state_ok (st : State) : Prop := stores_all store_ok (projectStats st).

(** No project is recorded under the empty name. *)
Definition store_named (s : StatsStore) : Prop := s !! "" = None.

Definition state_named (st : State) : Prop := stores_all store_named (projectStats st).

(** ** Concrete sessions *)

(** 2025-01-01, 12:00 UTC, on a clock set to UTC, and [n] seconds later. *)
Definition noon : Instant := {| epochMs := 1735732800000; utcOffsetMin := 0 |}.

Definition at_second (n : Z) : Instant :=
  {| epochMs := 1735732800000 + 1000 * n; utcOffsetMin := 0 |}.

(** The module loaded and activated at noon on a host whose [globalState]
    holds no statistics yet. *)
Definition activated : State := activate noon (initial 1735732800000 None).

(** A first session on that host: tracking is started, with no workspace
    folder open, and no tick has fired yet. *)
Definition first_session : State := startTrackingTime noon None activated.

(** One tick in each of the next five seconds. *)
Definition five_ticks : list Signal :=
  map (fun n => Tick (at_second n)) [1; 2; 3; 4; 5].

(** A session of one tick: activation and start at noon in the workspace
    "demo", and a first tick on a ".ts" file one second later. *)
Definition demo_events : list Event :=
  [Activate noon; CmdStart noon (Some "demo"); TimerFires 0 (at_second 1) ".ts"].

Definition demo_session : State := run true (initial 1735732800000 None) demo_events.

(** Firings of both timers and an activity signal. *)
Definition demo_signals : list Event :=
  [TimerFires 0 (at_second 2) ".ts"; UserActivity 1735732803000;
   TimerFires 1 (at_second 900) ""].

(** 2025-01-02, 00:00:10 UTC, on a clock set to UTC. *)
Definition after_midnight : Instant :=
  {| epochMs := 1735776010000; utcOffsetMin := 0 |}.

(** ** The vocabulary of the further properties *)

(** The timers of the host are those the module variables record: none
    when the clock is stopped, the accounting timer and the report timer
    when it runs. *)
Definition session_timers (st : State) : Prop :=
  match timerStartTime st, timerInterval st, statsInterval st with
  | None, None, None => timers st = []
  | Some _, Some tick, Some report =>
      tick ≠ report
      /\ exists currentDate,
           timers st = [(tick, AccountingTick currentDate); (report, StatsReport)]
  | _, _, _ => False
  end.

(** Timer firings and activity signals: what happens without a command. *)
Definition is_signal (ev : Event) : bool :=
  match ev with
  | TimerFires _ _ _ | UserActivity _ => true
  | _ => false
  end.

(** The statistics in memory are those [globalState] holds, unless it
    holds none. *)
Definition synced (σ : Stores) : Prop :=
  persisted σ = None \/ persisted σ = Some (inMemory σ).

(** [b'] has at least the time of [b], in total and for every extension
    that [b] records. *)
Definition bucket_le (b b' : DayBucket) : Prop :=
  totalTime b <= totalTime b'
  /\ forall ext v, fs_get ext (fileStats b) = Some v ->
       exists v', fs_get ext (fileStats b') = Some v' /\ v <= v'.

(** [s'] has every bucket of [s], with at least its time. *)
Definition store_le (s s' : StatsStore) : Prop :=
  forall p d b, bucketAt s p d = Some b ->
    exists b', bucketAt s' p d = Some b' /\ bucket_le b b'.

Definition persisted_le (o o' : option StatsStore) : Prop :=
  forall s, o = Some s -> exists s', o' = Some s' /\ store_le s s'.

(** ** The saved file of the first variant *)

(** The value [JSON.stringify] is given in [saveTimeTrackingData]. *)
Definition json_of_stats (stats : list (string * Z)) : json :=
  JObj (map (fun f => (fst f, JNum (snd f))) stats).

Definition json_of_saved (data : Session1.SavedData) : json :=
  JObj [("currentLanguage", JStr (Session1.saved_currentLanguage data));
        ("timeSpent", JNum (Session1.saved_timeSpent data));
        ("totalTimeSpent", JNum (Session1.saved_totalTimeSpent data));
        ("startDate", JStr (Session1.saved_startDate data));
        ("projectName", JStr (Session1.saved_projectName data));
        ("projectStats", json_of_stats (Session1.saved_projectStats data))].

(** The invariant of the timer handles of the first variant: the handles
    in use were handed out, and the handle the module keeps is not the one
    of a ['Hi'] timer. *)
Definition session1_handles (st : Session1.State) : Prop :=
  Forall (fun t => (fst t < Session1.nextHandle st)%nat) (Session1.timers st)
  /\ match Session1.timerInterval st with
     | Some h =>
         (h < Session1.nextHandle st)%nat
         /\ Forall (fun t => fst t = h -> snd t = Session1.LanguageTick)
                   (Session1.timers st)
     | None => True
     end.

(** A session of the first variant: three ticks after a start at noon. *)
Definition three_ticks : list Instant := [at_second 1; at_second 2; at_second 3].

Definition typescript_session : Session1.State :=
  Session1.run Session1.initial
    (Session1.CmdStart (Some "typescript") noon (Some "demo")
       :: map (Session1.TimerFires 0) three_ticks).

(** The variables of the first variant that a load assigns, at their
    declared types in [st] and as the values [loadTimeTrackingData]
    handles in [u]. *)
Definition encodes (st : Session1.State) (u : Variant1.State) : Prop :=
  Variant1.projectStats u = json_of_stats (Session1.projectStats st)
  /\ Variant1.projectName u = JStr (Session1.projectName st)
  /\ Variant1.startDate u = JStr (Session1.startDate st)
  /\ Variant1.totalTimeSpent u = JNum (Session1.totalTimeSpent st).

(** What the stop of the typescript session, three seconds after noon,
    saves, and a parser for a file that holds just that. *)
Definition typescript_saved : Session1.SavedData :=
  let stopped := Session1.stopTrackingTime (at_second 3) typescript_session in
  {| Session1.saved_currentLanguage := Session1.currentLanguage stopped;
     Session1.saved_timeSpent :=
       default 0 (fs_get (Session1.currentLanguage stopped)
                         (Session1.projectStats stopped));
     Session1.saved_totalTimeSpent := Session1.totalTimeSpent stopped;
     Session1.saved_startDate := Session1.startDate stopped;
     Session1.saved_projectName := Session1.projectName stopped;
     Session1.saved_projectStats := Session1.projectStats stopped |}.

Definition parse_typescript_saved (text : string) : string + json :=
  inr (json_of_saved typescript_saved).

(** ** Project names that are members of [Object.prototype] *)

(** The first start of a session in a workspace folder named
    ["constructor"], and one named ["__proto__"], on a new host. *)
Definition constructor_started : Plain.Realm * StatsStore :=
  Plain.ensureBucket "constructor" "2025-01-01 (Wednesday)" (Plain.pristine, ∅).

Definition proto_started : Plain.Realm * StatsStore :=
  Plain.ensureBucket "__proto__" "2025-01-01 (Wednesday)"
    (Plain.pristine, {[ "demo" := ∅ ]}).

(** A session of the project "demo" on a host that holds a bucket of the
    same day for the project "other". *)
Definition two_projects : State :=
  run true
    (initial 1735732800000
       (Some {[ "other" := {[ "2025-01-01 (Wednesday)" :=
                  {| totalTime := 90000; fileStats := [(".md", 90000)] |} ]} ]}))
    [Activate noon; CmdStart noon (Some "demo")].

(** ** The vocabulary of the edge cases *)

(** Everything but what stops the clock. *)
Definition keeps_running (ev : Event) : bool :=
  match ev with
  | CmdStop | Deactivate => false
  | _ => true
  end.

(** The commands that read the statistics back from [globalState]. *)
Definition rereads (ev : Event) : bool :=
  match ev with
  | CmdStart _ _ | CmdShowStats _ => true
  | _ => false
  end.

(** Everything but the start command. *)
Definition is_not_start (ev : Event) : bool :=
  match ev with
  | CmdStart _ _ => false
  | _ => true
  end.

(** The messages that do not depend on the statistics. *)
Definition tells_nothing (n : Notification) : Prop :=
  n = NoStatsAvailable \/ n = TrackingStopped.

(** What follows a report asked for right after the first start: ticks,
    an activity signal, a second start command and the report timer. *)
Definition after_early_report : list Event :=
  [TimerFires 0 (at_second 1) ".ts"; UserActivity 1735732802000;
   CmdStart (at_second 2) None; TimerFires 1 (at_second 900) "";
   TimerFires 0 (at_second 901) ".ts"].

(** A host that was restarted: what it does before tracking is started. *)
Definition before_start : list Event :=
  [Activate noon; CmdShowStats noon; UserActivity 1735732801000;
   TimerFires 0 (at_second 1) ".ts"; CmdStop; CmdShowStats (at_second 2)].

(** The statistics the demo session persisted. *)
Definition demo_saved : StatsStore :=
  default ∅ (persisted (projectStats demo_session)).

(** * Properties *)

(** ** Basic facts about the statistics object *)

Lemma bucketAt_Some (s : StatsStore) p d b :
  bucketAt s p d = Some b <-> exists days, s !! p = Some days /\ days !! d = Some b.
Proof.
  unfold bucketAt. destruct (s !! p) as [days|]; simpl.
  - split; [intros H; eauto | intros (days' & [= <-] & H); done].
  - split; [done | intros (days' & [=] & _)].
Qed.

Lemma bucketAt_project (s : StatsStore) p days d :
  s !! p = Some days -> bucketAt s p d = days !! d.
Proof. intros H. unfold bucketAt. by rewrite H. Qed.

Lemma bucketAt_no_project (s : StatsStore) p d :
  s !! p = None -> bucketAt s p d = None.
Proof. intros H. unfold bucketAt. by rewrite H. Qed.

Lemma bucketAt_insert (s : StatsStore) p days p' d' :
  bucketAt (<[p := days]> s) p' d' =
  if decide (p = p') then days !! d' else bucketAt s p' d'.
Proof.
  unfold bucketAt. rewrite lookup_insert. by case_decide.
Qed.

(** Rewriting a bucket of a project that is present. *)
Lemma bucketAt_insert_day (s : StatsStore) p days d b p' d' :
  s !! p = Some days ->
  bucketAt (<[p := <[d := b]> days]> s) p' d' =
  if decide (p = p' /\ d = d') then Some b else bucketAt s p' d'.
Proof.
  intros Hp. rewrite bucketAt_insert.
  destruct (decide (p = p')) as [<-|Hne].
  - rewrite lookup_insert. destruct (decide (d = d')) as [<-|Hd'].
    + by rewrite decide_True.
    + rewrite decide_False by tauto. by rewrite (bucketAt_project _ _ _ _ Hp).
  - by rewrite decide_False by tauto.
Qed.

Lemma bucketAt_ensureBucket (s : StatsStore) p d p' d' :
  bucketAt (ensureBucket p d s) p' d' =
  if decide (p = p' /\ d = d')
  then Some (default emptyBucket (bucketAt s p d))
  else bucketAt s p' d'.
Proof.
  unfold ensureBucket.
  destruct (s !! p) as [days|] eqn:Hp; simpl.
  - rewrite Hp. rewrite (bucketAt_project _ _ _ d Hp).
    destruct (days !! d) as [b|] eqn:Hd; simpl.
    + case_decide as H; [|done]. destruct H as [<- <-].
      by rewrite (bucketAt_project _ _ _ _ Hp).
    + by rewrite (bucketAt_insert_day _ _ _ _ _ _ _ Hp).
  - rewrite lookup_insert_eq, lookup_empty.
    rewrite (bucketAt_no_project _ _ d Hp). simpl.
    rewrite bucketAt_insert.
    destruct (decide (p = p')) as [<-|Hne].
    + rewrite lookup_insert.
      destruct (decide (d = d')) as [<-|Hd'].
      * by rewrite decide_True.
      * rewrite decide_False by tauto. by rewrite lookup_empty, (bucketAt_no_project _ _ _ Hp).
    + rewrite decide_False by tauto. by rewrite bucketAt_insert, decide_False.
Qed.

Lemma ensureBucket_present (s : StatsStore) p d b :
  bucketAt s p d = Some b -> ensureBucket p d s = s.
Proof.
  intros (days & Hp & Hd)%bucketAt_Some. unfold ensureBucket.
  rewrite Hp. simpl. by rewrite Hp, Hd.
Qed.

Lemma bucketAt_accrue (s : StatsStore) p d e p' d' :
  bucketAt (accrue p d e s) p' d' =
  if decide (p = p' /\ d = d') then addTick e <$> bucketAt s p d
  else bucketAt s p' d'.
Proof.
  unfold accrue.
  destruct (s !! p) as [days|] eqn:Hp.
  - rewrite (bucketAt_project _ _ _ d Hp).
    destruct (days !! d) as [b|] eqn:Hd; simpl.
    + by rewrite (bucketAt_insert_day _ _ _ _ _ _ _ Hp).
    + case_decide as H; [|done]. destruct H as [<- <-].
      by rewrite (bucketAt_project _ _ _ _ Hp).
  - rewrite (bucketAt_no_project _ _ d Hp). simpl.
    case_decide as H; [|done]. destruct H as [<- <-].
    by rewrite (bucketAt_no_project _ _ _ Hp).
Qed.

Lemma inMemory_mutate f σ : inMemory (mutate f σ) = f (inMemory σ).
Proof. by destruct σ. Qed.

Lemma inMemory_update copy σ : inMemory (globalState_update copy σ) = inMemory σ.
Proof. by destruct copy. Qed.

Lemma persisted_update copy σ : persisted (globalState_update copy σ) = Some (inMemory σ).
Proof. by destruct copy. Qed.

Lemma inMemory_get σ : inMemory (globalState_get σ) = default ∅ (persisted σ).
Proof. unfold globalState_get. by destruct (persisted σ). Qed.

Lemma persisted_get σ : persisted (globalState_get σ) = persisted σ.
Proof. unfold globalState_get. by destruct (persisted σ) eqn:H. Qed.

(** ** Bucket creation *)

Lemma ensureBucket_project (s : StatsStore) p d :
  ensureBucket p d s !! p =
  Some (match s !! p with
        | None => {[ d := emptyBucket ]}
        | Some days =>
            match days !! d with
            | Some _ => days
            | None => <[d := emptyBucket]> days
            end
        end).
Proof.
  unfold ensureBucket. destruct (s !! p) as [days|] eqn:Hp; simpl.
  - rewrite Hp. destruct (days !! d); [done|]. by rewrite lookup_insert_eq.
  - by rewrite lookup_insert_eq, lookup_empty, lookup_insert_eq.
Qed.

Lemma ensureBucket_other_project (s : StatsStore) p d p' :
  p ≠ p' -> ensureBucket p d s !! p' = s !! p'.
Proof.
  intros Hne. unfold ensureBucket. destruct (s !! p) as [days|] eqn:Hp; simpl.
  - rewrite Hp. destruct (days !! d); [done|]. by rewrite lookup_insert_ne.
  - rewrite lookup_insert_eq, lookup_empty. by rewrite !lookup_insert_ne.
Qed.

(** ** Bucket creation on the object as the host has it *)

Lemma plain_projectOf_ordinary r s p :
  Plain.ordinary r p ->
  Plain.projectOf r s p
  = (match s !! p with Some _ => Some Plain.OwnDays | None => None end).
Proof.
  intros (Hproto & Hfn & Hshared). unfold Plain.projectOf.
  destruct (s !! p); [done|].
  rewrite decide_False by done. rewrite decide_False by done. by rewrite Hshared.
Qed.

(** For a project name under which nothing is inherited, and a date key
    under which [Object.prototype] holds nothing, the lookups find the own
    properties and nothing else. *)
Lemma plain_bucketAt_ordinary r s p d :
  Plain.ordinary r p -> Plain.onObjectPrototype r !! d = None ->
  Plain.bucketAt r s p d = bucketAt s p d.
Proof.
  intros Hp Hd. unfold Plain.bucketAt, Plain.placeOf, bucketAt.
  rewrite plain_projectOf_ordinary by done.
  destruct (s !! p) as [days|] eqn:Hs; [|done].
  cbn [Plain.ownPlace Plain.fetch]. rewrite Hs. cbn [mbind option_bind].
  destruct (days !! d) as [b|] eqn:Hb.
  - cbn [mbind option_bind Plain.fetch]. rewrite Hs. cbn [mbind option_bind]. exact Hb.
  - by rewrite Hd.
Qed.

Lemma plain_ensureBucket_ordinary r s p d :
  Plain.ordinary r p -> Plain.onObjectPrototype r !! d = None ->
  Plain.ensureBucket p d (r, s) = (r, ensureBucket p d s).
Proof.
  intros Hp Hd. unfold Plain.ensureBucket, ensureBucket, Plain.placeOf.
  rewrite !plain_projectOf_ordinary by done.
  destruct (s !! p) as [days|] eqn:Hs.
  - rewrite Hs. cbn [Plain.ownPlace Plain.fetch Plain.create].
    rewrite Hs. cbn [mbind option_bind default].
    destruct (days !! d); [done|]. by rewrite Hd.
  - rewrite lookup_insert_eq. cbn [Plain.ownPlace Plain.fetch Plain.create].
    rewrite lookup_insert_eq. cbn [mbind option_bind default].
    rewrite lookup_empty. by rewrite Hd.
Qed.

Lemma plain_accrue_ordinary r s p d e :
  Plain.ordinary r p -> Plain.onObjectPrototype r !! d = None ->
  Plain.accrue p d e (r, s) =
  match bucketAt s p d with
  | Some _ => Some (r, accrue p d e s)
  | None => None
  end.
Proof.
  intros Hp Hd. unfold Plain.accrue, Plain.placeOf, bucketAt, accrue. cbn [fst snd].
  rewrite plain_projectOf_ordinary by done.
  destruct (s !! p) as [days|] eqn:Hs; [|done].
  cbn [Plain.ownPlace Plain.fetch]. rewrite Hs. cbn [mbind option_bind].
  destruct (days !! d) as [b|] eqn:Hb.
  - cbn [Plain.modify]. by rewrite Hs, Hb.
  - by rewrite Hd.
Qed.

(** When the read finds a bucket, the read is the bucket at its place. *)
Lemma plain_placeOf_fetch r s p d place :
  Plain.placeOf r s p d = Some place -> is_Some (Plain.fetch r s place).
Proof.
  unfold Plain.placeOf. destruct (Plain.projectOf r s p) as [h|]; [|done].
  destruct (Plain.fetch r s (Plain.ownPlace h p d)) as [b|] eqn:Hown.
  - intros [= <-]. by rewrite Hown.
  - destruct (Plain.onObjectPrototype r !! d) as [sb|] eqn:Hd; [|done].
    intros [= <-]. cbn [Plain.fetch]. by rewrite Hd.
Qed.

Lemma plain_bucketAt_Some r s p d b :
  Plain.bucketAt r s p d = Some b -> exists place, Plain.placeOf r s p d = Some place.
Proof.
  unfold Plain.bucketAt. destruct (Plain.placeOf r s p d) as [place|]; [eauto|done].
Qed.

Lemma plain_bucketAt_None r s p d :
  Plain.bucketAt r s p d = None -> Plain.placeOf r s p d = None.
Proof.
  unfold Plain.bucketAt. destruct (Plain.placeOf r s p d) as [place|] eqn:Hp; [|done].
  destruct (plain_placeOf_fetch _ _ _ _ _ Hp) as [b Hb]. cbn. by rewrite Hb.
Qed.

(** The own property created by the second statement is what the read
    finds afterwards. *)
Lemma plain_create_read r s p d h :
  Plain.projectOf r s p = Some h ->
  let after := Plain.create (Plain.ownPlace h p d) emptyBucket (r, s) in
  Plain.bucketAt (fst after) (snd after) p d = Some emptyBucket.
Proof.
  intros Hh after. subst after. unfold Plain.projectOf in Hh.
  destruct (s !! p) as [days|] eqn:Hs.
  { injection Hh as <-. cbn [Plain.ownPlace Plain.create fst snd default].
    unfold Plain.bucketAt, Plain.placeOf, Plain.projectOf.
    rewrite lookup_insert_eq. cbn [Plain.ownPlace Plain.fetch].
    rewrite lookup_insert_eq. cbn [mbind option_bind].
    rewrite lookup_insert_eq. cbn [mbind option_bind Plain.fetch].
    rewrite lookup_insert_eq. cbn [mbind option_bind].
    by rewrite lookup_insert_eq. }
  destruct (decide (p = "__proto__")) as [Hproto|Hproto].
  { injection Hh as <-. cbn [Plain.ownPlace Plain.create fst snd].
    unfold Plain.bucketAt, Plain.placeOf, Plain.projectOf.
    rewrite Hs, decide_True by done.
    cbn [Plain.ownPlace Plain.fetch Plain.onObjectPrototype].
    rewrite lookup_insert_eq. cbn [fmap option_fmap option_map mbind option_bind Plain.fetch
                                    Plain.onObjectPrototype].
    by rewrite lookup_insert_eq. }
  destruct (decide (p ∈ Plain.inheritedFunctions)) as [Hfn|Hfn].
  { injection Hh as <-. cbn [Plain.ownPlace Plain.create fst snd].
    unfold Plain.bucketAt, Plain.placeOf, Plain.projectOf.
    rewrite Hs, decide_False, decide_True by done.
    cbn [Plain.ownPlace Plain.fetch Plain.onFunctions].
    rewrite lookup_insert_eq. cbn [mbind option_bind].
    rewrite lookup_insert_eq. cbn [mbind option_bind Plain.fetch Plain.onFunctions].
    rewrite lookup_insert_eq. cbn [mbind option_bind].
    by rewrite lookup_insert_eq. }
  destruct (Plain.onObjectPrototype r !! p) as [sb|] eqn:Hsb; [|done].
  injection Hh as <-. cbn [Plain.ownPlace Plain.create fst snd]. rewrite Hsb.
  unfold Plain.bucketAt, Plain.placeOf, Plain.projectOf.
  rewrite Hs, decide_False, decide_False by done.
  cbn [Plain.onObjectPrototype]. rewrite lookup_insert_eq.
  cbn [Plain.ownPlace Plain.fetch Plain.onObjectPrototype].
  rewrite lookup_insert_eq. cbn [mbind option_bind Plain.inner].
  rewrite lookup_insert_eq. cbn [mbind option_bind Plain.fetch Plain.onObjectPrototype].
  rewrite lookup_insert_eq. cbn [mbind option_bind Plain.inner].
  by rewrite lookup_insert_eq.
Qed.

(** After the two statements the read finds a bucket: the one it found
    before, or else the one [Object.prototype] holds under the date key,
    or else a new one. *)
Lemma plain_ensureBucket_read r s p d :
  let after := Plain.ensureBucket p d (r, s) in
  Plain.bucketAt (fst after) (snd after) p d =
  Some (default (default emptyBucket (Plain.shared <$> Plain.onObjectPrototype r !! d))
                (Plain.bucketAt r s p d)).
Proof.
  intros after. subst after. unfold Plain.ensureBucket.
  destruct (Plain.projectOf r s p) as [h|] eqn:Hh.
  - rewrite Hh.
    destruct (Plain.placeOf r s p d) as [place|] eqn:Hplace.
    + cbn [fst snd]. unfold Plain.bucketAt. rewrite Hplace. cbn [mbind option_bind].
      by destruct (plain_placeOf_fetch _ _ _ _ _ Hplace) as [b ->].
    + rewrite (plain_create_read r s p d h Hh).
      unfold Plain.bucketAt. rewrite Hplace. cbn [mbind option_bind default].
      unfold Plain.placeOf in Hplace. rewrite Hh in Hplace.
      destruct (Plain.fetch r s (Plain.ownPlace h p d)); [done|].
      by destruct (Plain.onObjectPrototype r !! d).
  - assert (Hnone : Plain.bucketAt r s p d = None).
    { unfold Plain.bucketAt, Plain.placeOf. by rewrite Hh. }
    rewrite Hnone. cbn [default].
    assert (Hh1 : Plain.projectOf r (<[p := ∅]> s) p = Some Plain.OwnDays).
    { unfold Plain.projectOf. by rewrite lookup_insert_eq. }
    rewrite Hh1.
    destruct (Plain.placeOf r (<[p := ∅]> s) p d) as [place|] eqn:Hplace.
    + cbn [fst snd]. unfold Plain.bucketAt. rewrite Hplace. cbn [mbind option_bind].
      unfold Plain.placeOf in Hplace. rewrite Hh1 in Hplace.
      cbn [Plain.ownPlace Plain.fetch] in Hplace. rewrite lookup_insert_eq in Hplace.
      cbn [mbind option_bind] in Hplace. rewrite lookup_empty in Hplace.
      destruct (Plain.onObjectPrototype r !! d) as [sb|] eqn:Hd; [|done].
      injection Hplace as <-. cbn [Plain.fetch]. by rewrite Hd.
    + rewrite (plain_create_read r (<[p := ∅]> s) p d _ Hh1).
      unfold Plain.placeOf in Hplace. rewrite Hh1 in Hplace.
      cbn [Plain.ownPlace Plain.fetch] in Hplace. rewrite lookup_insert_eq in Hplace.
      cbn [mbind option_bind] in Hplace. rewrite lookup_empty in Hplace.
      by destruct (Plain.onObjectPrototype r !! d).
Qed.

(** A bucket that the read finds is left as it is, and so is everything
    else. *)
Lemma plain_ensureBucket_present r s p d b :
  Plain.bucketAt r s p d = Some b -> Plain.ensureBucket p d (r, s) = (r, s).
Proof.
  intros Hb. destruct (plain_bucketAt_Some _ _ _ _ _ Hb) as [place Hplace].
  unfold Plain.ensureBucket.
  destruct (Plain.projectOf r s p) as [h|] eqn:Hh.
  - by rewrite Hh, Hplace.
  - unfold Plain.placeOf in Hplace. by rewrite Hh in Hplace.
Qed.

(** Under ["__proto__"], and under a name that is a function member of
    [Object.prototype], no project entry is created: the own properties
    of [projectStats] are as they were. *)
Lemma plain_ensureBucket_inherited r s p d :
  p = "__proto__" \/ p ∈ Plain.inheritedFunctions ->
  s !! p = None ->
  snd (Plain.ensureBucket p d (r, s)) = s.
Proof.
  intros Hp Hs. unfold Plain.ensureBucket.
  assert (Hh : exists h, Plain.projectOf r s p = Some h /\ h ≠ Plain.OwnDays
                         /\ forall k, h ≠ Plain.Shared k).
  { unfold Plain.projectOf. rewrite Hs.
    destruct (decide (p = "__proto__")); [by eexists|].
    destruct Hp as [?|Hfn]; [done|]. rewrite decide_True by done. by eexists. }
  destruct Hh as (h & Hh & Hown & Hshared). rewrite Hh, Hh.
  destruct (Plain.placeOf r s p d); [done|].
  destruct h as [| |f|k]; [done|done|done|]. by destruct (Hshared k).
Qed.

(** The bucket created under ["__proto__"] is a property of
    [Object.prototype]: every project that has no bucket of its own for
    the date reads it from then on. *)
Lemma plain_ensureBucket_proto_shared r s d q days :
  s !! "__proto__" = None -> Plain.onObjectPrototype r !! d = None ->
  s !! q = Some days -> days !! d = None ->
  let after := Plain.ensureBucket "__proto__" d (r, s) in
  Plain.bucketAt r s q d = None
  /\ Plain.bucketAt (fst after) (snd after) q d = Some emptyBucket.
Proof.
  intros Hs Hd Hq Hqd after. split.
  { unfold Plain.bucketAt, Plain.placeOf, Plain.projectOf. rewrite Hq.
    cbn [Plain.ownPlace Plain.fetch]. rewrite Hq. cbn [mbind option_bind].
    by rewrite Hqd, Hd. }
  assert (Hh : Plain.projectOf r s "__proto__" = Some Plain.ObjectPrototype).
  { unfold Plain.projectOf. by rewrite Hs. }
  assert (Hafter : after =
    ({| Plain.onObjectPrototype :=
          <[d := {| Plain.shared := emptyBucket; Plain.inner := ∅ |}]>
            (Plain.onObjectPrototype r);
        Plain.onFunctions := Plain.onFunctions r |}, s)).
  { subst after. unfold Plain.ensureBucket. rewrite Hh, Hh.
    unfold Plain.placeOf. rewrite Hh. cbn [Plain.ownPlace Plain.fetch].
    by rewrite Hd. }
  rewrite Hafter. cbn [fst snd].
  unfold Plain.bucketAt, Plain.placeOf, Plain.projectOf. rewrite Hq.
  cbn [Plain.ownPlace Plain.fetch Plain.onObjectPrototype]. rewrite Hq.
  cbn [mbind option_bind]. rewrite Hqd, lookup_insert_eq.
  cbn [mbind option_bind Plain.fetch Plain.onObjectPrototype].
  by rewrite lookup_insert_eq.
Qed.

(** C4.  Lines 244-247, on the object as the host has it.  For every
    project name: after the step the read [projectStats[p][d]] finds a
    bucket; a bucket that the read found before is left as it is, with
    everything else (no reset); doing the step twice is doing it once.
    For a project name under which nothing is inherited, and a date under
    which [Object.prototype] holds nothing, the step creates the project
    entry and the day bucket, with [totalTime = 0] and empty [fileStats],
    exactly when they are absent, and touches no other bucket and no
    other project.  For a project name that is a member of
    [Object.prototype] the step creates no project entry: the own
    properties of [projectStats], which are what is persisted, stay as
    they are, and under ["__proto__"] the bucket becomes the bucket of
    that date of every project that has none of its own. *)
Theorem ensureBucket_creates_when_absent_and_never_resets
    (r : Plain.Realm) (s : StatsStore) (p d : string) :
  let after := Plain.ensureBucket p d (r, s) in
  Plain.bucketAt (fst after) (snd after) p d =
    Some (default (default emptyBucket (Plain.shared <$> Plain.onObjectPrototype r !! d))
                  (Plain.bucketAt r s p d))
  /\ (forall b, Plain.bucketAt r s p d = Some b -> after = (r, s))
  /\ Plain.ensureBucket p d after = after
  /\ (Plain.ordinary r p -> Plain.onObjectPrototype r !! d = None ->
      after = (r, ensureBucket p d s)
      /\ ensureBucket p d s !! p =
           Some (match s !! p with
                 | None => {[ d := emptyBucket ]}
                 | Some days =>
                     match days !! d with
                     | Some _ => days
                     | None => <[d := emptyBucket]> days
                     end
                 end)
      /\ (forall p' d', ~ (p = p' /\ d = d') ->
            bucketAt (ensureBucket p d s) p' d' = bucketAt s p' d')
      /\ (forall p', p ≠ p' -> ensureBucket p d s !! p' = s !! p'))
  /\ (p = "__proto__" \/ p ∈ Plain.inheritedFunctions -> s !! p = None ->
      snd after = s)
  /\ (p = "__proto__" -> s !! p = None -> Plain.onObjectPrototype r !! d = None ->
      forall q days, s !! q = Some days -> days !! d = None ->
        Plain.bucketAt r s q d = None
        /\ Plain.bucketAt (fst after) (snd after) q d = Some emptyBucket).
Proof.
  intros after.
  pose proof (plain_ensureBucket_read r s p d) as Hread. fold after in Hread.
  split; [exact Hread|].
  split; [intros b; apply plain_ensureBucket_present|].
  split.
  { destruct after as [r' s'] eqn:Hafter. cbn [fst snd] in Hread.
    eapply plain_ensureBucket_present, Hread. }
  split.
  { intros Hp Hd. split; [by apply plain_ensureBucket_ordinary|].
    split; [apply ensureBucket_project|].
    split; [|intros p'; apply ensureBucket_other_project].
    intros p' d' Hne. rewrite bucketAt_ensureBucket. by rewrite decide_False. }
  split; [intros Hp Hs; by apply plain_ensureBucket_inherited|].
  intros -> Hs Hd q days Hq Hqd.
  by apply plain_ensureBucket_proto_shared with days.
Qed.

(** A first start in a workspace folder named ["constructor"]: the bucket
    is created on the function [Object] and [projectStats] stays empty,
    where the step on a name such as ["demo"] creates the entry.  In a
    folder named ["__proto__"] the bucket is read under the project
    ["demo"], which has none. *)
Lemma ensureBucket_under_inherited_names :
  snd constructor_started = ∅
  /\ Plain.onFunctions (fst constructor_started) !! "constructor"
     = Some {[ "2025-01-01 (Wednesday)" := emptyBucket ]}
  /\ snd (Plain.ensureBucket "demo" "2025-01-01 (Wednesday)" (Plain.pristine, ∅))
     = {[ "demo" := {[ "2025-01-01 (Wednesday)" := emptyBucket ]} ]}
  /\ snd proto_started = {[ "demo" := ∅ ]}
  /\ Plain.bucketAt Plain.pristine {[ "demo" := ∅ ]} "demo" "2025-01-01 (Wednesday)" = None
  /\ Plain.bucketAt (fst proto_started) (snd proto_started)
       "demo" "2025-01-01 (Wednesday)" = Some emptyBucket.
Proof. repeat split; vm_compute; reflexivity. Qed.

Example ensureBucket_on_empty :
  bucketAt (ensureBucket "demo" "2025-01-01 (Wednesday)" ∅)
           "demo" "2025-01-01 (Wednesday)" = Some emptyBucket.
Proof. vm_compute. reflexivity. Qed.

(** ** Idle suppression *)

(** C1.  A tick of the accounting timer that fires when more than 30000 ms
    have passed since the last activity signal returns at once: the state
    after the tick is the state before it, so the [totalTime] and every
    [fileStats] entry of the active bucket (and of every other bucket) are
    unchanged. *)
Theorem idle_tick_leaves_everything_unchanged
    (copy : bool) (st : State) (h : nat) (currentDate : string)
    (now : Instant) (fileExt : string) :
  timerOf h (timers st) = Some (AccountingTick currentDate) ->
  epochMs now - lastActivityTime st > 30000 ->
  tickCallback copy currentDate now fileExt st = Returned st
  /\ step copy st (TimerFires h now fileExt) = st
  /\ forall p d,
       bucketAt (inMemory (projectStats (step copy st (TimerFires h now fileExt)))) p d
       = bucketAt (inMemory (projectStats st)) p d.
Proof.
  intros Htimer Hidle.
  assert (Htick : tickCallback copy currentDate now fileExt st = Returned st).
  { unfold tickCallback.
    destruct (30000 <? epochMs now - lastActivityTime st) eqn:Hlt; [done|].
    apply Z.ltb_ge in Hlt. lia. }
  assert (Hstep : step copy st (TimerFires h now fileExt) = st).
  { simpl. by rewrite Htimer, Htick. }
  split; [exact Htick|]. split; [exact Hstep|].
  intros p d. by rewrite Hstep.
Qed.

Lemma idle_tick_leaves_everything_unchanged_witness :
  timerOf 0 (timers first_session) = Some (AccountingTick "2025-01-01 (Wednesday)")
  /\ epochMs (at_second 40) - lastActivityTime first_session > 30000
  /\ step true first_session (TimerFires 0 (at_second 40) ".ts") = first_session.
Proof.
  assert (Htimer : timerOf 0 (timers first_session)
                   = Some (AccountingTick "2025-01-01 (Wednesday)")) by reflexivity.
  assert (Hidle : epochMs (at_second 40) - lastActivityTime first_session > 30000)
    by (vm_compute; reflexivity).
  split; [exact Htimer|]. split; [exact Hidle|].
  exact (proj1 (proj2 (idle_tick_leaves_everything_unchanged true first_session 0
                         "2025-01-01 (Wednesday)" (at_second 40) ".ts" Htimer Hidle))).
Defined.

(** ** Accrual *)

Lemma updateStatusBarItem_fields now st :
  let st' := updateStatusBarItem now st in
  timerStartTime st' = timerStartTime st /\ timerInterval st' = timerInterval st
  /\ statsInterval st' = statsInterval st /\ projectName st' = projectName st
  /\ projectStats st' = projectStats st /\ lastActivityTime st' = lastActivityTime st
  /\ timers st' = timers st /\ nextHandle st' = nextHandle st /\ shown st' = shown st.
Proof.
  unfold updateStatusBarItem.
  destruct (statusBarItem st); [|done].
  destruct (inMemory (projectStats st) !! projectName st); done.
Qed.

(** A tick that is not idle and finds its bucket accrues on it, writes the
    statistics to [globalState], and touches nothing else but the status
    bar. *)
Lemma tickCallback_accrues copy d now e st b :
  epochMs now - lastActivityTime st <= 30000 ->
  bucketAt (inMemory (projectStats st)) (projectName st) d = Some b ->
  exists st',
    tickCallback copy d now e st = Returned st'
    /\ inMemory (projectStats st') = accrue (projectName st) d e (inMemory (projectStats st))
    /\ persisted (projectStats st') = Some (inMemory (projectStats st'))
    /\ timerStartTime st' = timerStartTime st /\ timerInterval st' = timerInterval st
    /\ statsInterval st' = statsInterval st /\ projectName st' = projectName st
    /\ lastActivityTime st' = lastActivityTime st
    /\ timers st' = timers st /\ nextHandle st' = nextHandle st /\ shown st' = shown st.
Proof.
  intros Hactive Hb. unfold tickCallback.
  destruct (30000 <? epochMs now - lastActivityTime st) eqn:Hlt.
  { apply Z.ltb_lt in Hlt. lia. }
  rewrite Hb. eexists. split; [reflexivity|].
  pose proof (updateStatusBarItem_fields now
    (set_projectStats
       (globalState_update copy
          (mutate (accrue (projectName st) d e) (projectStats st))) st)) as Hf.
  simpl in Hf. destruct Hf as (-> & -> & -> & -> & -> & -> & -> & -> & ->).
  rewrite inMemory_update, persisted_update, inMemory_mutate. done.
Qed.

(** A tick whose bucket is missing throws before it changes anything. *)
Lemma tickCallback_throws copy d now e st :
  epochMs now - lastActivityTime st <= 30000 ->
  bucketAt (inMemory (projectStats st)) (projectName st) d = None ->
  tickCallback copy d now e st = ThrewTypeError.
Proof.
  intros Hactive Hb. unfold tickCallback.
  destruct (30000 <? epochMs now - lastActivityTime st) eqn:Hlt.
  { apply Z.ltb_lt in Hlt. lia. }
  by rewrite Hb.
Qed.


(** What [startTrackingTime] does when the clock is stopped. *)
Lemma startTrackingTime_stopped now ws st :
  timerStartTime st = None ->
  let st' := startTrackingTime now ws st in
  let d := getCurrentDate now in
  timerStartTime st' = Some (epochMs now)
  /\ projectName st' = resolveProjectName ws
  /\ inMemory (projectStats st') =
       ensureBucket (resolveProjectName ws) d (default ∅ (persisted (projectStats st)))
  /\ timers st' = timers st ++ [(nextHandle st, AccountingTick d);
                                (S (nextHandle st), StatsReport)]
  /\ timerInterval st' = Some (nextHandle st)
  /\ statsInterval st' = Some (S (nextHandle st))
  /\ nextHandle st' = S (S (nextHandle st))
  /\ lastActivityTime st' = lastActivityTime st
  /\ shown st' = shown st ++ [TrackingStarted].
Proof.
  intros Hstopped. unfold startTrackingTime. simpl. rewrite Hstopped. simpl.
  rewrite inMemory_mutate, inMemory_get, <- app_assoc. done.
Qed.


Lemma run_cons copy st ev evs :
  run copy st (ev :: evs) = run copy (step copy st ev) evs.
Proof. reflexivity. Qed.

Lemma run_app copy st evs evs' :
  run copy st (evs ++ evs') = run copy (run copy st evs) evs'.
Proof. unfold run. apply foldl_app. Qed.

Lemma step_tick_returned copy st h d now e st' :
  timerOf h (timers st) = Some (AccountingTick d) ->
  tickCallback copy d now e st = Returned st' ->
  step copy st (TimerFires h now e) = st'.
Proof. intros Htimer Htick. simpl. by rewrite Htimer, Htick. Qed.

Lemma step_tick_threw copy st h d now e :
  timerOf h (timers st) = Some (AccountingTick d) ->
  tickCallback copy d now e st = ThrewTypeError ->
  step copy st (TimerFires h now e) = st.
Proof. intros Htimer Htick. simpl. by rewrite Htimer, Htick. Qed.




(** Five ticks of one second on ".ts" in a new bucket. *)
Example linear_accrual_five :
  bucketAt
    (inMemory (projectStats
       (run true (startTrackingTime noon (Some "demo") activated)
          (map (signal_event 0 ".ts") five_ticks))))
    "demo" "2025-01-01 (Wednesday)"
  = Some {| totalTime := 5000; fileStats := [(".ts", 5000)] |}.
Proof. by vm_compute. Qed.

(** The scenario of the specification: five ticks on ".ts", then a stall
    of 35 seconds in which two ticks fire, then activity again and two
    more ticks. *)
Example scenario_five_idle_two :
  let session :=
    [Activate noon; CmdStart noon (Some "demo"); UserActivity 1735732800000] ++
    map (fun n => TimerFires 0 (at_second n) ".ts") [1; 2; 3; 4; 5] in
  let stall := map (fun n => TimerFires 0 (at_second n) ".ts") [34; 35] in
  let resumed :=
    [UserActivity 1735732835500;
     TimerFires 0 (at_second 36) ".ts"; TimerFires 0 (at_second 37) ".ts"] in
  let s1 := run true (initial 1735732800000 None) session in
  let s2 := run true s1 stall in
  let s3 := run true s2 resumed in
  bucketAt (inMemory (projectStats s1)) "demo" "2025-01-01 (Wednesday)"
    = Some {| totalTime := 5000; fileStats := [(".ts", 5000)] |}
  /\ s2 = s1
  /\ bucketAt (inMemory (projectStats s3)) "demo" "2025-01-01 (Wednesday)"
    = Some {| totalTime := 7000; fileStats := [(".ts", 7000)] |}.
Proof. by vm_compute. Qed.

(** ** The sum of [fileStats] never exceeds [totalTime] *)

Lemma fs_sum_set k v fs :
  fs_sum (fs_set k v fs) = fs_sum fs - default 0 (fs_get k fs) + v.
Proof.
  induction fs as [|[k' w] fs IH]; simpl.
  - lia.
  - destruct (decide (k' = k)); simpl; [lia|]. rewrite IH. lia.
Qed.

(** One accrual adds the tick period to [totalTime], and to one
    [fileStats] entry when there is an extension, to none otherwise. *)
Lemma addTick_amounts e b :
  totalTime (addTick e b) = totalTime b + 1000
  /\ fs_sum (fileStats (addTick e b)) =
     fs_sum (fileStats b) + (if decide (e = "") then 0 else 1000)
  /\ forall k, k ≠ e -> fs_get k (fileStats (addTick e b)) = fs_get k (fileStats b).
Proof.
  unfold addTick. destruct (decide (e = "")) as [->|He]; simpl.
  - split; [done|]. split; [lia|done].
  - split; [done|]. split; [rewrite fs_sum_set; lia|].
    intros k Hk. generalize (default 0 (fs_get e (fileStats b)) + 1000).
    intros v. induction (fileStats b) as [|[k' w] fs IH]; simpl.
    + by rewrite decide_False.
    + destruct (decide (k' = e)) as [->|Hne]; simpl.
      * by rewrite !decide_False by done.
      * destruct (decide (k' = k)); [done | exact IH].
Qed.

Lemma addTick_ok e b : bucket_ok b -> bucket_ok (addTick e b).
Proof.
  unfold bucket_ok. destruct (addTick_amounts e b) as (-> & -> & _).
  destruct (decide (e = "")); lia.
Qed.

Lemma store_ok_empty : store_ok ∅.
Proof. intros p d b. unfold bucketAt. by rewrite lookup_empty. Qed.

Lemma store_ok_ensureBucket p d s : store_ok s -> store_ok (ensureBucket p d s).
Proof.
  intros Hs p' d' b. rewrite bucketAt_ensureBucket. case_decide as Hsame.
  - intros [= <-]. destruct (bucketAt s p d) as [b|] eqn:Hb; simpl.
    + by apply (Hs p d).
    + unfold bucket_ok. simpl. lia.
  - apply Hs.
Qed.

Lemma store_ok_accrue p d e s : store_ok s -> store_ok (accrue p d e s).
Proof.
  intros Hs p' d' b. rewrite bucketAt_accrue. case_decide as Hsame.
  - destruct (bucketAt s p d) as [b0|] eqn:Hb; simpl; [|done].
    intros [= <-]. apply addTick_ok. by apply (Hs p d).
  - apply Hs.
Qed.

(** *** Properties of the statistics that every operation keeps *)

Section StoreInvariant.

Variable P : StatsStore -> Prop.
Hypothesis P_empty : P ∅.
Hypothesis P_ensureBucket :
  forall ws d s, P s -> P (ensureBucket (resolveProjectName ws) d s).
Hypothesis P_accrue : forall p d e s, P s -> P (accrue p d e s).

Lemma stores_all_get σ : stores_all P σ -> stores_all P (globalState_get σ).
Proof.
  intros [Hmem Hsaved]. unfold globalState_get.
  destruct (persisted σ) as [s|] eqn:Hp; simpl.
  - split; [by apply Hsaved | intros s' [= <-]; by apply Hsaved].
  - split; [apply P_empty | done].
Qed.

Lemma stores_all_mutate f σ :
  (forall s, P s -> P (f s)) -> stores_all P σ -> stores_all P (mutate f σ).
Proof.
  intros Hf [Hmem Hsaved]. destruct σ as [s|mem saved]; simpl in *.
  - split; [by apply Hf | intros s' [= <-]; by apply Hf].
  - split; [by apply Hf | done].
Qed.

Lemma stores_all_update copy σ :
  stores_all P σ -> stores_all P (globalState_update copy σ).
Proof.
  intros [Hmem _]. split.
  - by rewrite inMemory_update.
  - rewrite persisted_update. by intros s [= <-].
Qed.

Lemma invariant_updateStatusBarItem now st :
  stores_all P (projectStats st) ->
  stores_all P (projectStats (updateStatusBarItem now st)).
Proof.
  by destruct (updateStatusBarItem_fields now st) as (_ & _ & _ & _ & -> & _).
Qed.

Lemma invariant_showProjectStats now st :
  stores_all P (projectStats st) ->
  stores_all P (projectStats (showProjectStats now st)).
Proof.
  intros H%stores_all_get. unfold showProjectStats.
  repeat (case_decide || case_match); exact H.
Qed.

Lemma invariant_startTrackingTime now ws st :
  stores_all P (projectStats st) ->
  stores_all P (projectStats (startTrackingTime now ws st)).
Proof.
  intros H%stores_all_get. unfold startTrackingTime. simpl.
  destruct (timerStartTime st); simpl; [done|].
  apply stores_all_mutate; [|done]. intros s. apply P_ensureBucket.
Qed.

Lemma invariant_tickCallback copy d now e st st' :
  stores_all P (projectStats st) ->
  tickCallback copy d now e st = Returned st' ->
  stores_all P (projectStats st').
Proof.
  intros H. unfold tickCallback.
  destruct (30000 <? epochMs now - lastActivityTime st); [by intros [= <-]|].
  destruct (bucketAt _ _ _); [|done]. intros [= <-].
  apply invariant_updateStatusBarItem. simpl.
  apply stores_all_update, stores_all_mutate; [|done].
  intros s. apply P_accrue.
Qed.

Lemma invariant_step copy st ev :
  stores_all P (projectStats st) -> stores_all P (projectStats (step copy st ev)).
Proof.
  intros H. destruct ev as [now|now ws| |now|now|h now e|]; simpl.
  - apply invariant_updateStatusBarItem. simpl. by apply stores_all_get.
  - by apply invariant_startTrackingTime.
  - done.
  - by apply invariant_showProjectStats.
  - done.
  - destruct (timerOf h (timers st)) as [[d|]|];
      [| by apply invariant_showProjectStats | done].
    destruct (tickCallback copy d now e st) as [st'|] eqn:Htick; [|done].
    by eapply invariant_tickCallback.
  - done.
Qed.

Lemma invariant_run copy evs st :
  stores_all P (projectStats st) -> stores_all P (projectStats (run copy st evs)).
Proof.
  revert st. induction evs as [|ev evs IH]; intros st H; [done|].
  rewrite run_cons. by apply IH, invariant_step.
Qed.

End StoreInvariant.

Lemma state_ok_run copy evs st : state_ok st -> state_ok (run copy st evs).
Proof.
  apply invariant_run.
  - apply store_ok_empty.
  - intros ws d s. apply store_ok_ensureBucket.
  - apply store_ok_accrue.
Qed.

Lemma state_ok_initial loadTime saved :
  (forall s, saved = Some s -> store_ok s) -> state_ok (initial loadTime saved).
Proof. intros H. split; [apply store_ok_empty | exact H]. Qed.

(** C5.  In every bucket of every project the values of [fileStats] add up
    to at most [totalTime], and every operation of the extension keeps it
    so: if it holds of the statistics (in memory and in [globalState])
    before a sequence of events, it holds after it.  An accrual adds the
    tick period to [totalTime] and to at most one [fileStats] entry, the
    one of the extension, and only when there is an extension. *)
Theorem fileStats_sum_at_most_totalTime
    (copy : bool) (st : State) (evs : list Event) :
  state_ok st ->
  state_ok (run copy st evs)
  /\ (forall e b,
        totalTime (addTick e b) = totalTime b + 1000
        /\ fs_sum (fileStats (addTick e b)) =
           fs_sum (fileStats b) + (if decide (e = "") then 0 else 1000)
        /\ forall k, k ≠ e -> fs_get k (fileStats (addTick e b)) = fs_get k (fileStats b)).
Proof.
  intros Hok. split; [by apply state_ok_run | apply addTick_amounts].
Qed.

Lemma fileStats_sum_at_most_totalTime_witness :
  state_ok (initial 1735732800000 None)
  /\ state_ok (run true (initial 1735732800000 None)
                 [Activate noon; CmdStart noon None;
                  TimerFires 0 (at_second 1) ".ts"; TimerFires 0 (at_second 2) "";
                  CmdShowStats (at_second 2); CmdStop]).
Proof.
  assert (Hinit : state_ok (initial 1735732800000 None))
    by (apply state_ok_initial; intros s; discriminate).
  split; [exact Hinit|].
  exact (proj1 (fileStats_sum_at_most_totalTime true (initial 1735732800000 None)
                  [Activate noon; CmdStart noon None;
                   TimerFires 0 (at_second 1) ".ts"; TimerFires 0 (at_second 2) "";
                   CmdShowStats (at_second 2); CmdStop] Hinit)).
Defined.

(** ** The report *)

(** Accrual keeps the order of the entries of [fileStats]: an extension
    that is already recorded keeps its place, a new one goes last. *)
Lemma fs_set_keys k v fs :
  map fst (fs_set k v fs) =
  if decide (k ∈ map fst fs) then map fst fs else map fst fs ++ [k].
Proof.
  induction fs as [|[k' w] fs IH].
  - reflexivity.
  - cbn [fs_set]. destruct (decide (k' = k)) as [->|Hne].
    + rewrite !map_cons. cbn [fst]. rewrite decide_True; [done | by left].
    + rewrite !map_cons, IH. cbn [fst].
      destruct (decide (k ∈ map fst fs)) as [Hin|Hout].
      * rewrite decide_True; [done | by right].
      * rewrite decide_False; [done|].
        intros [?|?]%elem_of_cons; [congruence | done].
Qed.

Lemma addTick_keys e b :
  map fst (fileStats (addTick e b)) =
  if decide (e = "" \/ e ∈ map fst (fileStats b)) then map fst (fileStats b)
  else map fst (fileStats b) ++ [e].
Proof.
  unfold addTick. destruct (decide (e = "")) as [Hempty|He]; cbn [fileStats].
  - rewrite decide_True; [done | by left].
  - rewrite fs_set_keys. destruct (decide (e ∈ map fst (fileStats b))).
    + rewrite decide_True; [done | by right].
    + rewrite decide_False; [done | tauto].
Qed.

(** *** The projects have names *)

Lemma resolveProjectName_named ws : resolveProjectName ws ≠ "".
Proof. destruct ws as [n|]; simpl; [|done]. by case_decide. Qed.

Lemma store_named_ensureBucket ws d s :
  store_named s -> store_named (ensureBucket (resolveProjectName ws) d s).
Proof.
  unfold store_named. intros H.
  rewrite ensureBucket_other_project; [done | apply resolveProjectName_named].
Qed.

Lemma store_named_accrue p d e s : store_named s -> store_named (accrue p d e s).
Proof.
  unfold store_named, accrue. intros H.
  destruct (s !! p) as [days|] eqn:Hp; [|done].
  destruct (days !! d); [|done].
  rewrite lookup_insert_ne; [done|]. intros ->. congruence.
Qed.

(** From statistics without an unnamed project the extension reaches no
    statistics with one. *)
Lemma state_named_run copy evs st : state_named st -> state_named (run copy st evs).
Proof.
  apply invariant_run.
  - apply lookup_empty.
  - apply store_named_ensureBucket.
  - apply store_named_accrue.
Qed.

Lemma state_named_initial loadTime saved :
  (forall s, saved = Some s -> store_named s) -> state_named (initial loadTime saved).
Proof. intros H. split; [apply lookup_empty | exact H]. Qed.

(** So a bucket that the report finds belongs to a current project. *)
Lemma reported_project_is_named st d b :
  state_named st ->
  bucketAt (default ∅ (persisted (projectStats st))) (projectName st) d = Some b ->
  projectName st ≠ "".
Proof.
  intros [_ Hsaved] Hb Hname. rewrite Hname in Hb.
  destruct (persisted (projectStats st)) as [s|]; simpl in Hb.
  - by rewrite (bucketAt_no_project _ _ _ (Hsaved s eq_refl)) in Hb.
  - by rewrite bucketAt_no_project in Hb.
Qed.

Lemma showProjectStats_fields now st :
  let st' := showProjectStats now st in
  timerStartTime st' = timerStartTime st /\ timerInterval st' = timerInterval st
  /\ statsInterval st' = statsInterval st /\ projectName st' = projectName st
  /\ projectStats st' = globalState_get (projectStats st)
  /\ lastActivityTime st' = lastActivityTime st
  /\ statusBarItem st' = statusBarItem st
  /\ timers st' = timers st /\ nextHandle st' = nextHandle st.
Proof.
  unfold showProjectStats. simpl.
  repeat (case_decide || case_match); done.
Qed.

(** ** Binary64 arithmetic *)

Lemma digits2_pos_size p : digits2_pos p = Pos.size p.
Proof. induction p as [p IH|p IH|]; simpl; by rewrite ?IH. Qed.

Lemma digits2_pos_log2 p : Z.pos (digits2_pos p) = Z.log2 (Z.pos p) + 1.
Proof.
  rewrite digits2_pos_size. destruct p as [p|p|]; simpl; try lia.
Qed.

Lemma digits2_pos_unique p d :
  0 < d -> 2 ^ (d - 1) <= Z.pos p < 2 ^ d -> Z.pos (digits2_pos p) = d.
Proof.
  intros Hd Hp. rewrite digits2_pos_log2.
  rewrite (Z.log2_unique (Z.pos p) (d - 1)); [lia | lia |].
  by replace (Z.succ (d - 1)) with d by lia.
Qed.

Lemma fexp_normal x : -1074 <= x - 53 -> fexp 53 1024 x = x - 53.
Proof. intros H. unfold fexp, emin. lia. Qed.

Lemma loc_of_shr_record_of_loc m l :
  loc_of_shr_record (shr_record_of_loc m l) = l.
Proof. by destruct l as [|[]]. Qed.

Lemma shr_m_of_loc m l : shr_m (shr_record_of_loc m l) = m.
Proof. by destruct l as [|[]]. Qed.

Lemma round_nearest_even_cases m l :
  round_nearest_even m l = m \/ round_nearest_even m l = m + 1.
Proof.
  destruct l as [|[]]; simpl; auto. destruct (Z.even m); auto.
Qed.

(** A mantissa of 53 bits is kept as it is. *)
Lemma shr_fexp_53 m e l :
  2 ^ 52 <= m < 2 ^ 53 -> -1074 <= e ->
  shr_fexp 53 1024 m e l = (shr_record_of_loc m l, e).
Proof.
  intros Hm He. unfold shr_fexp.
  destruct m as [|p|p]; try lia.
  cbn [Zdigits2]. rewrite (digits2_pos_unique p 53) by lia.
  rewrite fexp_normal by lia.
  replace (53 + e - 53 - e) with 0 by lia. reflexivity.
Qed.

(** One of 54 bits loses its last bit. *)
Lemma shr_fexp_54 m e l :
  2 ^ 53 <= m < 2 ^ 54 -> -1074 <= e + 1 ->
  exists r s, shr_fexp 53 1024 m e l =
              ({| shr_m := m / 2; shr_r := r; shr_s := s |}, e + 1).
Proof.
  intros Hm He. unfold shr_fexp.
  destruct m as [|p|p]; try lia.
  cbn [Zdigits2]. rewrite (digits2_pos_unique p 54) by lia.
  rewrite fexp_normal by lia.
  replace (54 + e - 53 - e) with 1 by lia.
  unfold shr. cbn [iter_pos].
  destruct p as [p|p|]; [| |lia].
  - exists true, (match l with loc_Exact => false | _ => true end).
    replace (Z.pos p~1 / 2) with (Z.pos p)
      by (apply Z.div_unique with 1; lia).
    by destruct l as [|[]].
  - exists false, (match l with loc_Exact => false | _ => true end).
    replace (Z.pos p~0 / 2) with (Z.pos p)
      by (apply Z.div_unique with 0; lia).
    by destruct l as [|[]].
Qed.

(** The last step of a rounding: a mantissa of 53 bits is the result, and
    [2 ^ 53], which a carry gives, is renormalised. *)
Lemma binary_round_aux_finish (m : Z) (e : Z) :
  2 ^ 52 <= m <= 2 ^ 53 -> -1074 <= e -> e + 1 <= 971 ->
  exists M E,
    (let '(mrs, e') := shr_fexp 53 1024 m e loc_Exact in
     match shr_m mrs with
     | Z0 => S754_zero false
     | Z.pos m' =>
         if e' <=? 1024 - 53 then S754_finite false m' e' else S754_infinity false
     | Z.neg _ => S754_nan
     end) = S754_finite false M E
    /\ 2 ^ 52 <= Z.pos M < 2 ^ 53 /\ e <= E <= e + 1
    /\ Z.pos M * 2 ^ (E - e) = m.
Proof.
  intros Hm He He'.
  destruct (decide (m < 2 ^ 53)) as [Hlt|Hge].
  - rewrite shr_fexp_53 by lia. cbn [shr_record_of_loc shr_m].
    destruct m as [|p|p]; try lia.
    exists p, e. replace (e <=? 1024 - 53) with true by (symmetry; apply Z.leb_le; lia).
    replace (e - e) with 0 by lia. split; [done|]. lia.
  - assert (Hm' : m = 2 ^ 53) by lia. subst m.
    destruct (shr_fexp_54 (2 ^ 53) e loc_Exact) as (r & s & ->); [lia | lia |].
    cbn [shr_m]. change (2 ^ 53 / 2) with (Z.pos (2 ^ 52)).
    exists (2 ^ 52)%positive, (e + 1).
    replace (e + 1 <=? 1024 - 53) with true by (symmetry; apply Z.leb_le; lia).
    replace (e + 1 - e) with 1 by lia. split; [done|]. lia.
Qed.

(** Rounding a mantissa of 53 or 54 bits, whatever its location: the
    result is within one unit of its last place. *)
Lemma binary_round_aux_coarse (m : Z) (e : Z) (l : location) :
  2 ^ 52 <= m < 2 ^ 54 -> -1074 <= e -> e + 2 <= 971 ->
  exists M E,
    binary_round_aux 53 1024 false m e l = S754_finite false M E
    /\ 2 ^ 52 <= Z.pos M < 2 ^ 53 /\ e <= E <= e + 2
    /\ m - 2 ^ (E - e) + 1 <= Z.pos M * 2 ^ (E - e) <= m + 2 ^ (E - e).
Proof.
  intros Hm He He'. unfold binary_round_aux.
  destruct (decide (m < 2 ^ 53)) as [Hlt|Hge].
  - rewrite shr_fexp_53 by lia.
    rewrite loc_of_shr_record_of_loc, shr_m_of_loc.
    pose proof (round_nearest_even_cases m l) as Hr.
    set (m' := round_nearest_even m l) in *.
    destruct (binary_round_aux_finish m' e) as (M & E & Heq & HM & HE & Hval);
      [lia | lia | lia |].
    exists M, E. split; [exact Heq|]. split; [exact HM|]. split; [lia|].
    assert (HE' : E - e = 0 \/ E - e = 1) by lia.
    destruct HE' as [HE'|HE']; rewrite HE' in *; lia.
  - destruct (shr_fexp_54 m e l) as (r & s & ->); [lia | lia |].
    cbn [shr_m].
    pose proof (round_nearest_even_cases (m / 2)
                  (loc_of_shr_record {| shr_m := m / 2; shr_r := r; shr_s := s |})) as Hr.
    set (m' := round_nearest_even _ _) in *.
    assert (Hhalf : 2 ^ 52 <= m / 2 < 2 ^ 53).
    { split; [apply Z.div_le_lower_bound; lia | apply Z.div_lt_upper_bound; lia]. }
    assert (Hdiv : 2 * (m / 2) <= m <= 2 * (m / 2) + 1).
    { pose proof (Z.div_mod m 2 ltac:(lia)). pose proof (Z.mod_pos_bound m 2 ltac:(lia)). lia. }
    destruct (binary_round_aux_finish m' (e + 1)) as (M & E & Heq & HM & HE & Hval);
      [lia | lia | lia |].
    exists M, E. split; [exact Heq|]. split; [exact HM|]. split; [lia|].
    assert (HE' : E - (e + 1) = 0 /\ E - e = 1 \/ E - (e + 1) = 1 /\ E - e = 2) by lia.
    destruct HE' as [[HE1 HE2]|[HE1 HE2]]; rewrite HE1 in Hval; rewrite HE2; lia.
Qed.

(** A mantissa of 53 bits that is known exactly is the result. *)
Lemma binary_round_aux_exact (p : positive) (e : Z) :
  2 ^ 52 <= Z.pos p < 2 ^ 53 -> -1074 <= e <= 971 ->
  binary_round_aux 53 1024 false (Z.pos p) e loc_Exact = S754_finite false p e.
Proof.
  intros Hp He. unfold binary_round_aux.
  rewrite shr_fexp_53 by lia. cbn [shr_record_of_loc shr_m loc_of_shr_record round_nearest_even].
  rewrite shr_fexp_53 by lia. cbn [shr_record_of_loc shr_m].
  by replace (e <=? 1024 - 53) with true by (symmetry; apply Z.leb_le; lia).
Qed.

(** Division of two normal numbers: the quotient is a normal number within
    one unit of its last place of the exact quotient. *)
Lemma SFdiv_coarse (mx my : positive) (ex ey : Z) :
  2 ^ 52 <= Z.pos mx < 2 ^ 53 -> 2 ^ 52 <= Z.pos my < 2 ^ 53 ->
  -1021 <= ex - ey <= 1022 ->
  exists M E,
    SFdiv 53 1024 (S754_finite false mx ex) (S754_finite false my ey)
    = S754_finite false M E
    /\ 2 ^ 52 <= Z.pos M < 2 ^ 53
    /\ 51 <= ex - ey - E <= 53
    /\ (Z.pos M - 1) * Z.pos my <= Z.pos mx * 2 ^ (ex - ey - E)
       <= (Z.pos M + 1) * Z.pos my.
Proof.
  intros Hx Hy He. unfold SFdiv, SFdiv_core_binary. cbn [xorb Zdigits2].
  rewrite (digits2_pos_unique mx 53), (digits2_pos_unique my 53) by lia.
  rewrite fexp_normal by lia.
  replace (Z.min (53 + ex - (53 + ey) - 53) (ex - ey)) with (ex - ey - 53) by lia.
  replace (ex - ey - (ex - ey - 53)) with 53 by lia. cbv iota.
  rewrite Z.shiftl_mul_pow2 by lia.
  pose proof (Z_div_mod (Z.pos mx * 2 ^ 53) (Z.pos my) ltac:(lia)) as Hdiv.
  destruct (Z.div_eucl (Z.pos mx * 2 ^ 53) (Z.pos my)) as [q r].
  destruct Hdiv as [Hq Hr].
  assert (Hq52 : 2 ^ 52 <= q).
  { destruct (decide (2 ^ 52 <= q)) as [|Hn]; [done|]. exfalso.
    assert (Z.pos my * q <= Z.pos my * (2 ^ 52 - 1)) by (apply Z.mul_le_mono_nonneg_l; lia).
    assert (2 ^ 52 * 2 ^ 53 <= Z.pos mx * 2 ^ 53) by (apply Z.mul_le_mono_nonneg_r; lia).
    assert (Z.pos my * 2 ^ 52 <= 2 ^ 53 * 2 ^ 52) by (apply Z.mul_le_mono_nonneg_r; lia).
    lia. }
  assert (Hq54 : q < 2 ^ 54).
  { destruct (decide (q < 2 ^ 54)) as [|Hn]; [done|]. exfalso.
    assert (Z.pos my * 2 ^ 54 <= Z.pos my * q) by (apply Z.mul_le_mono_nonneg_l; lia).
    assert (2 ^ 52 * 2 ^ 54 <= Z.pos my * 2 ^ 54) by (apply Z.mul_le_mono_nonneg_r; lia).
    assert (Z.pos mx * 2 ^ 53 <= 2 ^ 53 * 2 ^ 53) by (apply Z.mul_le_mono_nonneg_r; lia).
    lia. }
  destruct (binary_round_aux_coarse q (ex - ey - 53) (new_location (Z.pos my) r))
    as (M & E & Heq & HM & HE & Hval); [lia | lia | lia |].
  exists M, E. split; [exact Heq|]. split; [exact HM|]. split; [lia|].
  assert (Hk : E - (ex - ey - 53) = 0 /\ ex - ey - E = 53
               \/ E - (ex - ey - 53) = 1 /\ ex - ey - E = 52
               \/ E - (ex - ey - 53) = 2 /\ ex - ey - E = 51) by lia.
  destruct Hk as [[Hk Hj]|[[Hk Hj]|[Hk Hj]]]; rewrite Hk in Hval; rewrite Hj.
  - change (2 ^ 0) with 1 in Hval.
    assert (Z.pos my * (Z.pos M - 1) <= Z.pos my * q)
      by (apply Z.mul_le_mono_nonneg_l; lia).
    assert (Z.pos my * (q + 1) <= Z.pos my * (Z.pos M + 1))
      by (apply Z.mul_le_mono_nonneg_l; lia).
    lia.
  - change (2 ^ 1) with 2 in Hval.
    replace (2 ^ 53) with (2 ^ 52 * 2) in Hq by reflexivity.
    assert (Z.pos my * (2 * (Z.pos M - 1)) <= Z.pos my * q)
      by (apply Z.mul_le_mono_nonneg_l; lia).
    assert (Z.pos my * (q + 1) <= Z.pos my * (2 * (Z.pos M + 1)))
      by (apply Z.mul_le_mono_nonneg_l; lia).
    lia.
  - change (2 ^ 2) with 4 in Hval.
    replace (2 ^ 53) with (2 ^ 51 * 4) in Hq by reflexivity.
    assert (Z.pos my * (4 * (Z.pos M - 1)) <= Z.pos my * q)
      by (apply Z.mul_le_mono_nonneg_l; lia).
    assert (Z.pos my * (q + 1) <= Z.pos my * (4 * (Z.pos M + 1)))
      by (apply Z.mul_le_mono_nonneg_l; lia).
    lia.
Qed.

Lemma pos_iter_xO (p k : positive) :
  Z.pos (Pos.iter xO p k) = Z.pos p * 2 ^ Z.pos k.
Proof.
  induction k as [|k IH] using Pos.peano_ind.
  - simpl Pos.iter. change (2 ^ 1) with 2. lia.
  - rewrite Pos.iter_succ, Pos2Z.inj_xO, IH, Pos2Z.inj_succ, Z.pow_succ_r by lia. lia.
Qed.

(** An integer below [2 ^ 53] is a number: the conversion is exact. *)
Lemma of_Z_exact (t : Z) :
  0 < t < 2 ^ 53 ->
  exists m e,
    of_Z t = S754_finite false m e
    /\ 2 ^ 52 <= Z.pos m < 2 ^ 53 /\ -52 <= e <= 0 /\ Z.pos m = t * 2 ^ (- e).
Proof.
  intros Ht. destruct t as [|p|p]; try lia.
  unfold of_Z, binary_normalize, binary_round.
  pose proof (digits2_pos_log2 p) as Hd.
  pose proof (Z.log2_spec (Z.pos p) ltac:(lia)) as Hspec.
  assert (Hlog : 0 <= Z.log2 (Z.pos p) < 53).
  { split; [apply Z.log2_nonneg | apply Z.log2_lt_pow2; lia]. }
  set (d := Z.pos (digits2_pos p)) in *.
  assert (Hspec' : 2 ^ (d - 1) <= Z.pos p < 2 ^ d).
  { replace (d - 1) with (Z.log2 (Z.pos p)) by lia.
    replace d with (Z.succ (Z.log2 (Z.pos p))) by lia. exact Hspec. }
  rewrite fexp_normal by lia. unfold shl_align.
  destruct (d + 0 - 53 - 0) as [|k|k] eqn:Hs; [|lia|].
  - assert (Hd53 : d = 53) by lia. rewrite Hd53 in Hspec'.
    rewrite binary_round_aux_exact by (change (53 - 1) with 52 in Hspec'; lia).
    exists p, 0. change (2 ^ (- 0)) with 1. split; [done|].
    change (53 - 1) with 52 in Hspec'. lia.
  - assert (Hk : Z.pos k = 53 - d) by lia.
    assert (Hpow : 2 ^ (d - 1) * 2 ^ Z.pos k = 2 ^ 52 /\ 2 ^ d * 2 ^ Z.pos k = 2 ^ 53).
    { rewrite <- !Z.pow_add_r by lia. split; f_equal; lia. }
    assert (Hk0 : 0 < 2 ^ Z.pos k) by (apply Z.pow_pos_nonneg; lia).
    assert (Hm : 2 ^ 52 <= Z.pos (Pos.iter xO p k) < 2 ^ 53).
    { rewrite pos_iter_xO. destruct Hpow as [<- <-].
      split; [apply Z.mul_le_mono_nonneg_r; lia | apply Z.mul_lt_mono_pos_r; lia]. }
    rewrite binary_round_aux_exact by lia.
    exists (Pos.iter xO p k), (d + 0 - 53). split; [done|]. split; [exact Hm|].
    split; [lia|]. rewrite pos_iter_xO. f_equal. f_equal. lia.
Qed.

Lemma of_Z_1000 : of_Z 1000 = S754_finite false 8796093022208000 (-43).
Proof. vm_compute. reflexivity. Qed.

Lemma of_Z_60 : of_Z 60 = S754_finite false 8444249301319680 (-47).
Proof. vm_compute. reflexivity. Qed.

(** The number of minutes the code computes for [t] milliseconds,
    [t / 1000 / 60] with two rounded divisions: a normal number
    [M * 2 ^ (- A)] whose distance from [t / 60000] is far below a tenth. *)
Lemma minutes_number (t : Z) :
  0 < t <= 2 ^ 50 ->
  exists M A,
    div (div (of_Z t) (of_Z 1000)) (of_Z 60) = S754_finite false M (- A)
    /\ 2 ^ 52 <= Z.pos M < 2 ^ 53 /\ 17 <= A
    /\ -124000 <= 60000 * Z.pos M - t * 2 ^ A <= 124000.
Proof.
  intros Ht.
  destruct (of_Z_exact t) as (m0 & e0 & -> & Hm0 & He0 & Hval0); [lia|].
  rewrite of_Z_1000, of_Z_60. unfold div.
  destruct (SFdiv_coarse m0 8796093022208000 e0 (-43))
    as (M1 & E1 & -> & HM1 & Hj1 & Hb1); [lia | lia | lia |].
  destruct (SFdiv_coarse M1 8444249301319680 E1 (-47))
    as (M2 & E2 & -> & HM2 & Hj2 & Hb2); [lia | lia | lia |].
  exists M2, (- E2). rewrite Z.opp_involutive. split; [done|]. split; [exact HM2|].
  (* the first quotient, against [t * 2 ^ A1] *)
  set (A1 := - E1).
  assert (HA1 : 8 <= A1) by (unfold A1; lia).
  assert (Hx : Z.pos m0 * 2 ^ (e0 - -43 - E1) = t * 2 ^ A1 * 2 ^ 43).
  { rewrite Hval0, <- !Z.mul_assoc, <- !Z.pow_add_r by lia.
    do 2 f_equal. unfold A1. lia. }
  rewrite Hx in Hb1.
  assert (Hb1' : (Z.pos M1 - 1) * 1000 <= t * 2 ^ A1 <= (Z.pos M1 + 1) * 1000) by lia.
  clear Hb1 Hx.
  (* the second quotient, against the first *)
  assert (Hk : (E1 - -47 - E2 = 51 /\ - E2 = A1 + 4)
               \/ (E1 - -47 - E2 = 52 /\ - E2 = A1 + 5)
               \/ (E1 - -47 - E2 = 53 /\ - E2 = A1 + 6)) by (unfold A1; lia).
  assert (Hpos : 0 < 2 ^ A1) by (apply Z.pow_pos_nonneg; lia).
  assert (Hbound : -124000 <= 60000 * Z.pos M2 - t * 2 ^ (- E2) <= 124000).
  { destruct Hk as [[Hj HA]|[[Hj HA]|[Hj HA]]]; rewrite Hj in Hb2; rewrite HA;
      rewrite Z.pow_add_r by lia.
    - change (2 ^ 4) with 16. change (2 ^ 51) with (16 * 2 ^ 47) in Hb2. lia.
    - change (2 ^ 5) with 32. change (2 ^ 52) with (32 * 2 ^ 47) in Hb2. lia.
    - change (2 ^ 6) with 64. change (2 ^ 53) with (64 * 2 ^ 47) in Hb2. lia. }
  split; [|exact Hbound].
  destruct (decide (17 <= - E2)) as [|Hsmall]; [done|]. exfalso.
  assert (H16 : 2 ^ (- E2) <= 2 ^ 16) by (apply Z.pow_le_mono_r; lia).
  assert (0 < 2 ^ (- E2)) by (apply Z.pow_pos_nonneg; lia).
  assert (t * 2 ^ (- E2) <= 2 ^ 50 * 2 ^ 16).
  { apply Z.mul_le_mono_nonneg; lia. }
  lia.
Qed.

Lemma digit_pretty (d : Z) : 0 <= d <= 9 -> digit d = pretty d.
Proof.
  intros Hd.
  assert (H : d = 0 \/ d = 1 \/ d = 2 \/ d = 3 \/ d = 4 \/ d = 5 \/ d = 6
              \/ d = 7 \/ d = 8 \/ d = 9) by lia.
  repeat (destruct H as [->|H]; [vm_compute; reflexivity|]). subst d.
  vm_compute. reflexivity.
Qed.

(** [(t / 1000 / 60).toFixed(1)] is the decimal numeral, with one digit
    after the point, of a number of tenths of a minute nearest to [t]
    milliseconds. *)
Lemma minutes_text_nearest_tenth (Number_toString : number -> string) (t : Z) :
  0 <= t <= 2 ^ 50 ->
  exists n,
    0 <= n /\ -3000 <= 6000 * n - t <= 3000
    /\ minutes_text Number_toString t = pretty (n / 10) +:+ "." +:+ pretty (n mod 10).
Proof.
  intros Ht. destruct (decide (t = 0)) as [->|Hne].
  { exists 0. split; [lia|]. split; [lia|]. vm_compute. reflexivity. }
  destruct (minutes_number t) as (M & A & Hnum & HM & HA & Hbound); [lia|].
  unfold minutes_text. rewrite Hnum. unfold toFixed1.
  replace (0 <=? - A) with false by (symmetry; apply Z.leb_gt; lia).
  rewrite Z.opp_involutive. replace (1 - - A) with (A + 1) by lia.
  assert (HP : 2 ^ 17 <= 2 ^ A) by (apply Z.pow_le_mono_r; lia).
  replace (10 ^ 21 * 2 ^ A <=? Z.pos M) with false.
  2:{ symmetry. apply Z.leb_gt.
      assert (10 ^ 21 * 1 <= 10 ^ 21 * 2 ^ A) by (apply Z.mul_le_mono_nonneg_l; lia).
      lia. }
  set (n := (20 * Z.pos M + 2 ^ A) / 2 ^ (A + 1)).
  assert (Hpow : 2 ^ (A + 1) = 2 * 2 ^ A) by (rewrite Z.pow_add_r by lia; lia).
  assert (Hn : 2 * 2 ^ A * n <= 20 * Z.pos M + 2 ^ A < 2 * 2 ^ A * (n + 1)).
  { rewrite <- Hpow.
    pose proof (Z.div_mod (20 * Z.pos M + 2 ^ A) (2 ^ (A + 1)) ltac:(lia)) as Hdm.
    pose proof (Z.mod_pos_bound (20 * Z.pos M + 2 ^ A) (2 ^ (A + 1)) ltac:(lia)) as Hmb.
    fold n in Hdm. lia. }
  assert (Hn0 : 0 <= n) by (apply Z.div_pos; lia).
  exists n. split; [exact Hn0|]. split.
  - split.
    + destruct (decide (-3000 <= 6000 * n - t)) as [|Hlt]; [done|]. exfalso.
      assert (2 ^ A * 1 <= 2 ^ A * (t - 6000 * n - 3000))
        by (apply Z.mul_le_mono_nonneg_l; lia).
      lia.
    + destruct (decide (6000 * n - t <= 3000)) as [|Hgt]; [done|]. exfalso.
      assert (2 ^ A * 1 <= 2 ^ A * (6000 * n - t - 3000))
        by (apply Z.mul_le_mono_nonneg_l; lia).
      lia.
  - cbn [String.app]. rewrite digit_pretty; [done|].
    pose proof (Z.mod_pos_bound n 10 ltac:(lia)). lia.
Qed.

(** C6.  The report re-reads the statistics and shows one message.  When
    the current project has no bucket for the current date the message is a
    notice that nothing is tracked ("No stats available." when there is no
    current project or no entry for it, "No tracked time today." when the
    project has entries but none for the date).  Otherwise it is the
    summary of that bucket: the total in minutes with one decimal
    ([toFixed(1)] of [totalTime / 1000 / 60]), then one line per recorded
    extension with its time in the same unit, in the order of [fileStats],
    which is the order in which the extensions were first recorded (an
    accrual leaves the recorded extensions in place and puts a new one
    last).  (The notices are those of a project name that is not the name
    of a member of [Object.prototype]: under such a name the read of the
    project finds the inherited member, see [Plain].)  The text of a time
    of [t] milliseconds (up to [2 ^ 50], some
    35000 years) is the decimal numeral [n / 10], with its one digit after
    the point, of a whole number [n] of tenths of a minute nearest to [t]:
    [n * 6000] differs from [t] by 3000 at most.  When [t] is halfway
    between two tenths both are nearest, and the binary rounding of the
    two divisions decides (9000 ms gives "0.1", 15000 ms gives "0.3"). *)
Theorem report_of_the_current_day
    (Number_toString : number -> string) (now : Instant) (st : State) :
  let reloaded := default ∅ (persisted (projectStats st)) in
  let today := getCurrentDate now in
  (exists n,
     shown (showProjectStats now st) = shown st ++ [n]
     /\ match bucketAt reloaded (projectName st) today with
        | None =>
            projectName st ≠ "__proto__" ->
            ~ (projectName st ∈ Plain.inheritedFunctions) ->
            n = (if decide (projectName st = "") then NoStatsAvailable
                 else match reloaded !! projectName st with
                      | None => NoStatsAvailable
                      | Some _ => NoTrackedTimeToday
                      end)
        | Some b =>
            projectName st ≠ "" ->
            n = StatsSummary (projectName st) today b
            /\ message_text Number_toString n =
               "📊 **Project: " +:+ projectName st +:+ "**" +:+ newline +:+
               "📅 **" +:+ today +:+ "**" +:+ newline +:+
               "🕒 Total: " +:+ minutes_text Number_toString (totalTime b) +:+
               " min" +:+ newline +:+
               match fileStats b with
               | [] => "📂 No tracked files"
               | _ :: _ =>
                   String.concat newline
                     (map (fun entry =>
                             "- " +:+ fst entry +:+ ": " +:+
                             minutes_text Number_toString (snd entry) +:+ " min")
                          (fileStats b))
               end
        end)
  /\ (forall e b,
        map fst (fileStats (addTick e b)) =
        if decide (e = "" \/ e ∈ map fst (fileStats b)) then map fst (fileStats b)
        else map fst (fileStats b) ++ [e])
  /\ (forall t, 0 <= t <= 2 ^ 50 ->
        exists n,
          0 <= n /\ -3000 <= 6000 * n - t <= 3000
          /\ minutes_text Number_toString t
             = pretty (n / 10) +:+ "." +:+ pretty (n mod 10)).
Proof.
  intros reloaded today.
  split; [|split; [apply addTick_keys | apply minutes_text_nearest_tenth]].
  unfold showProjectStats. simpl. rewrite inMemory_get. fold reloaded today.
  destruct (decide (projectName st = "")) as [Hname|Hname].
  - eexists. split; [reflexivity|].
    destruct (bucketAt reloaded (projectName st) today); [done|done].
  - unfold bucketAt. destruct (reloaded !! projectName st) as [days|]; simpl.
    + destruct (days !! today) as [b|]; simpl.
      * eexists. split; [reflexivity|]. intros _. split; [done|].
        simpl. do 9 f_equal.
        destruct (fileStats b) as [|entry entries]; [done|].
        rewrite decide_False; [done|].
        destruct entries; simpl; discriminate.
      * eexists. split; [reflexivity|done].
    + eexists. split; [reflexivity|done].
Qed.

(** The report of a day with 75 seconds on two extensions. *)
Example report_text_of_a_day :
  message_text (fun _ => "")
    (StatsSummary "demo" "2025-01-01 (Wednesday)"
       {| totalTime := 75000; fileStats := [(".ts", 60000); (".md", 15000)] |})
  = "📊 **Project: demo**" +:+ newline +:+
    "📅 **2025-01-01 (Wednesday)**" +:+ newline +:+
    "🕒 Total: 1.3 min" +:+ newline +:+
    "- .ts: 1.0 min" +:+ newline +:+ "- .md: 0.3 min".
Proof. by vm_compute. Qed.

(** Times halfway between two tenths of a minute. *)
Example minutes_text_of_ties :
  minutes_text (fun _ => "") 3000 = "0.1"
  /\ minutes_text (fun _ => "") 9000 = "0.1"
  /\ minutes_text (fun _ => "") 15000 = "0.3"
  /\ minutes_text (fun _ => "") 57000 = "0.9"
  /\ minutes_text (fun _ => "") 3597000 = "60.0".
Proof. by vm_compute. Qed.

(** ** Re-reading the statistics: the report and a repeated start *)

Example first_session_bucket :
  projectName first_session = "Unknown Project"
  /\ timers first_session =
       [(0%nat, AccountingTick "2025-01-01 (Wednesday)"); (1%nat, StatsReport)]
  /\ projectStats first_session =
       Separate {[ "Unknown Project" := {[ "2025-01-01 (Wednesday)" := emptyBucket ]} ]}
                None.
Proof. by vm_compute. Qed.

(** C7, as the code has it.  The report changes nothing that is persisted
    and no bucket, but it is not free of effect on the statistics in
    memory: it assigns to [projectStats] what it re-reads from
    [globalState] (the empty object when nothing was stored).  The
    statistics in memory are therefore the same before and after exactly
    when they agreed with the stored ones.  Nothing else of the state
    changes, the message shown apart.  A report that only read the
    statistics would assign nothing: when nothing is stored yet, the
    assignment loses the bucket that the start created. *)
Theorem report_rereads_the_statistics (now : Instant) (st : State) :
  let st' := showProjectStats now st in
  persisted (projectStats st') = persisted (projectStats st)
  /\ inMemory (projectStats st') = default ∅ (persisted (projectStats st))
  /\ (persisted (projectStats st) = Some (inMemory (projectStats st)) ->
      inMemory (projectStats st') = inMemory (projectStats st))
  /\ timerStartTime st' = timerStartTime st /\ timerInterval st' = timerInterval st
  /\ statsInterval st' = statsInterval st /\ projectName st' = projectName st
  /\ lastActivityTime st' = lastActivityTime st
  /\ timers st' = timers st /\ nextHandle st' = nextHandle st.
Proof.
  intros st'.
  destruct (showProjectStats_fields now st)
    as (Ht & Hti & Hsi & Hn & Hσ & Hl & _ & Hts & Hnh).
  fold st' in Ht, Hti, Hsi, Hn, Hσ, Hl, Hts, Hnh.
  rewrite Hσ, persisted_get, inMemory_get.
  repeat split; try done.
  by intros ->.
Qed.

(** Counterexample to C7 as stated: in the first session the bucket that
    [startTrackingTime] created exists in memory only, and the report
    replaces the statistics in memory by the empty object. *)
Lemma report_changes_the_statistics_in_memory :
  bucketAt (inMemory (projectStats first_session))
           "Unknown Project" "2025-01-01 (Wednesday)" = Some emptyBucket
  /\ bucketAt (inMemory (projectStats (showProjectStats noon first_session)))
              "Unknown Project" "2025-01-01 (Wednesday)" = None
  /\ inMemory (projectStats (showProjectStats noon first_session)) = ∅.
Proof. by vm_compute. Qed.

(** C3, as the code has it.  [startTrackingTime] called while the clock is
    running sets no timer (the timers of the host, and with them the date
    captured by the accounting tick, are unchanged), leaves the clock
    running with the same start time and the same project, shows no
    message, and stores nothing; but before the guard it assigns to
    [projectStats] what it re-reads from [globalState].  The statistics in
    memory are unchanged when they agreed with the stored ones.  When
    nothing is stored yet, the re-read loses the bucket that the first
    start created: the guard comes one statement too late to make the
    repeated start the no-op it is meant to be. *)
Theorem start_while_running_only_rereads
    (now : Instant) (ws : option string) (st : State) (t : Z) :
  timerStartTime st = Some t ->
  let st' := startTrackingTime now ws st in
  timers st' = timers st /\ nextHandle st' = nextHandle st
  /\ timerInterval st' = timerInterval st /\ statsInterval st' = statsInterval st
  /\ timerStartTime st' = Some t /\ projectName st' = projectName st
  /\ lastActivityTime st' = lastActivityTime st
  /\ statusBarItem st' = statusBarItem st /\ shown st' = shown st
  /\ persisted (projectStats st') = persisted (projectStats st)
  /\ inMemory (projectStats st') = default ∅ (persisted (projectStats st))
  /\ (persisted (projectStats st) = Some (inMemory (projectStats st)) ->
      inMemory (projectStats st') = inMemory (projectStats st)).
Proof.
  intros Hrunning st'. subst st'. unfold startTrackingTime. simpl.
  rewrite Hrunning. simpl. rewrite persisted_get, inMemory_get.
  repeat split; try done.
  by intros ->.
Qed.

Lemma start_while_running_only_rereads_witness :
  timerStartTime first_session = Some 1735732800000
  /\ timers (startTrackingTime noon None first_session) = timers first_session
  /\ projectName (startTrackingTime noon None first_session) = projectName first_session
  /\ inMemory (projectStats (startTrackingTime noon None first_session)) = ∅.
Proof.
  assert (Hrunning : timerStartTime first_session = Some 1735732800000)
    by reflexivity.
  destruct (start_while_running_only_rereads noon None first_session _ Hrunning)
    as (Ht & _ & _ & _ & _ & Hn & _ & _ & _ & _ & Hmem & _).
  split; [exact Hrunning|]. split; [exact Ht|]. split; [exact Hn|exact Hmem].
Defined.

(** Counterexample to C3 as stated: a second start in the first session,
    before any tick, empties the statistics in memory; the bucket of the
    session is gone, and the next tick of the session throws. *)
Lemma start_while_running_changes_the_statistics_in_memory :
  timerStartTime first_session = Some 1735732800000
  /\ bucketAt (inMemory (projectStats first_session))
              "Unknown Project" "2025-01-01 (Wednesday)" = Some emptyBucket
  /\ bucketAt (inMemory (projectStats (startTrackingTime noon None first_session)))
              "Unknown Project" "2025-01-01 (Wednesday)" = None
  /\ tickCallback true "2025-01-01 (Wednesday)"
       {| epochMs := 1735732801000; utcOffsetMin := 0 |} ".ts"
       (startTrackingTime noon None first_session) = ThrewTypeError.
Proof. by vm_compute. Qed.

(** ** The activity timestamp at load time *)

Lemma activate_fields now st :
  let st' := activate now st in
  timerStartTime st' = timerStartTime st /\ timerInterval st' = timerInterval st
  /\ statsInterval st' = statsInterval st /\ projectName st' = projectName st
  /\ projectStats st' = globalState_get (projectStats st)
  /\ lastActivityTime st' = lastActivityTime st
  /\ timers st' = timers st /\ nextHandle st' = nextHandle st /\ shown st' = shown st.
Proof.
  unfold activate.
  pose proof (updateStatusBarItem_fields now
    (set_statusBarItem (Some Blank)
       (set_projectStats (globalState_get (projectStats st)) st))) as Hf.
  simpl in Hf. exact Hf.
Qed.

(** C10.  The module sets [lastActivityTime] to the time at which it is
    loaded.  So when tracking is started after activation and the first
    tick fires at most 30000 ms after the load, the tick accrues (1000 ms
    on [totalTime], and on the entry of the extension if there is one),
    although no activity signal was ever received: [lastActivityTime] is
    still the load time. *)
Theorem first_tick_accrues_without_activity
    (copy : bool) (loadTime : Z) (saved : option StatsStore)
    (activation now : Instant) (ws : option string)
    (tick : Instant) (fileExt : string) :
  epochMs tick - loadTime <= 30000 ->
  let started := run copy (initial loadTime saved) [Activate activation; CmdStart now ws] in
  let p := resolveProjectName ws in
  let d := getCurrentDate now in
  let before := default emptyBucket (bucketAt (default ∅ saved) p d) in
  lastActivityTime started = loadTime
  /\ timerOf 0 (timers started) = Some (AccountingTick d)
  /\ bucketAt (inMemory (projectStats started)) p d = Some before
  /\ bucketAt (inMemory (projectStats (step copy started (TimerFires 0 tick fileExt)))) p d
     = Some (addTick fileExt before)
  /\ totalTime (addTick fileExt before) = totalTime before + 1000.
Proof.
  intros Hwithin started p d before.
  destruct (activate_fields activation (initial loadTime saved))
    as (Ht & _ & _ & _ & Hσ & Hl & Hts & Hnh & _).
  simpl in Ht, Hl, Hts, Hnh.
  destruct (startTrackingTime_stopped now ws _ Ht)
    as (_ & Hname & Hmem & Htimers & _ & _ & _ & Hlast & _).
  change (startTrackingTime now ws (activate activation (initial loadTime saved)))
    with started in Hname, Hmem, Htimers, Hlast.
  fold p in Hname, Hmem. fold d in Hmem, Htimers.
  rewrite Hσ, persisted_get in Hmem. simpl in Hmem.
  rewrite Hts, Hnh in Htimers. simpl in Htimers.
  rewrite Hl in Hlast.
  assert (Hb : bucketAt (inMemory (projectStats started)) p d = Some before).
  { rewrite Hmem, bucketAt_ensureBucket. by rewrite decide_True. }
  split; [exact Hlast|].
  split; [by rewrite Htimers|].
  split; [exact Hb|].
  split; [|apply addTick_amounts].
  rewrite <- Hlast in Hwithin. rewrite <- Hname in Hb.
  destruct (tickCallback_accrues copy d tick fileExt started _ Hwithin Hb)
    as (st' & Htick & Hmem' & _).
  rewrite (step_tick_returned copy started 0 d tick fileExt st');
    [|by rewrite Htimers|exact Htick].
  rewrite Hmem', <- Hname, bucketAt_accrue, decide_True by done.
  by rewrite Hb.
Qed.

Lemma first_tick_accrues_without_activity_witness :
  1735732801000 - 1735732800000 <= 30000
  /\ bucketAt
       (inMemory (projectStats
          (step true (run true (initial 1735732800000 None)
                        [Activate noon; CmdStart noon None])
                (TimerFires 0 {| epochMs := 1735732801000; utcOffsetMin := 0 |} ".ts"))))
       "Unknown Project" "2025-01-01 (Wednesday)"
     = Some {| totalTime := 1000; fileStats := [(".ts", 1000)] |}.
Proof.
  assert (H : 1735732801000 - 1735732800000 <= 30000) by lia.
  split; [exact H|].
  exact (proj1 (proj2 (proj2 (proj2
    (first_tick_accrues_without_activity true 1735732800000 None noon noon None
       {| epochMs := 1735732801000; utcOffsetMin := 0 |} ".ts" H))))).
Defined.

(** ** The date key *)

Lemma getDay_range i : 0 <= getDay i < 7.
Proof. unfold getDay. apply Z.mod_pos_bound. lia. Qed.

(** The key is the UTC date of the instant followed by the name of the
    local day of the week. *)
Lemma getCurrentDate_parts i :
  exists name,
    dayNames !! Z.to_nat (getDay i) = Some name
    /\ getCurrentDate i = toISOString_date i +:+ " (" +:+ name +:+ ")".
Proof.
  pose proof (getDay_range i) as Hr. unfold getCurrentDate.
  assert (Hlt : (Z.to_nat (getDay i) < 7)%nat) by lia.
  destruct (dayNames !! Z.to_nat (getDay i)) as [name|] eqn:Hname.
  - by exists name.
  - apply lookup_ge_None in Hname. simpl in Hname. lia.
Qed.

Lemma getCurrentDate_utc i :
  utcOffsetMin i = 0 -> toISOString_date i = local_date i.
Proof.
  intros H. unfold toISOString_date, local_date. rewrite H.
  by replace (epochMs i + 0 * 60000) with (epochMs i) by lia.
Qed.

(** C8.  The date key has the form "YYYY-MM-DD (WeekdayName)", but its two
    parts are not both taken from the local date: the weekday is the local
    one ([getDay]) and the date is the UTC one ([toISOString]).  At
    2025-01-02 04:30 UTC on a clock five hours behind UTC it is Wednesday,
    2025-01-01, 23:30 local time; the key is "2025-01-02 (Wednesday)". *)
Theorem getCurrentDate_utc_date_with_local_weekday :
  local_date {| epochMs := 1735792200000; utcOffsetMin := -300 |} = "2025-01-01"
  /\ getDay {| epochMs := 1735792200000; utcOffsetMin := -300 |} = 3
  /\ toISOString_date {| epochMs := 1735792200000; utcOffsetMin := -300 |} = "2025-01-02"
  /\ getCurrentDate {| epochMs := 1735792200000; utcOffsetMin := -300 |}
     = "2025-01-02 (Wednesday)".
Proof. by vm_compute. Qed.

(** ** Loading the statistics *)

Lemma json_of_store_shape s : is_projectStats (json_of_store s) = true.
Proof.
  unfold json_of_store, is_projectStats. rewrite forallb_forall.
  intros [p v] Hin. apply in_map_iff in Hin as ([p' days] & [= _ <-] & _). simpl.
  unfold json_of_days, is_days. rewrite forallb_forall.
  intros [d v] Hin. apply in_map_iff in Hin as ([d' b] & [= _ <-] & _). simpl.
  rewrite forallb_forall.
  intros [k v] Hin. by apply in_map_iff in Hin as ([k' n] & [= _ <-] & _).
Qed.

(** On statistics of the right shape the load is the re-reading of the
    typed model. *)
Lemma loadProjectStats_typed (σ : Stores) :
  loadProjectStats (json_of_store <$> persisted σ)
  = json_of_store (inMemory (globalState_get σ)).
Proof.
  rewrite inMemory_get. destruct (persisted σ) as [s|]; simpl.
  - reflexivity.
  - unfold json_of_store. by rewrite map_to_list_empty.
Qed.

(** C9, as the code has it, for both loads.  Neither lets an exception
    escape.

    The load of the second variant,
    [context.globalState.get('projectStats', {}) || {}], reads a value and
    shows no message.  It yields the empty structure when nothing is stored
    or when what is stored is falsy ([null], [false], [0], the empty
    string); any other stored value is taken as it is, whatever its shape:
    nothing is validated.  Statistics of the right shape are loaded
    unchanged, and on them the load is the re-reading of the typed model.

    The load of the first variant, [loadTimeTrackingData], leaves the
    statistics as they are (empty after the load of the module) when the
    file cannot be read, does not parse, parses to [null], or has no truthy
    [projectStats] member; it shows an error message to the user when the
    file does not parse and when it parses to [null] (the read of a
    property of [null] throws inside the [try]); otherwise it takes the
    [projectStats] member as it is, whatever its shape.  It changes neither
    the clock nor the timers. *)
Theorem load_yields_stored_value_or_empty
    (stored : option json)
    (JSON_parse : string -> string + json) (null_read_message : string)
    (file : option string) (st : Variant1.State) :
  (loadProjectStats stored =
     match stored with
     | None => JObj []
     | Some v => if truthy v then v else JObj []
     end
   /\ (forall v, is_projectStats v = true -> loadProjectStats (Some v) = v)
   /\ (forall now st, shown (activate now st) = shown st)
   /\ (forall σ : Stores,
         loadProjectStats (json_of_store <$> persisted σ)
         = json_of_store (inMemory (globalState_get σ))))
  /\ (let st' := Variant1.loadTimeTrackingData JSON_parse null_read_message file st in
      Variant1.errorsShown st' =
        Variant1.errorsShown st ++
        match file with
        | None => []
        | Some data =>
            match JSON_parse data with
            | inl message => ["Error parsing time tracking data: " +:+ message]
            | inr JNull => ["Error parsing time tracking data: " +:+ null_read_message]
            | inr _ => []
            end
        end
      /\ Variant1.projectStats st' =
           match file with
           | None => Variant1.projectStats st
           | Some data =>
               match JSON_parse data with
               | inr (JObj fields) =>
                   match jget "projectStats" fields with
                   | Some stats => if truthy stats then stats else Variant1.projectStats st
                   | None => Variant1.projectStats st
                   end
               | _ => Variant1.projectStats st
               end
           end
      /\ Variant1.projectStats Variant1.initial = JObj []
      /\ Variant1.timerStartTime st' = Variant1.timerStartTime st
      /\ Variant1.timerInterval st' = Variant1.timerInterval st
      /\ Variant1.timers st' = Variant1.timers st).
Proof.
  split.
  { split; [by destruct stored|].
    split; [by intros [] Hv|].
    split; [|apply loadProjectStats_typed].
    intros now st0.
    by destruct (activate_fields now st0) as (_ & _ & _ & _ & _ & _ & _ & _ & ->). }
  intros st'. subst st'. unfold Variant1.loadTimeTrackingData.
  destruct file as [data|]; [|by rewrite app_nil_r].
  destruct (JSON_parse data) as [message|parsed]; [done|].
  destruct parsed as [|flag|n|text|items|fields];
    cbn [Variant1.field]; try done; try (by rewrite app_nil_r).
  destruct (jget "projectStats" fields) as [stats|]; [|by rewrite app_nil_r].
  destruct (truthy stats); cbn [Variant1.errorsShown Variant1.projectStats
    Variant1.timerStartTime Variant1.timerInterval Variant1.timers];
    by rewrite app_nil_r.
Qed.

(** Counterexample to C9 as stated: stored values that are not statistics
    and are loaded as they are, by the second variant and by the first; and
    a file that does not parse, whose error the first variant shows to the
    user. *)
Lemma load_keeps_a_malformed_value :
  is_projectStats (JStr "corrupt") = false
  /\ loadProjectStats (Some (JStr "corrupt")) = JStr "corrupt"
  /\ is_projectStats (JObj [("demo", JNum 5)]) = false
  /\ loadProjectStats (Some (JObj [("demo", JNum 5)])) = JObj [("demo", JNum 5)]
  /\ Variant1.projectStats
       (Variant1.loadTimeTrackingData
          (fun _ => inr (JObj [("projectStats", JStr "corrupt")]))
          "Cannot read properties of null" (Some "file") Variant1.initial)
     = JStr "corrupt"
  /\ Variant1.errorsShown
       (Variant1.loadTimeTrackingData
          (fun _ => inl "Unexpected end of JSON input")
          "Cannot read properties of null" (Some "{") Variant1.initial)
     = ["Error parsing time tracking data: Unexpected end of JSON input"].
Proof. by vm_compute. Qed.

(** ** Timer handles *)

Lemma clearInterval_fresh h n ts :
  Forall (fun t => (fst t < n)%nat) ts ->
  Forall (fun t => (fst t < n)%nat) (clearInterval h ts).
Proof.
  intros H. unfold clearInterval. induction H as [|t ts Ht _ IH]; [constructor|].
  rewrite filter_cons. case_decide; [by constructor | done].
Qed.

Lemma tickCallback_timers copy d now e st st' :
  tickCallback copy d now e st = Returned st' ->
  timers st' = timers st /\ nextHandle st' = nextHandle st.
Proof.
  unfold tickCallback.
  destruct (30000 <? epochMs now - lastActivityTime st); [by intros [= <-]|].
  destruct (bucketAt _ _ _); [|done]. intros [= <-].
  by destruct (updateStatusBarItem_fields now
    (set_projectStats
       (globalState_update copy
          (mutate (accrue (projectName st) d e) (projectStats st))) st))
    as (_ & _ & _ & _ & _ & _ & -> & -> & _).
Qed.

Lemma handles_fresh_stop st : handles_fresh st -> handles_fresh (stopTrackingTime st).
Proof.
  unfold handles_fresh, stopTrackingTime. simpl. intros H.
  destruct (statsInterval st), (timerInterval st);
    repeat apply clearInterval_fresh; done.
Qed.

Lemma handles_fresh_start now ws st :
  handles_fresh st -> handles_fresh (startTrackingTime now ws st).
Proof.
  intros H. destruct (timerStartTime st) as [t|] eqn:Ht.
  - unfold startTrackingTime, handles_fresh. simpl. by rewrite Ht.
  - destruct (startTrackingTime_stopped now ws st Ht)
      as (_ & _ & _ & Hts & _ & _ & Hnh & _).
    unfold handles_fresh. rewrite Hts, Hnh. apply Forall_app. split.
    + eapply Forall_impl; [exact H|]. simpl. lia.
    + repeat constructor; simpl; lia.
Qed.

(** In every state the host can reach, the handles of the timers that are
    set are below the next handle, so a new timer gets a handle of its
    own. *)
Lemma handles_fresh_step copy st ev :
  handles_fresh st -> handles_fresh (step copy st ev).
Proof.
  intros H. destruct ev as [now|now ws| |now|now|h now e|]; simpl.
  - unfold handles_fresh.
    by destruct (activate_fields now st) as (_ & _ & _ & _ & _ & _ & -> & -> & _).
  - by apply handles_fresh_start.
  - by apply handles_fresh_stop.
  - unfold handles_fresh.
    by destruct (showProjectStats_fields now st) as (_ & _ & _ & _ & _ & _ & _ & -> & ->).
  - done.
  - destruct (timerOf h (timers st)) as [[d|]|]; [| |done].
    + destruct (tickCallback copy d now e st) as [st'|] eqn:Htick; [|done].
      unfold handles_fresh.
      by destruct (tickCallback_timers _ _ _ _ _ _ Htick) as [-> ->].
    + unfold handles_fresh.
      by destruct (showProjectStats_fields now st) as (_ & _ & _ & _ & _ & _ & _ & -> & ->).
  - by apply handles_fresh_stop.
Qed.

Lemma handles_fresh_run copy evs st :
  handles_fresh st -> handles_fresh (run copy st evs).
Proof.
  revert st. induction evs as [|ev evs IH]; intros st H; [done|].
  rewrite run_cons. by apply IH, handles_fresh_step.
Qed.

Lemma handles_fresh_initial loadTime saved : handles_fresh (initial loadTime saved).
Proof. constructor. Qed.

(** ** The first variant: a repeated start, and the loading of the file *)

(** In the first variant the guard is the first statement: a repeated
    start changes nothing at all. *)
Lemma variant1_start_while_running now ws (st : Variant1.State) t :
  Variant1.timerStartTime st = Some t -> Variant1.startTrackingTime now ws st = st.
Proof. intros H. unfold Variant1.startTrackingTime. by rewrite H. Qed.

Section Variant1Load.

Variable JSON_parse : string -> string + json.
Variable null_read_message : string.

(** A failed read leaves everything as it is and shows nothing; a file
    that does not parse leaves the data as it is, but its error is shown
    to the user. *)
Lemma variant1_load_failures (st : Variant1.State) :
  Variant1.loadTimeTrackingData JSON_parse null_read_message None st = st
  /\ forall data message,
       JSON_parse data = inl message ->
       let st' :=
         Variant1.loadTimeTrackingData JSON_parse null_read_message (Some data) st in
       Variant1.projectStats st' = Variant1.projectStats st
       /\ Variant1.errorsShown st' =
          Variant1.errorsShown st ++ ["Error parsing time tracking data: " +:+ message].
Proof.
  split; [done|]. intros data message Hparse.
  simpl. by rewrite Hparse.
Qed.

(** A file that parses is taken as it is: whatever truthy value it has
    under [projectStats] becomes the statistics. *)
Lemma variant1_load_unchecked (st : Variant1.State) data fields stats :
  JSON_parse data = inr (JObj fields) ->
  jget "projectStats" fields = Some stats ->
  truthy stats = true ->
  Variant1.projectStats
    (Variant1.loadTimeTrackingData JSON_parse null_read_message (Some data) st)
  = stats.
Proof.
  intros Hparse Hget Htruthy. simpl. rewrite Hparse. simpl.
  by rewrite Hget, Htruthy.
Qed.

End Variant1Load.

(** * Further properties *)

(** ** The timers of a session *)

Lemma tickCallback_fields copy d now e st st' :
  tickCallback copy d now e st = Returned st' ->
  timerStartTime st' = timerStartTime st /\ timerInterval st' = timerInterval st
  /\ statsInterval st' = statsInterval st /\ projectName st' = projectName st
  /\ lastActivityTime st' = lastActivityTime st
  /\ timers st' = timers st /\ nextHandle st' = nextHandle st /\ shown st' = shown st.
Proof.
  unfold tickCallback.
  destruct (30000 <? epochMs now - lastActivityTime st); [by intros [= <-]|].
  destruct (bucketAt _ _ _); [|done]. intros [= <-].
  by destruct (updateStatusBarItem_fields now
    (set_projectStats
       (globalState_update copy
          (mutate (accrue (projectName st) d e) (projectStats st))) st))
    as (-> & -> & -> & -> & _ & -> & -> & -> & ->).
Qed.

Lemma session_timers_stop st :
  session_timers st ->
  timers (stopTrackingTime st) = []
  /\ timerStartTime (stopTrackingTime st) = None
  /\ timerInterval (stopTrackingTime st) = None
  /\ statsInterval (stopTrackingTime st) = None.
Proof.
  unfold session_timers, stopTrackingTime. simpl.
  destruct (timerStartTime st), (timerInterval st) as [h|], (statsInterval st) as [r|];
    try done.
  intros (Hne & d & ->). repeat split.
  unfold clearInterval. rewrite !filter_cons, filter_nil. simpl.
  rewrite decide_False by (intros H; by apply H).
  rewrite decide_True by done.
  rewrite filter_cons, filter_nil. simpl.
  by rewrite decide_False by (intros H; by apply H).
Qed.

Lemma session_timers_step copy st ev :
  session_timers st -> session_timers (step copy st ev).
Proof.
  intros H. destruct ev as [now|now ws| |now|now|h now e|]; simpl.
  - unfold session_timers.
    by destruct (activate_fields now st) as (-> & -> & -> & _ & _ & _ & -> & _).
  - destruct (timerStartTime st) as [t|] eqn:Ht.
    + unfold startTrackingTime. simpl. rewrite Ht. unfold session_timers. simpl.
      unfold session_timers in H. by rewrite Ht in H |- *.
    + destruct (startTrackingTime_stopped now ws st Ht)
        as (Ht' & _ & _ & Hts & Hti & Hsi & _).
      unfold session_timers in *. rewrite Ht', Hti, Hsi, Hts. rewrite Ht in H.
      destruct (timerInterval st), (statsInterval st); try done.
      rewrite H. split; [lia | by eexists].
  - destruct (session_timers_stop st H) as (Hts & Ht & Hti & Hsi).
    unfold session_timers. by rewrite Ht, Hti, Hsi.
  - unfold session_timers.
    by destruct (showProjectStats_fields now st) as (-> & -> & -> & _ & _ & _ & _ & -> & _).
  - done.
  - destruct (timerOf h (timers st)) as [[d|]|]; [| |done].
    + destruct (tickCallback copy d now e st) as [st'|] eqn:Htick; [|done].
      unfold session_timers.
      by destruct (tickCallback_fields _ _ _ _ _ _ Htick)
        as (-> & -> & -> & _ & _ & -> & _).
    + unfold session_timers.
      by destruct (showProjectStats_fields now st)
        as (-> & -> & -> & _ & _ & _ & _ & -> & _).
  - destruct (session_timers_stop st H) as (Hts & Ht & Hti & Hsi).
    unfold session_timers. by rewrite Ht, Hti, Hsi.
Qed.

Lemma session_timers_run copy evs st :
  session_timers st -> session_timers (run copy st evs).
Proof.
  revert st. induction evs as [|ev evs IH]; intros st H; [done|].
  rewrite run_cons. by apply IH, session_timers_step.
Qed.

(** X1.  Whatever the commands, signals and timer firings since the module
    was loaded, the host has at most one accounting timer set for the
    extension: none (and no report timer) while the clock is stopped, and
    exactly one, with one report timer, while it runs.  Starting twice
    does not double the ticks. *)
Theorem one_accounting_timer
    (copy : bool) (loadTime : Z) (saved : option StatsStore) (evs : list Event) :
  let st := run copy (initial loadTime saved) evs in
  match timerStartTime st with
  | None => timers st = []
  | Some _ =>
      exists tick report currentDate,
        timerInterval st = Some tick /\ statsInterval st = Some report
        /\ tick ≠ report
        /\ timers st = [(tick, AccountingTick currentDate); (report, StatsReport)]
  end.
Proof.
  intros st.
  assert (H : session_timers st) by (by apply session_timers_run).
  unfold session_timers in H.
  destruct (timerStartTime st), (timerInterval st) as [h|], (statsInterval st) as [r|];
    try done.
  destruct H as (Hne & d & Hts). by exists h, r, d.
Qed.

(** ** Stopping *)

Lemma signals_without_timers copy quiet st :
  timers st = [] -> forallb is_signal quiet = true ->
  projectStats (run copy st quiet) = projectStats st
  /\ timers (run copy st quiet) = []
  /\ shown (run copy st quiet) = shown st.
Proof.
  revert st. induction quiet as [|ev quiet IH]; intros st Hts Hq; [done|].
  simpl in Hq. apply andb_prop in Hq as [Hev Hq]. rewrite run_cons.
  destruct ev as [now|now ws| |now|now|h now e|]; try done.
  - destruct (IH (step copy st (UserActivity now)) Hts Hq) as (-> & -> & ->). done.
  - assert (Hstep : step copy st (TimerFires h now e) = st) by (simpl; by rewrite Hts).
    rewrite Hstep. by apply IH.
Qed.

(** X2.  Stopping does not touch the statistics, and once the clock is
    stopped no timer firing and no activity signal changes them or shows
    anything: the timers of the session are cleared, so whatever fires
    afterwards finds no callback.  Nothing accrues until the next start. *)
Theorem stop_halts_accrual
    (copy : bool) (loadTime : Z) (saved : option StatsStore)
    (evs quiet : list Event) :
  forallb is_signal quiet = true ->
  let st := run copy (initial loadTime saved) evs in
  projectStats (stopTrackingTime st) = projectStats st
  /\ timers (stopTrackingTime st) = []
  /\ projectStats (run copy (stopTrackingTime st) quiet) = projectStats st
  /\ shown (run copy (stopTrackingTime st) quiet) = shown st ++ [TrackingStopped].
Proof.
  intros Hq st.
  assert (Hs : session_timers st)
    by (apply session_timers_run; reflexivity).
  destruct (session_timers_stop st Hs) as (Hts & _).
  destruct (signals_without_timers copy quiet _ Hts Hq) as (Hp & _ & Hsh).
  rewrite Hp, Hsh. done.
Qed.

(** ** The statistics in memory and the persisted ones *)

Lemma synced_get σ : synced (globalState_get σ).
Proof.
  unfold synced, globalState_get. destruct (persisted σ); simpl; [by right | by left].
Qed.

Lemma synced_update copy σ : synced (globalState_update copy σ).
Proof. right. by rewrite persisted_update, inMemory_update. Qed.

Lemma synced_mutate_get f σ : synced (mutate f (globalState_get σ)).
Proof.
  unfold synced, globalState_get. destruct (persisted σ); simpl; [by right | by left].
Qed.

Lemma synced_step copy st ev :
  synced (projectStats st) -> synced (projectStats (step copy st ev)).
Proof.
  intros H. destruct ev as [now|now ws| |now|now|h now e|]; simpl; try done.
  - destruct (activate_fields now st) as (_ & _ & _ & _ & -> & _). apply synced_get.
  - unfold startTrackingTime. simpl.
    destruct (timerStartTime st); simpl; [apply synced_get | apply synced_mutate_get].
  - destruct (showProjectStats_fields now st) as (_ & _ & _ & _ & -> & _).
    apply synced_get.
  - destruct (timerOf h (timers st)) as [[d|]|]; [| |done].
    + unfold tickCallback.
      destruct (30000 <? epochMs now - lastActivityTime st); [done|].
      destruct (bucketAt _ _ _); [|done].
      match goal with
      | |- synced (projectStats (updateStatusBarItem ?n ?s)) =>
          destruct (updateStatusBarItem_fields n s) as (_ & _ & _ & _ & -> & _)
      end.
      simpl. apply synced_update.
    + destruct (showProjectStats_fields now st) as (_ & _ & _ & _ & -> & _).
      apply synced_get.
Qed.

Lemma synced_run copy evs st :
  synced (projectStats st) -> synced (projectStats (run copy st evs)).
Proof.
  revert st. induction evs as [|ev evs IH]; intros st H; [done|].
  rewrite run_cons. by apply IH, synced_step.
Qed.

(** X3.  Once the extension is activated, after any commands, signals and
    timer firings, the statistics in memory are exactly those [globalState]
    holds, unless [globalState] holds none (which is the case from a first
    start on a new host until the first tick that accrues). *)
Theorem statistics_in_memory_are_the_persisted_ones
    (copy : bool) (loadTime : Z) (saved : option StatsStore)
    (now : Instant) (evs : list Event) :
  let st := run copy (initial loadTime saved) (Activate now :: evs) in
  synced (projectStats st)
  /\ (saved <> None -> persisted (projectStats st) = Some (inMemory (projectStats st))).
Proof.
  intros st. subst st. rewrite run_cons.
  assert (H0 : synced (projectStats (step copy (initial loadTime saved) (Activate now)))).
  { simpl. destruct (activate_fields now (initial loadTime saved))
      as (_ & _ & _ & _ & -> & _). apply synced_get. }
  split; [by apply synced_run|].
  intros Hsaved.
  assert (Hsome : forall evs' st,
            synced (projectStats st) -> persisted (projectStats st) <> None ->
            persisted (projectStats (run copy st evs')) <> None).
  { clear. induction evs' as [|ev evs' IH]; intros st Hs Hp; [done|].
    rewrite run_cons. apply IH; [by apply synced_step|].
    destruct ev as [now|now ws| |now|now|h now e|]; simpl; try done.
    - destruct (activate_fields now st) as (_ & _ & _ & _ & -> & _).
      by rewrite persisted_get.
    - unfold startTrackingTime. simpl.
      destruct (timerStartTime st); simpl; [by rewrite persisted_get|].
      unfold globalState_get. by destruct (persisted (projectStats st)).
    - destruct (showProjectStats_fields now st) as (_ & _ & _ & _ & -> & _).
      by rewrite persisted_get.
    - destruct (timerOf h (timers st)) as [[d|]|]; [| |done].
      + unfold tickCallback.
        destruct (30000 <? epochMs now - lastActivityTime st); [done|].
        destruct (bucketAt _ _ _); [|done].
        match goal with
        | |- persisted (projectStats (updateStatusBarItem ?n ?s)) <> None =>
            destruct (updateStatusBarItem_fields n s) as (_ & _ & _ & _ & -> & _)
        end.
        simpl. by rewrite persisted_update.
      + destruct (showProjectStats_fields now st) as (_ & _ & _ & _ & -> & _).
        by rewrite persisted_get. }
  assert (Hp0 : persisted (projectStats (step copy (initial loadTime saved) (Activate now)))
                <> None).
  { simpl. destruct (activate_fields now (initial loadTime saved))
      as (_ & _ & _ & _ & -> & _). rewrite persisted_get. exact Hsaved. }
  destruct (synced_run copy evs _ H0) as [Hnone|Hagree]; [|exact Hagree].
  by destruct (Hsome evs _ H0 Hp0).
Qed.

(** ** The persisted statistics only grow *)

Lemma fs_get_set_same k v fs : fs_get k (fs_set k v fs) = Some v.
Proof.
  induction fs as [|[k' w] fs IH]; simpl.
  - by rewrite decide_True.
  - destruct (decide (k' = k)) as [->|Hne]; simpl.
    + by rewrite decide_True.
    + by rewrite decide_False.
Qed.

Lemma bucket_le_refl b : bucket_le b b.
Proof. split; [lia|]. intros ext v Hv. exists v. split; [done | lia]. Qed.

Lemma bucket_le_trans b1 b2 b3 : bucket_le b1 b2 -> bucket_le b2 b3 -> bucket_le b1 b3.
Proof.
  intros [Ht1 Hf1] [Ht2 Hf2]. split; [lia|].
  intros ext v Hv. destruct (Hf1 ext v Hv) as (v' & Hv' & Hle).
  destruct (Hf2 ext v' Hv') as (v'' & Hv'' & Hle'). exists v''. split; [done | lia].
Qed.

Lemma bucket_le_addTick e b : bucket_le b (addTick e b).
Proof.
  destruct (addTick_amounts e b) as (Ht & _ & Hother).
  split; [lia|]. intros ext v Hv.
  destruct (decide (ext = e)) as [->|Hne].
  - unfold addTick. destruct (decide (e = "")) as [He|He]; simpl.
    + exists v. split; [done | lia].
    + rewrite fs_get_set_same, Hv. simpl. eexists. split; [done | lia].
  - rewrite Hother by done. exists v. split; [done | lia].
Qed.

Lemma store_le_refl s : store_le s s.
Proof. intros p d b Hb. exists b. split; [done | apply bucket_le_refl]. Qed.

Lemma store_le_trans s1 s2 s3 : store_le s1 s2 -> store_le s2 s3 -> store_le s1 s3.
Proof.
  intros H1 H2 p d b Hb. destruct (H1 p d b Hb) as (b' & Hb' & Hle).
  destruct (H2 p d b' Hb') as (b'' & Hb'' & Hle'). exists b''.
  split; [done | by eapply bucket_le_trans].
Qed.

Lemma store_le_ensureBucket p d s : store_le s (ensureBucket p d s).
Proof.
  intros p' d' b Hb. rewrite bucketAt_ensureBucket. case_decide as Hsame.
  - destruct Hsame as [<- <-]. rewrite Hb. simpl. exists b.
    split; [done | apply bucket_le_refl].
  - exists b. split; [done | apply bucket_le_refl].
Qed.

Lemma store_le_accrue p d e s : store_le s (accrue p d e s).
Proof.
  intros p' d' b Hb. rewrite bucketAt_accrue. case_decide as Hsame.
  - destruct Hsame as [<- <-]. rewrite Hb. simpl. eexists.
    split; [done | apply bucket_le_addTick].
  - exists b. split; [done | apply bucket_le_refl].
Qed.

Lemma persisted_le_refl o : persisted_le o o.
Proof. intros s ->. exists s. split; [done | apply store_le_refl]. Qed.

Lemma persisted_le_trans o1 o2 o3 :
  persisted_le o1 o2 -> persisted_le o2 o3 -> persisted_le o1 o3.
Proof.
  intros H1 H2 s Hs. destruct (H1 s Hs) as (s' & Hs' & Hle).
  destruct (H2 s' Hs') as (s'' & Hs'' & Hle'). exists s''.
  split; [done | by eapply store_le_trans].
Qed.

Lemma persisted_le_mutate_get f σ :
  (forall s, store_le s (f s)) ->
  persisted_le (persisted σ) (persisted (mutate f (globalState_get σ))).
Proof.
  intros Hf s Hs. unfold globalState_get. rewrite Hs. simpl. eexists. split; [done|].
  apply Hf.
Qed.

Lemma persisted_le_step copy st ev :
  synced (projectStats st) ->
  persisted_le (persisted (projectStats st)) (persisted (projectStats (step copy st ev))).
Proof.
  intros Hsync. destruct ev as [now|now ws| |now|now|h now e|]; simpl;
    try apply persisted_le_refl.
  - destruct (activate_fields now st) as (_ & _ & _ & _ & -> & _).
    rewrite persisted_get. apply persisted_le_refl.
  - unfold startTrackingTime. simpl. destruct (timerStartTime st); simpl.
    + rewrite persisted_get. apply persisted_le_refl.
    + apply persisted_le_mutate_get. intros s. apply store_le_ensureBucket.
  - destruct (showProjectStats_fields now st) as (_ & _ & _ & _ & -> & _).
    rewrite persisted_get. apply persisted_le_refl.
  - destruct (timerOf h (timers st)) as [[d|]|]; [| |apply persisted_le_refl].
    + unfold tickCallback.
      destruct (30000 <? epochMs now - lastActivityTime st); [apply persisted_le_refl|].
      destruct (bucketAt _ _ _); [|apply persisted_le_refl].
      match goal with
      | |- persisted_le _ (persisted (projectStats (updateStatusBarItem ?n ?s))) =>
          destruct (updateStatusBarItem_fields n s) as (_ & _ & _ & _ & -> & _)
      end.
      simpl. rewrite persisted_update, inMemory_mutate.
      intros s Hs. eexists. split; [done|].
      destruct Hsync as [Hnone|Hagree]; [congruence|].
      rewrite Hagree in Hs. injection Hs as <-. apply store_le_accrue.
    + destruct (showProjectStats_fields now st) as (_ & _ & _ & _ & -> & _).
      rewrite persisted_get. apply persisted_le_refl.
Qed.

(** X4.  What is persisted is never lost: from a state in which the
    statistics in memory are the persisted ones (or nothing is persisted),
    after any commands, signals and timer firings every persisted bucket is
    still persisted, with a [totalTime] and with [fileStats] entries that
    are at least what they were.  No operation deletes a bucket or an
    entry, or lowers a time. *)
Theorem persisted_statistics_only_grow
    (copy : bool) (st : State) (evs : list Event) :
  synced (projectStats st) ->
  persisted_le (persisted (projectStats st))
               (persisted (projectStats (run copy st evs))).
Proof.
  revert st. induction evs as [|ev evs IH]; intros st Hsync.
  - apply persisted_le_refl.
  - rewrite run_cons. eapply persisted_le_trans.
    + by apply persisted_le_step.
    + by apply IH, synced_step.
Qed.

(** ** What a tick touches *)

Lemma tickCallback_cases copy d now e st :
  tickCallback copy d now e st = Returned st
  \/ tickCallback copy d now e st = ThrewTypeError
  \/ exists st',
       tickCallback copy d now e st = Returned st'
       /\ inMemory (projectStats st') = accrue (projectName st) d e (inMemory (projectStats st)).
Proof.
  destruct (decide (epochMs now - lastActivityTime st <= 30000)) as [Hactive|Hidle].
  - destruct (bucketAt (inMemory (projectStats st)) (projectName st) d) as [b|] eqn:Hb.
    + right. right.
      destruct (tickCallback_accrues copy d now e st b Hactive Hb) as (st' & Ht & Hm & _).
      by exists st'.
    + right. left. by apply tickCallback_throws.
  - left. unfold tickCallback.
    destruct (30000 <? epochMs now - lastActivityTime st) eqn:Hlt; [done|].
    apply Z.ltb_ge in Hlt. lia.
Qed.

(** X5.  A tick of the accounting timer that finds the bucket of its
    session among the entries of [projectStats] changes no bucket in
    memory but that one: the buckets of other projects and of other days
    are as they were.  (The project name is taken not to be the name of a
    member of [Object.prototype]: under such a name the bucket is not an
    entry of [projectStats], see [Plain].) *)
Theorem tick_touches_only_its_bucket
    (copy : bool) (st : State) (h : nat) (currentDate : string)
    (now : Instant) (fileExt : string) (b : DayBucket) (p d : string) :
  timerOf h (timers st) = Some (AccountingTick currentDate) ->
  projectName st ≠ "__proto__" ->
  ~ (projectName st ∈ Plain.inheritedFunctions) ->
  bucketAt (inMemory (projectStats st)) (projectName st) currentDate = Some b ->
  ~ (projectName st = p /\ currentDate = d) ->
  bucketAt (inMemory (projectStats (step copy st (TimerFires h now fileExt)))) p d
  = bucketAt (inMemory (projectStats st)) p d.
Proof.
  intros Htimer _ _ _ Hother.
  destruct (tickCallback_cases copy currentDate now fileExt st)
    as [Hret|[Hthrew|(st' & Hret & Hmem)]].
  - by rewrite (step_tick_returned _ _ _ _ _ _ _ Htimer Hret).
  - by rewrite (step_tick_threw _ _ _ _ _ _ Htimer Hthrew).
  - rewrite (step_tick_returned _ _ _ _ _ _ _ Htimer Hret), Hmem.
    by rewrite bucketAt_accrue, decide_False.
Qed.

Lemma stop_halts_accrual_witness :
  forallb is_signal demo_signals = true
  /\ projectStats
       (run true (stopTrackingTime (run true (initial 1735732800000 None) demo_events))
            demo_signals)
     = projectStats (run true (initial 1735732800000 None) demo_events).
Proof.
  assert (Hq : forallb is_signal demo_signals = true) by reflexivity.
  split; [exact Hq|].
  exact (proj1 (proj2 (proj2
    (stop_halts_accrual true 1735732800000 None demo_events demo_signals Hq)))).
Defined.

Lemma persisted_statistics_only_grow_witness :
  synced (projectStats demo_session)
  /\ persisted_le (persisted (projectStats demo_session))
       (persisted (projectStats
          (run true demo_session
             [TimerFires 0 (at_second 2) ".md"; CmdStop;
              CmdStart (at_second 5) (Some "other")]))).
Proof.
  assert (Hs : synced (projectStats demo_session))
    by (right; vm_compute; reflexivity).
  split; [exact Hs|].
  exact (persisted_statistics_only_grow true demo_session
           [TimerFires 0 (at_second 2) ".md"; CmdStop;
            CmdStart (at_second 5) (Some "other")] Hs).
Defined.

Lemma tick_touches_only_its_bucket_witness :
  timerOf 0 (timers two_projects) = Some (AccountingTick "2025-01-01 (Wednesday)")
  /\ bucketAt (inMemory (projectStats two_projects)) (projectName two_projects)
       "2025-01-01 (Wednesday)"
     = Some {| totalTime := 0; fileStats := [] |}
  /\ bucketAt (inMemory (projectStats
       (step true two_projects (TimerFires 0 (at_second 2) ".ts"))))
       "other" "2025-01-01 (Wednesday)"
     = bucketAt (inMemory (projectStats two_projects)) "other" "2025-01-01 (Wednesday)".
Proof.
  assert (Ht : timerOf 0 (timers two_projects)
               = Some (AccountingTick "2025-01-01 (Wednesday)"))
    by (vm_compute; reflexivity).
  assert (Hproto : projectName two_projects ≠ "__proto__")
    by (vm_compute; intros H; discriminate H).
  assert (Hfn : ~ (projectName two_projects ∈ Plain.inheritedFunctions))
    by (apply (bool_decide_eq_false_1 (projectName two_projects ∈ Plain.inheritedFunctions));
        vm_compute; reflexivity).
  assert (Hb : bucketAt (inMemory (projectStats two_projects)) (projectName two_projects)
                 "2025-01-01 (Wednesday)"
               = Some {| totalTime := 0; fileStats := [] |})
    by (vm_compute; reflexivity).
  assert (Hother : ~ (projectName two_projects = "other"
                      /\ "2025-01-01 (Wednesday)" = "2025-01-01 (Wednesday)"))
    by (intros [H _]; vm_compute in H; discriminate H).
  split; [exact Ht|]. split; [exact Hb|].
  exact (tick_touches_only_its_bucket true two_projects 0 "2025-01-01 (Wednesday)"
           (at_second 2) ".ts" _ "other" "2025-01-01 (Wednesday)"
           Ht Hproto Hfn Hb Hother).
Defined.

(** The bucket of the other project holds the time it was given. *)
Example two_projects_other_bucket :
  bucketAt (inMemory (projectStats two_projects)) "other" "2025-01-01 (Wednesday)"
  = Some {| totalTime := 90000; fileStats := [(".md", 90000)] |}.
Proof. vm_compute. reflexivity. Qed.

(** ** The day of a session *)

(** X6.  A session accrues on the day it was started.  A tick that fires
    when the date key of the clock is another one (after midnight, say)
    and the project has no bucket for that date still adds its time to the
    bucket of the start date; it creates no bucket for the new date, and
    the status bar, which reads the bucket of the date of the tick, shows
    0 minutes for today. *)
Theorem tick_accrues_on_the_start_day
    (copy : bool) (st : State) (h : nat) (currentDate : string)
    (now : Instant) (fileExt : string) (b : DayBucket) :
  timerOf h (timers st) = Some (AccountingTick currentDate) ->
  epochMs now - lastActivityTime st <= 30000 ->
  bucketAt (inMemory (projectStats st)) (projectName st) currentDate = Some b ->
  getCurrentDate now <> currentDate ->
  bucketAt (inMemory (projectStats st)) (projectName st) (getCurrentDate now) = None ->
  let st' := step copy st (TimerFires h now fileExt) in
  bucketAt (inMemory (projectStats st')) (projectName st) currentDate
  = Some (addTick fileExt b)
  /\ bucketAt (inMemory (projectStats st')) (projectName st) (getCurrentDate now) = None
  /\ statusBarItem st' = match statusBarItem st with
                         | Some _ => Some (MinutesToday 0)
                         | None => None
                         end.
Proof.
  intros Htimer Hactive Hb Hdate Htoday st'.
  assert (Hstep : st' =
    updateStatusBarItem now
      (set_projectStats
         (globalState_update copy
            (mutate (accrue (projectName st) currentDate fileExt) (projectStats st))) st)).
  { subst st'. simpl. rewrite Htimer. unfold tickCallback.
    destruct (30000 <? epochMs now - lastActivityTime st) eqn:Hlt.
    { apply Z.ltb_lt in Hlt. lia. }
    by rewrite Hb. }
  set (s' := accrue (projectName st) currentDate fileExt (inMemory (projectStats st))).
  assert (Hmem : inMemory (globalState_update copy
            (mutate (accrue (projectName st) currentDate fileExt) (projectStats st))) = s')
    by (by rewrite inMemory_update, inMemory_mutate).
  assert (Hb' : bucketAt s' (projectName st) currentDate = Some (addTick fileExt b)).
  { subst s'. rewrite bucketAt_accrue, decide_True by done. by rewrite Hb. }
  assert (Htoday' : bucketAt s' (projectName st) (getCurrentDate now) = None).
  { subst s'. rewrite bucketAt_accrue, decide_False; [done|]. intros [_ H]. by apply Hdate. }
  rewrite Hstep.
  destruct (updateStatusBarItem_fields now
    (set_projectStats
       (globalState_update copy
          (mutate (accrue (projectName st) currentDate fileExt) (projectStats st))) st))
    as (_ & _ & _ & _ & Hσ & _).
  rewrite Hσ. simpl. rewrite Hmem.
  split; [exact Hb'|]. split; [exact Htoday'|].
  unfold updateStatusBarItem.
  cbn [statusBarItem projectStats projectName set_projectStats].
  rewrite Hmem.
  destruct (statusBarItem st) as [bar|] eqn:Hbar; [|by cbn; rewrite Hbar].
  apply bucketAt_Some in Hb' as (days & Hdays & _).
  rewrite Hdays. rewrite (bucketAt_project _ _ _ _ Hdays) in Htoday'.
  rewrite Htoday'. reflexivity.
Qed.

Lemma tick_accrues_on_the_start_day_witness :
  epochMs after_midnight - lastActivityTime (onUserActivity 1735776000000 demo_session)
    <= 30000
  /\ getCurrentDate after_midnight <> "2025-01-01 (Wednesday)"
  /\ bucketAt (inMemory (projectStats
        (step true (onUserActivity 1735776000000 demo_session)
              (TimerFires 0 after_midnight ".ts"))))
        (projectName (onUserActivity 1735776000000 demo_session))
        "2025-01-01 (Wednesday)"
     = Some (addTick ".ts" {| totalTime := 1000; fileStats := [(".ts", 1000)] |})
  /\ statusBarItem
       (step true (onUserActivity 1735776000000 demo_session)
             (TimerFires 0 after_midnight ".ts"))
     = Some (MinutesToday 0).
Proof.
  assert (Ht : timerOf 0 (timers (onUserActivity 1735776000000 demo_session))
               = Some (AccountingTick "2025-01-01 (Wednesday)"))
    by (vm_compute; reflexivity).
  assert (Ha : epochMs after_midnight
               - lastActivityTime (onUserActivity 1735776000000 demo_session) <= 30000)
    by (vm_compute; intros H; discriminate H).
  assert (Hb : bucketAt (inMemory (projectStats (onUserActivity 1735776000000 demo_session)))
                 (projectName (onUserActivity 1735776000000 demo_session))
                 "2025-01-01 (Wednesday)"
               = Some {| totalTime := 1000; fileStats := [(".ts", 1000)] |})
    by (vm_compute; reflexivity).
  assert (Hd : getCurrentDate after_midnight <> "2025-01-01 (Wednesday)")
    by (vm_compute; intros H; discriminate H).
  assert (Hn : bucketAt (inMemory (projectStats (onUserActivity 1735776000000 demo_session)))
                 (projectName (onUserActivity 1735776000000 demo_session))
                 (getCurrentDate after_midnight) = None)
    by (vm_compute; reflexivity).
  destruct (tick_accrues_on_the_start_day true _ 0 _ after_midnight ".ts" _ Ht Ha Hb Hd Hn)
    as (H1 & _ & H3).
  split; [exact Ha|]. split; [exact Hd|]. split; [exact H1|exact H3].
Defined.

(** ** Activity signals *)

Lemma step_tick_idle copy st h d now e :
  timerOf h (timers st) = Some (AccountingTick d) ->
  epochMs now - lastActivityTime st > 30000 ->
  step copy st (TimerFires h now e) = st.
Proof.
  intros Htimer Hidle. simpl. rewrite Htimer. unfold tickCallback.
  destruct (30000 <? epochMs now - lastActivityTime st) eqn:Hlt; [done|].
  apply Z.ltb_ge in Hlt. lia.
Qed.

(** X7.  An activity signal opens a window of 30000 ms, whatever the
    activity before it: the next tick accrues on the bucket of the session
    if it fires at most 30000 ms after the signal (the bound included),
    and leaves it as it is if it fires later. *)
Theorem activity_signal_opens_the_idle_window
    (copy : bool) (st : State) (h : nat) (currentDate : string)
    (signal : Z) (now : Instant) (fileExt : string) (b : DayBucket) :
  timerOf h (timers st) = Some (AccountingTick currentDate) ->
  bucketAt (inMemory (projectStats st)) (projectName st) currentDate = Some b ->
  bucketAt
    (inMemory (projectStats
       (run copy st [UserActivity signal; TimerFires h now fileExt])))
    (projectName st) currentDate
  = Some (if decide (epochMs now - signal <= 30000) then addTick fileExt b else b).
Proof.
  intros Htimer Hb.
  change (run copy st [UserActivity signal; TimerFires h now fileExt])
    with (step copy (step copy st (UserActivity signal)) (TimerFires h now fileExt)).
  set (st1 := step copy st (UserActivity signal)).
  assert (Htimer1 : timerOf h (timers st1) = Some (AccountingTick currentDate)) by done.
  assert (Hb1 : bucketAt (inMemory (projectStats st1)) (projectName st1) currentDate = Some b)
    by done.
  destruct (decide (epochMs now - signal <= 30000)) as [Hactive|Hidle].
  - destruct (tickCallback_accrues copy currentDate now fileExt st1 b Hactive Hb1)
      as (st' & Htick & Hmem & _).
    rewrite (step_tick_returned _ _ _ _ _ _ _ Htimer1 Htick), Hmem.
    change (projectName st1) with (projectName st).
    rewrite bucketAt_accrue, decide_True by done.
    change (inMemory (projectStats st1)) with (inMemory (projectStats st)).
    by rewrite Hb.
  - assert (Hidle' : epochMs now - lastActivityTime st1 > 30000) by (simpl; lia).
    rewrite (step_tick_idle copy st1 h currentDate now fileExt Htimer1 Hidle').
    exact Hb1.
Qed.

Lemma activity_signal_opens_the_idle_window_witness :
  timerOf 0 (timers demo_session) = Some (AccountingTick "2025-01-01 (Wednesday)")
  /\ bucketAt
       (inMemory (projectStats
          (run true demo_session
             [UserActivity 1735736400000;
              TimerFires 0 {| epochMs := 1735736430000; utcOffsetMin := 0 |} ".md"])))
       (projectName demo_session) "2025-01-01 (Wednesday)"
     = Some (if decide (epochMs {| epochMs := 1735736430000; utcOffsetMin := 0 |}
                        - 1735736400000 <= 30000)
             then addTick ".md" {| totalTime := 1000; fileStats := [(".ts", 1000)] |}
             else {| totalTime := 1000; fileStats := [(".ts", 1000)] |}).
Proof.
  assert (Ht : timerOf 0 (timers demo_session)
               = Some (AccountingTick "2025-01-01 (Wednesday)"))
    by (vm_compute; reflexivity).
  assert (Hb : bucketAt (inMemory (projectStats demo_session)) (projectName demo_session)
                 "2025-01-01 (Wednesday)"
               = Some {| totalTime := 1000; fileStats := [(".ts", 1000)] |})
    by (vm_compute; reflexivity).
  split; [exact Ht|].
  exact (activity_signal_opens_the_idle_window true demo_session 0
           "2025-01-01 (Wednesday)" 1735736400000
           {| epochMs := 1735736430000; utcOffsetMin := 0 |} ".md" _ Ht Hb).
Defined.

(** ** The first variant: the tracking session *)

Lemma fs_get_set_other k k' v fs :
  k' ≠ k -> fs_get k' (fs_set k v fs) = fs_get k' fs.
Proof.
  intros Hne. induction fs as [|[k0 w] fs IH]; simpl.
  - by rewrite decide_False.
  - destruct (decide (k0 = k)) as [->|Hk]; simpl.
    + by rewrite !decide_False by done.
    + destruct (decide (k0 = k')); [done | exact IH].
Qed.

Lemma credit_same language amount stats :
  language ≠ "" ->
  fs_get language (Session1.credit language amount stats)
  = Some (default 0 (fs_get language stats) + amount).
Proof.
  intros Hl. unfold Session1.credit. rewrite decide_False by done.
  apply fs_get_set_same.
Qed.

Lemma credit_other language amount stats l :
  l ≠ language ->
  fs_get l (Session1.credit language amount stats) = fs_get l stats.
Proof.
  intros Hl. unfold Session1.credit. destruct (decide (language = "")); [done|].
  by apply fs_get_set_other.
Qed.

Lemma session1_updateStatusBarItem_fields st :
  let st' := Session1.updateStatusBarItem st in
  Session1.timerStartTime st' = Session1.timerStartTime st
  /\ Session1.timerInterval st' = Session1.timerInterval st
  /\ Session1.timeSpent st' = Session1.timeSpent st
  /\ Session1.currentLanguage st' = Session1.currentLanguage st
  /\ Session1.totalTimeSpent st' = Session1.totalTimeSpent st
  /\ Session1.startDate st' = Session1.startDate st
  /\ Session1.projectName st' = Session1.projectName st
  /\ Session1.projectStats st' = Session1.projectStats st
  /\ Session1.timers st' = Session1.timers st
  /\ Session1.nextHandle st' = Session1.nextHandle st
  /\ Session1.shown st' = Session1.shown st
  /\ Session1.written st' = Session1.written st.
Proof. unfold Session1.updateStatusBarItem. by destruct (Session1.statusBarItem st). Qed.

Lemma session1_run_cons st ev evs :
  Session1.run st (ev :: evs) = Session1.run (Session1.step st ev) evs.
Proof. reflexivity. Qed.

Lemma session1_run_app st evs evs' :
  Session1.run st (evs ++ evs') = Session1.run (Session1.run st evs) evs'.
Proof. unfold Session1.run. apply foldl_app. Qed.

Lemma session1_timerOf_app_fresh h cb ts rest :
  Forall (fun t => (fst t < h)%nat) ts ->
  Session1.timerOf h (ts ++ (h, cb) :: rest) = Some cb.
Proof.
  induction 1 as [|[k c] ts Hk _ IH]; simpl.
  - by rewrite decide_True.
  - simpl in Hk. rewrite decide_False by lia. exact IH.
Qed.

(** The ticks of a running session: each credits 1000 ms to the current
    language and recomputes the total. *)
Lemma session1_ticks h language start ticks :
  language ≠ "" ->
  forall st,
    Session1.running st = Some start ->
    Session1.currentLanguage st = language ->
    Session1.timerOf h (Session1.timers st) = Some Session1.LanguageTick ->
    let st' := Session1.run st (map (Session1.TimerFires h) ticks) in
    Session1.running st' = Some start
    /\ Session1.currentLanguage st' = language
    /\ Session1.timerInterval st' = Session1.timerInterval st
    /\ Session1.timers st' = Session1.timers st
    /\ default 0 (fs_get language (Session1.projectStats st'))
       = default 0 (fs_get language (Session1.projectStats st))
         + 1000 * Z.of_nat (length ticks)
    /\ forall l, l ≠ language ->
         fs_get l (Session1.projectStats st') = fs_get l (Session1.projectStats st).
Proof.
  intros Hl. induction ticks as [|now ticks IH]; intros st Hrun Hlang Htimer.
  - simpl. repeat split; try done. lia.
  - rewrite map_cons. cbv zeta. rewrite session1_run_cons.
    assert (Hstep : Session1.step st (Session1.TimerFires h now)
                    = Session1.tickCallback now st) by (simpl; by rewrite Htimer).
    rewrite Hstep. clear Hstep.
    set (st1 := Session1.tickCallback now st).
    assert (H1 : Session1.timerStartTime st1 = Session1.timerStartTime st
                 /\ Session1.currentLanguage st1 = language
                 /\ Session1.timerInterval st1 = Session1.timerInterval st
                 /\ Session1.timers st1 = Session1.timers st
                 /\ Session1.projectStats st1
                    = Session1.credit language 1000 (Session1.projectStats st)).
    { subst st1. unfold Session1.tickCallback. rewrite Hrun.
      match goal with
      | |- context [Session1.updateStatusBarItem ?s] =>
          destruct (session1_updateStatusBarItem_fields s)
            as (-> & -> & _ & -> & _ & _ & _ & -> & -> & _)
      end.
      simpl. by rewrite Hlang. }
    destruct H1 as (Ht1 & Hl1 & Hi1 & Hts1 & Hs1).
    assert (Hrun1 : Session1.running st1 = Some start).
    { unfold Session1.running in *. by rewrite Ht1. }
    assert (Htimer1 : Session1.timerOf h (Session1.timers st1) = Some Session1.LanguageTick)
      by (by rewrite Hts1).
    destruct (IH st1 Hrun1 Hl1 Htimer1) as (Hr & Hc & Hi & Hts & Hsum & Hother).
    rewrite Hr, Hc, Hi, Hts, Hi1, Hts1. repeat split; try done.
    + rewrite Hsum, Hs1, credit_same by done. simpl length. simpl default. lia.
    + intros l Hne. rewrite Hother, Hs1 by done. by apply credit_other.
Qed.

Lemma sumOfStats_shift a stats :
  foldl (fun acc entry => acc + snd entry) a stats = a + Session1.sumOfStats stats.
Proof.
  unfold Session1.sumOfStats. revert a.
  induction stats as [|[k v] stats IH]; intros a; simpl; [lia|].
  rewrite (IH (a + v)), (IH (0 + v)). lia.
Qed.

(** X8.  In the first variant a session is counted twice.  Start the
    clock with a language at a time [now], let the one-second timer fire
    [n] times and stop at a time [stop]: the language is credited 1000 ms
    by each tick and, on top of that, the whole duration [stop - now] by
    [stopTrackingTime].  No other language changes, [totalTimeSpent] is
    again the sum over the languages, and the clock is stopped. *)
Theorem variant1_session_is_counted_twice
    (st : Session1.State) (now stop : Instant) (ws : option string)
    (language : string) (ticks : list Instant) :
  Session1.timerStartTime st = None ->
  Forall (fun t => (fst t < Session1.nextHandle st)%nat) (Session1.timers st) ->
  language ≠ "" ->
  epochMs now ≠ 0 ->
  let final :=
    Session1.run st
      (Session1.CmdStart (Some language) now ws
         :: map (Session1.TimerFires (Session1.nextHandle st)) ticks
         ++ [Session1.CmdStop stop]) in
  fs_get language (Session1.projectStats final)
  = Some (default 0 (fs_get language (Session1.projectStats st))
          + 1000 * Z.of_nat (length ticks) + (epochMs stop - epochMs now))
  /\ (forall l, l ≠ language ->
        fs_get l (Session1.projectStats final) = fs_get l (Session1.projectStats st))
  /\ Session1.totalTimeSpent final = Session1.sumOfStats (Session1.projectStats final)
  /\ Session1.timerStartTime final = None.
Proof.
  intros Hstopped Hfresh Hl Hnow final. subst final.
  rewrite session1_run_cons, session1_run_app.
  set (st1 := Session1.step st (Session1.CmdStart (Some language) now ws)).
  assert (H1 : Session1.running st1 = Some (epochMs now)
               /\ Session1.currentLanguage st1 = language
               /\ Session1.projectStats st1 = Session1.projectStats st
               /\ Session1.timers st1
                  = Session1.timers st
                    ++ [(Session1.nextHandle st, Session1.LanguageTick);
                        (S (Session1.nextHandle st), Session1.SayHi)]).
  { subst st1. simpl. rewrite decide_False by done.
    unfold Session1.startTrackingTime, Session1.running. simpl. rewrite Hstopped. simpl.
    by rewrite decide_False by done. }
  destruct H1 as (Hrun1 & Hlang1 & Hstats1 & Hts1).
  assert (Htimer1 : Session1.timerOf (Session1.nextHandle st) (Session1.timers st1)
                    = Some Session1.LanguageTick).
  { rewrite Hts1. by apply session1_timerOf_app_fresh. }
  destruct (session1_ticks (Session1.nextHandle st) language (epochMs now) ticks Hl
              st1 Hrun1 Hlang1 Htimer1) as (Hrun2 & Hlang2 & _ & _ & Hsum2 & Hother2).
  set (st2 := Session1.run st1 (map (Session1.TimerFires (Session1.nextHandle st)) ticks))
    in *.
  change (Session1.run st2 [Session1.CmdStop stop])
    with (Session1.step st2 (Session1.CmdStop stop)).
  assert (Hfinal :
    Session1.projectStats (Session1.step st2 (Session1.CmdStop stop))
    = Session1.credit language (epochMs stop - epochMs now) (Session1.projectStats st2)
    /\ Session1.totalTimeSpent (Session1.step st2 (Session1.CmdStop stop))
       = Session1.sumOfStats
           (Session1.credit language (epochMs stop - epochMs now)
                            (Session1.projectStats st2))
    /\ Session1.timerStartTime (Session1.step st2 (Session1.CmdStop stop)) = None).
  { simpl. unfold Session1.stopTrackingTime. rewrite Hrun2. simpl.
    match goal with
    | |- context [Session1.updateStatusBarItem ?s] =>
        destruct (session1_updateStatusBarItem_fields s)
          as (-> & _ & _ & _ & -> & _ & _ & -> & _)
    end.
    simpl. by rewrite Hlang2. }
  destruct Hfinal as (-> & -> & ->).
  repeat split; try done.
  - rewrite credit_same, Hsum2, Hstats1 by done. f_equal; lia.
  - intros l Hne. rewrite credit_other, Hother2 by done. by rewrite Hstats1.
Qed.

Lemma variant1_session_is_counted_twice_witness :
  Session1.timerStartTime Session1.initial = None
  /\ epochMs noon ≠ 0
  /\ fs_get "typescript"
       (Session1.projectStats
          (Session1.run Session1.initial
             (Session1.CmdStart (Some "typescript") noon (Some "demo")
                :: map (Session1.TimerFires (Session1.nextHandle Session1.initial))
                       three_ticks
                ++ [Session1.CmdStop (at_second 3)])))
     = Some (default 0 (fs_get "typescript" (Session1.projectStats Session1.initial))
             + 1000 * Z.of_nat (length three_ticks)
             + (epochMs (at_second 3) - epochMs noon)).
Proof.
  assert (Hs : Session1.timerStartTime Session1.initial = None) by reflexivity.
  assert (Hf : Forall (fun t => (fst t < Session1.nextHandle Session1.initial)%nat)
                 (Session1.timers Session1.initial)) by constructor.
  assert (Hl : "typescript" ≠ "") by discriminate.
  assert (Hn : epochMs noon ≠ 0) by discriminate.
  split; [exact Hs|]. split; [exact Hn|].
  exact (proj1 (variant1_session_is_counted_twice Session1.initial noon (at_second 3)
                  (Some "demo") "typescript" three_ticks Hs Hf Hl Hn)).
Defined.

(** Three seconds of typescript are recorded as six. *)
Example variant1_three_seconds :
  Session1.projectStats
    (Session1.run Session1.initial
       (Session1.CmdStart (Some "typescript") noon (Some "demo")
          :: map (Session1.TimerFires 0) three_ticks
          ++ [Session1.CmdStop (at_second 3)]))
  = [("typescript", 6000)].
Proof. vm_compute. reflexivity. Qed.

(** X9.  In the first variant a change of the active editor to another
    language credits the time of the running session to the language
    switched to, not to the one that was being tracked: [onEditorChange]
    assigns [currentLanguage] before it stops the clock.  The statistics
    of every other language, the old one included, are unchanged; the
    clock is started again at the time of the switch. *)
Theorem variant1_switch_credits_the_new_language
    (st : Session1.State) (start : Z) (now : Instant) (ws : option string)
    (language : string) :
  Session1.running st = Some start ->
  language ≠ "" ->
  language ≠ Session1.currentLanguage st ->
  let st' := Session1.onEditorChange (Some language) now ws st in
  fs_get language (Session1.projectStats st')
  = Some (default 0 (fs_get language (Session1.projectStats st))
          + (epochMs now - start))
  /\ (forall l, l ≠ language ->
        fs_get l (Session1.projectStats st') = fs_get l (Session1.projectStats st))
  /\ Session1.currentLanguage st' = language
  /\ Session1.timerStartTime st' = Some (epochMs now)
  /\ Session1.shown st'
     = Session1.shown st
       ++ [Session1.StoppedTracking language (epochMs now - start);
           Session1.NowTracking language].
Proof.
  intros Hrun Hl Hnew st'. subst st'. unfold Session1.onEditorChange.
  rewrite !decide_False by done.
  set (stopped := Session1.stopTrackingTime now (Session1.set_currentLanguage language st)).
  assert (Hstopped :
    Session1.timerStartTime stopped = None
    /\ Session1.currentLanguage stopped = language
    /\ Session1.projectStats stopped
       = Session1.credit language (epochMs now - start) (Session1.projectStats st)
    /\ Session1.shown stopped
       = Session1.shown st ++ [Session1.StoppedTracking language (epochMs now - start)]).
  { subst stopped. unfold Session1.stopTrackingTime.
    change (Session1.running (Session1.set_currentLanguage language st))
      with (Session1.running st). rewrite Hrun. simpl.
    match goal with
    | |- context [Session1.updateStatusBarItem ?s] =>
        destruct (session1_updateStatusBarItem_fields s)
          as (-> & _ & _ & -> & _ & _ & _ & -> & _ & _ & -> & _)
    end.
    done. }
  destruct Hstopped as (Ht & Hc & Hs & Hsh).
  unfold Session1.startTrackingTime. rewrite Ht. simpl. rewrite Hc, Hs, Hsh.
  repeat split; try done.
  - by apply credit_same.
  - intros l Hne. by apply credit_other.
  - by rewrite <- app_assoc.
Qed.

Lemma variant1_switch_credits_the_new_language_witness :
  Session1.running typescript_session = Some (epochMs noon)
  /\ fs_get "markdown"
       (Session1.projectStats
          (Session1.onEditorChange (Some "markdown") (at_second 4) (Some "demo")
             typescript_session))
     = Some (default 0 (fs_get "markdown" (Session1.projectStats typescript_session))
             + (epochMs (at_second 4) - epochMs noon)).
Proof.
  assert (Hr : Session1.running typescript_session = Some (epochMs noon))
    by (vm_compute; reflexivity).
  assert (Hl : "markdown" ≠ "") by discriminate.
  assert (Hn : "markdown" ≠ Session1.currentLanguage typescript_session)
    by (vm_compute; intros H; discriminate H).
  split; [exact Hr|].
  exact (proj1 (variant1_switch_credits_the_new_language typescript_session
                  (epochMs noon) (at_second 4) (Some "demo") "markdown" Hr Hl Hn)).
Defined.

(** The four seconds of typescript go to markdown. *)
Example variant1_switch_after_four_seconds :
  Session1.projectStats
    (Session1.onEditorChange (Some "markdown") (at_second 4) (Some "demo")
       typescript_session)
  = [("typescript", 3000); ("markdown", 4000)].
Proof. vm_compute. reflexivity. Qed.

(** *** The ['Hi'] timers *)

Lemma hiTimers_app st ts :
  length (List.filter (fun t : nat * Session1.TimerCallback =>
                         match snd t with Session1.SayHi => true | _ => false end)
                      (Session1.timers st ++ ts))
  = (Session1.hiTimers st
     + length (List.filter (fun t : nat * Session1.TimerCallback =>
                              match snd t with Session1.SayHi => true | _ => false end)
                           ts))%nat.
Proof. unfold Session1.hiTimers. by rewrite List.filter_app, length_app. Qed.

Lemma clearInterval_keeps_hi h ts :
  Forall (fun t : nat * Session1.TimerCallback =>
            fst t = h -> snd t = Session1.LanguageTick) ts ->
  List.filter (fun t => match snd t with Session1.SayHi => true | _ => false end)
              (Session1.clearInterval h ts)
  = List.filter (fun t => match snd t with Session1.SayHi => true | _ => false end) ts.
Proof.
  unfold Session1.clearInterval. induction 1 as [|[k cb] ts Hk _ IH]; [done|].
  rewrite filter_cons. simpl in Hk. case_decide as Hne; simpl.
  - destruct cb; simpl; by rewrite IH.
  - assert (k = h) by (destruct (decide (k = h)); [done | by destruct Hne]).
    rewrite Hk by done. exact IH.
Qed.

Lemma clearInterval_fresh1 h n ts :
  Forall (fun t : nat * Session1.TimerCallback => (fst t < n)%nat) ts ->
  Forall (fun t => (fst t < n)%nat) (Session1.clearInterval h ts).
Proof.
  intros H. unfold Session1.clearInterval. induction H as [|t ts Ht _ IH]; [constructor|].
  rewrite filter_cons. case_decide; [by constructor | done].
Qed.

Lemma clearInterval_ticks h h' ts :
  Forall (fun t : nat * Session1.TimerCallback =>
            fst t = h' -> snd t = Session1.LanguageTick) ts ->
  Forall (fun t => fst t = h' -> snd t = Session1.LanguageTick)
         (Session1.clearInterval h ts).
Proof.
  intros H. unfold Session1.clearInterval. induction H as [|t ts Ht _ IH]; [constructor|].
  rewrite filter_cons. case_decide; [by constructor | done].
Qed.

Lemma session1_handles_start now ws st :
  session1_handles st -> session1_handles (Session1.startTrackingTime now ws st).
Proof.
  intros [Hfresh Hkept]. unfold Session1.startTrackingTime.
  destruct (Session1.timerStartTime st); [by split|].
  split; simpl.
  - apply Forall_app. split.
    + eapply Forall_impl; [exact Hfresh|]. simpl. lia.
    + repeat constructor; simpl; lia.
  - split; [lia|]. apply Forall_app. split.
    + eapply Forall_impl; [exact Hfresh|]. intros [k cb] Hlt Heq. simpl in *. lia.
    + constructor; [done|]. constructor; [|constructor]. simpl. lia.
Qed.

Lemma session1_stop_fields now st :
  let st' := Session1.stopTrackingTime now st in
  Session1.timerInterval st' = None
  /\ Session1.nextHandle st' = Session1.nextHandle st
  /\ Session1.timers st'
     = match Session1.timerInterval st with
       | Some h => Session1.clearInterval h (Session1.timers st)
       | None => Session1.timers st
       end.
Proof.
  unfold Session1.stopTrackingTime. destruct (Session1.running st); [|done]. simpl.
  match goal with
  | |- context [Session1.updateStatusBarItem ?s] =>
      destruct (session1_updateStatusBarItem_fields s)
        as (_ & -> & _ & _ & _ & _ & _ & _ & -> & -> & _)
  end.
  done.
Qed.

Lemma session1_handles_stop now st :
  session1_handles st -> session1_handles (Session1.stopTrackingTime now st).
Proof.
  intros [Hfresh Hkept]. destruct (session1_stop_fields now st) as (Hi & Hn & Hts).
  unfold session1_handles. rewrite Hi, Hn, Hts. split; [|done].
  destruct (Session1.timerInterval st); [by apply clearInterval_fresh1 | done].
Qed.

Lemma session1_tick_fields now st :
  let st' := Session1.tickCallback now st in
  Session1.timerInterval st' = Session1.timerInterval st
  /\ Session1.nextHandle st' = Session1.nextHandle st
  /\ Session1.timers st' = Session1.timers st.
Proof.
  unfold Session1.tickCallback. destruct (Session1.running st); [|done].
  match goal with
  | |- context [Session1.updateStatusBarItem ?s] =>
      destruct (session1_updateStatusBarItem_fields s)
        as (_ & -> & _ & _ & _ & _ & _ & _ & -> & -> & _)
  end.
  done.
Qed.

Lemma session1_handles_step st ev :
  session1_handles st -> session1_handles (Session1.step st ev).
Proof.
  intros H. destruct ev as [|data|language now ws|now| | |language now ws|h now|]; simpl.
  - done.
  - done.
  - destruct language as [l|]; [|done]. case_decide; [done|].
    by apply (session1_handles_start now ws (Session1.set_currentLanguage l st)).
  - by apply session1_handles_stop.
  - done.
  - done.
  - unfold Session1.onEditorChange. destruct language as [l|]; [|done].
    repeat case_decide; try done.
    apply (session1_handles_start now ws), session1_handles_stop. exact H.
  - destruct (Session1.timerOf h (Session1.timers st)) as [[|]|]; try done.
    unfold session1_handles.
    by destruct (session1_tick_fields now st) as (-> & -> & ->).
  - destruct H as [Hfresh Hkept]. unfold session1_handles.
    destruct (Session1.timerInterval st) as [h|] eqn:Hi; simpl; [|by rewrite ?Hi].
    rewrite ?Hi. destruct Hkept as [Hlt Hticks].
    split; [by apply clearInterval_fresh1|]. split; [done|].
    by apply clearInterval_ticks.
Qed.

Lemma session1_handles_run evs st :
  session1_handles st -> session1_handles (Session1.run st evs).
Proof.
  revert st. induction evs as [|ev evs IH]; intros st H; [done|].
  rewrite session1_run_cons. by apply IH, session1_handles_step.
Qed.

Lemma hiTimers_stop now st :
  session1_handles st ->
  Session1.hiTimers (Session1.stopTrackingTime now st) = Session1.hiTimers st.
Proof.
  intros [_ Hkept]. destruct (session1_stop_fields now st) as (_ & _ & Hts).
  unfold Session1.hiTimers. rewrite Hts.
  destruct (Session1.timerInterval st); [|done].
  destruct Hkept as [_ Hticks]. by rewrite clearInterval_keeps_hi.
Qed.

Lemma hiTimers_start now ws st :
  Session1.hiTimers (Session1.startTrackingTime now ws st)
  = match Session1.timerStartTime st with
    | Some _ => Session1.hiTimers st
    | None => S (Session1.hiTimers st)
    end.
Proof.
  unfold Session1.startTrackingTime. destruct (Session1.timerStartTime st); [done|].
  unfold Session1.hiTimers at 1. simpl Session1.timers.
  rewrite hiTimers_app. simpl. lia.
Qed.

(** X10.  In the first variant every start that takes effect sets a second
    timer, the one that says ['Hi'] every seven minutes, whose handle is
    not kept, and nothing ever clears it: in any state reached from the
    load of the module, no event lowers the number of ['Hi'] timers, a
    stop leaves them all in place, and a start from the stopped clock adds
    one.  After [k] sessions there are [k] of them. *)
Theorem variant1_hi_timers_pile_up (evs : list Session1.Event) :
  let st := Session1.run Session1.initial evs in
  (forall ev, (Session1.hiTimers st <= Session1.hiTimers (Session1.step st ev))%nat)
  /\ (forall now,
        Session1.hiTimers (Session1.step st (Session1.CmdStop now))
        = Session1.hiTimers st)
  /\ (forall language now ws,
        language ≠ "" ->
        Session1.hiTimers (Session1.step st (Session1.CmdStart (Some language) now ws))
        = match Session1.timerStartTime st with
          | Some _ => Session1.hiTimers st
          | None => S (Session1.hiTimers st)
          end).
Proof.
  intros st.
  assert (H : session1_handles st).
  { apply session1_handles_run. split; [constructor | done]. }
  assert (Hstop : forall now,
            Session1.hiTimers (Session1.step st (Session1.CmdStop now))
            = Session1.hiTimers st).
  { intros now. simpl. by apply hiTimers_stop. }
  assert (Hstart : forall language now ws,
            language ≠ "" ->
            Session1.hiTimers
              (Session1.step st (Session1.CmdStart (Some language) now ws))
            = match Session1.timerStartTime st with
              | Some _ => Session1.hiTimers st
              | None => S (Session1.hiTimers st)
              end).
  { intros language now ws Hl. simpl. rewrite decide_False by done.
    change (Session1.hiTimers
              (Session1.showInformationMessage (Session1.StartedTracking language)
                 (Session1.startTrackingTime now ws
                    (Session1.set_currentLanguage language st))))
      with (Session1.hiTimers
              (Session1.startTrackingTime now ws
                 (Session1.set_currentLanguage language st))).
    by rewrite hiTimers_start. }
  split; [|by split].
  intros ev. destruct ev as [|data|language now ws|now| | |language now ws|h now|].
  - done.
  - done.
  - destruct language as [l|]; [|done].
    destruct (decide (l = "")) as [->|Hl]; [done|].
    rewrite Hstart by done. destruct (Session1.timerStartTime st); lia.
  - by rewrite Hstop.
  - done.
  - done.
  - simpl. unfold Session1.onEditorChange. destruct language as [l|]; [|done].
    repeat case_decide; try done.
    change (Session1.hiTimers
              (Session1.showInformationMessage (Session1.NowTracking l)
                 (Session1.startTrackingTime now ws
                    (Session1.stopTrackingTime now
                       (Session1.set_currentLanguage l st)))))
      with (Session1.hiTimers
              (Session1.startTrackingTime now ws
                 (Session1.stopTrackingTime now
                    (Session1.set_currentLanguage l st)))).
    rewrite hiTimers_start.
    rewrite (hiTimers_stop now (Session1.set_currentLanguage l st)) by exact H.
    change (Session1.hiTimers (Session1.set_currentLanguage l st))
      with (Session1.hiTimers st).
    destruct (Session1.timerStartTime
                (Session1.stopTrackingTime now (Session1.set_currentLanguage l st)));
      lia.
  - simpl. destruct (Session1.timerOf h (Session1.timers st)) as [[|]|]; try done.
    unfold Session1.hiTimers.
    by destruct (session1_tick_fields now st) as (_ & _ & ->).
  - simpl. destruct H as [_ Hkept].
    destruct (Session1.timerInterval st) as [h|]; [|done].
    unfold Session1.hiTimers. simpl.
    destruct Hkept as [_ Hticks]. by rewrite clearInterval_keeps_hi.
Qed.

(** Two sessions leave two ['Hi'] timers and no tick timer. *)
Example variant1_two_sessions :
  Session1.timers
    (Session1.run Session1.initial
       [Session1.CmdStart (Some "typescript") noon None; Session1.CmdStop (at_second 5);
        Session1.CmdStart (Some "typescript") (at_second 6) None;
        Session1.CmdStop (at_second 9)])
  = [(1%nat, Session1.SayHi); (3%nat, Session1.SayHi)].
Proof. vm_compute. reflexivity. Qed.

(** *** Saving and loading *)

Section Variant1RoundTrip.

Variable JSON_parse : string -> string + json.
Variable null_read_message : string.

(** X11.  In the first variant, what [stopTrackingTime] saves comes back
    when the saved file is loaded into a newly loaded module: the
    statistics per language and the total are those of the stopped state,
    and the project name and the start date too when both are non-empty
    (otherwise neither is read).  The current language and the time of
    the language, which are saved as well, are never read back.  No error
    is shown. *)
Theorem variant1_saved_data_load_back
    (st : Session1.State) (start : Z) (now : Instant) (text : string) :
  Session1.running st = Some start ->
  let stopped := Session1.stopTrackingTime now st in
  let data :=
    {| Session1.saved_currentLanguage := Session1.currentLanguage stopped;
       Session1.saved_timeSpent :=
         default 0 (fs_get (Session1.currentLanguage stopped)
                           (Session1.projectStats stopped));
       Session1.saved_totalTimeSpent := Session1.totalTimeSpent stopped;
       Session1.saved_startDate := Session1.startDate stopped;
       Session1.saved_projectName := Session1.projectName stopped;
       Session1.saved_projectStats := Session1.projectStats stopped |} in
  JSON_parse text = inr (json_of_saved data) ->
  let loaded :=
    Variant1.loadTimeTrackingData JSON_parse null_read_message (Some text)
      Variant1.initial in
  let named := negb (String.eqb (Session1.projectName stopped) "")
               && negb (String.eqb (Session1.startDate stopped) "") in
  Session1.written stopped = Session1.written st ++ [data]
  /\ Variant1.projectStats loaded = json_of_stats (Session1.projectStats stopped)
  /\ Variant1.totalTimeSpent loaded = JNum (Session1.totalTimeSpent stopped)
  /\ Variant1.projectName loaded
     = JStr (if named then Session1.projectName stopped else "")
  /\ Variant1.startDate loaded
     = JStr (if named then Session1.startDate stopped else "")
  /\ Variant1.currentLanguage loaded = ""
  /\ Variant1.timeSpent loaded = 0
  /\ Variant1.errorsShown loaded = [].
Proof.
  intros Hrun stopped data Hparse loaded named.
  assert (Hwritten : Session1.written stopped = Session1.written st ++ [data]).
  { subst data stopped. unfold Session1.stopTrackingTime. rewrite Hrun. simpl.
    match goal with
    | |- context [Session1.updateStatusBarItem ?s] =>
        destruct (session1_updateStatusBarItem_fields s)
          as (_ & _ & _ & -> & -> & -> & -> & -> & _ & _ & _ & ->)
    end.
    reflexivity. }
  split; [exact Hwritten|].
  subst loaded. unfold Variant1.loadTimeTrackingData. rewrite Hparse.
  unfold json_of_saved, Variant1.truthy_field, Variant1.field. simpl jget.
  cbn [truthy json_of_stats]. fold named.
  subst data. cbn [Session1.saved_totalTimeSpent Session1.saved_startDate
                   Session1.saved_projectName Session1.saved_projectStats].
  cbn [Variant1.projectStats Variant1.totalTimeSpent Variant1.projectName
       Variant1.startDate Variant1.currentLanguage Variant1.timeSpent
       Variant1.errorsShown Variant1.initial default].
  repeat split.
  - destruct (Session1.totalTimeSpent stopped =? 0) eqn:Hz; simpl; [|done].
    apply Z.eqb_eq in Hz. by rewrite Hz.
  - by destruct named.
  - by destruct named.
Qed.

Lemma truthy_JStr s : truthy (JStr s) = bool_decide (s ≠ "").
Proof.
  unfold truthy. destruct (String.eqb_spec s "") as [Heq|Hne]; cbn [negb]; symmetry.
  - apply bool_decide_eq_false_2. intros H. by apply H.
  - by apply bool_decide_eq_true_2.
Qed.

(** X12.  The load of the first variant on a file that holds data as
    [saveTimeTrackingData] writes them.  The statistics are replaced by
    the saved ones; the project name and the start date are replaced when
    both saved values are non-empty, and kept otherwise; the total is
    replaced when the saved total is not 0, and kept otherwise.  The
    clock, the timer handle, [timeSpent], [currentLanguage] and the timers
    of the host are kept, and no error is shown.  The load at the declared
    types of the variables ([Session1.loadSaved]) assigns and keeps the
    same, so that variables that agree before the load agree after it. *)
Theorem variant1_load_of_saved_data
    (data : Session1.SavedData) (text : string)
    (st : Session1.State) (u : Variant1.State) :
  JSON_parse text = inr (json_of_saved data) ->
  let u' := Variant1.loadTimeTrackingData JSON_parse null_read_message (Some text) u in
  let st' := Session1.loadSaved data st in
  let named := negb (String.eqb (Session1.saved_projectName data) "")
               && negb (String.eqb (Session1.saved_startDate data) "") in
  let totalled := negb (Session1.saved_totalTimeSpent data =? 0) in
  (Variant1.projectStats u' = json_of_stats (Session1.saved_projectStats data)
   /\ Variant1.projectName u'
      = (if named then JStr (Session1.saved_projectName data) else Variant1.projectName u)
   /\ Variant1.startDate u'
      = (if named then JStr (Session1.saved_startDate data) else Variant1.startDate u)
   /\ Variant1.totalTimeSpent u'
      = (if totalled then JNum (Session1.saved_totalTimeSpent data)
         else Variant1.totalTimeSpent u)
   /\ Variant1.timerStartTime u' = Variant1.timerStartTime u
   /\ Variant1.timerInterval u' = Variant1.timerInterval u
   /\ Variant1.timeSpent u' = Variant1.timeSpent u
   /\ Variant1.currentLanguage u' = Variant1.currentLanguage u
   /\ Variant1.timers u' = Variant1.timers u
   /\ Variant1.nextHandle u' = Variant1.nextHandle u
   /\ Variant1.errorsShown u' = Variant1.errorsShown u)
  /\ (Session1.projectStats st' = Session1.saved_projectStats data
      /\ Session1.projectName st'
         = (if named then Session1.saved_projectName data else Session1.projectName st)
      /\ Session1.startDate st'
         = (if named then Session1.saved_startDate data else Session1.startDate st)
      /\ Session1.totalTimeSpent st'
         = (if totalled then Session1.saved_totalTimeSpent data
            else Session1.totalTimeSpent st)
      /\ Session1.timerStartTime st' = Session1.timerStartTime st
      /\ Session1.timerInterval st' = Session1.timerInterval st
      /\ Session1.timeSpent st' = Session1.timeSpent st
      /\ Session1.currentLanguage st' = Session1.currentLanguage st
      /\ Session1.statusBarItem st' = Session1.statusBarItem st
      /\ Session1.timers st' = Session1.timers st
      /\ Session1.nextHandle st' = Session1.nextHandle st
      /\ Session1.shown st' = Session1.shown st
      /\ Session1.written st' = Session1.written st)
  /\ (encodes st u -> encodes st' u').
Proof.
  intros Hparse u' st' named totalled.
  assert (Hu : u' =
    {| Variant1.timerStartTime := Variant1.timerStartTime u;
       Variant1.timerInterval := Variant1.timerInterval u;
       Variant1.timeSpent := Variant1.timeSpent u;
       Variant1.currentLanguage := Variant1.currentLanguage u;
       Variant1.totalTimeSpent :=
         if totalled then JNum (Session1.saved_totalTimeSpent data)
         else Variant1.totalTimeSpent u;
       Variant1.startDate :=
         if named then JStr (Session1.saved_startDate data) else Variant1.startDate u;
       Variant1.projectName :=
         if named then JStr (Session1.saved_projectName data) else Variant1.projectName u;
       Variant1.projectStats := json_of_stats (Session1.saved_projectStats data);
       Variant1.timers := Variant1.timers u; Variant1.nextHandle := Variant1.nextHandle u;
       Variant1.errorsShown := Variant1.errorsShown u |}).
  { subst u'. unfold Variant1.loadTimeTrackingData. rewrite Hparse.
    unfold json_of_saved, Variant1.truthy_field, Variant1.field. simpl jget.
    change (truthy (json_of_stats (Session1.saved_projectStats data))) with true.
    cbv iota. cbn [truthy default]. fold named totalled.
    by destruct named, totalled. }
  assert (Hnamed : bool_decide (Session1.saved_projectName data ≠ "")
                   && bool_decide (Session1.saved_startDate data ≠ "") = named).
  { subst named. by rewrite <- !truthy_JStr. }
  assert (Htotal : forall (A : Type) (x y : A),
            (if decide (Session1.saved_totalTimeSpent data = 0) then x else y)
            = (if totalled then y else x)).
  { intros A x y. subst totalled.
    destruct (decide (Session1.saved_totalTimeSpent data = 0)) as [Hz|Hz].
    - by rewrite Hz.
    - apply Z.eqb_neq in Hz. by rewrite Hz. }
  assert (Hst : st' =
    {| Session1.timerStartTime := Session1.timerStartTime st;
       Session1.timerInterval := Session1.timerInterval st;
       Session1.timeSpent := Session1.timeSpent st;
       Session1.currentLanguage := Session1.currentLanguage st;
       Session1.totalTimeSpent :=
         if totalled then Session1.saved_totalTimeSpent data
         else Session1.totalTimeSpent st;
       Session1.startDate :=
         if named then Session1.saved_startDate data else Session1.startDate st;
       Session1.projectName :=
         if named then Session1.saved_projectName data else Session1.projectName st;
       Session1.projectStats := Session1.saved_projectStats data;
       Session1.statusBarItem := Session1.statusBarItem st;
       Session1.timers := Session1.timers st;
       Session1.nextHandle := Session1.nextHandle st;
       Session1.shown := Session1.shown st; Session1.written := Session1.written st |}).
  { subst st'. unfold Session1.loadSaved. by rewrite Hnamed, Htotal. }
  rewrite Hu, Hst. split; [done|]. split; [done|].
  intros (Hs & Hn & Hd & Ht). unfold encodes.
  cbn [Variant1.projectStats Variant1.totalTimeSpent Variant1.projectName
       Variant1.startDate Session1.projectStats Session1.totalTimeSpent
       Session1.projectName Session1.startDate].
  split; [done|].
  split; [by destruct named|].
  split; [by destruct named|].
  by destruct totalled.
Qed.

End Variant1RoundTrip.

Lemma variant1_saved_data_load_back_witness :
  Session1.running typescript_session = Some (epochMs noon)
  /\ Variant1.projectStats
       (Variant1.loadTimeTrackingData parse_typescript_saved "" (Some "saved")
          Variant1.initial)
     = json_of_stats
         (Session1.projectStats
            (Session1.stopTrackingTime (at_second 3) typescript_session)).
Proof.
  assert (Hr : Session1.running typescript_session = Some (epochMs noon))
    by (vm_compute; reflexivity).
  split; [exact Hr|].
  exact (proj1 (proj2
    (variant1_saved_data_load_back parse_typescript_saved "" typescript_session
       (epochMs noon) (at_second 3) "saved" Hr eq_refl))).
Defined.

(** The saved session, loaded into a new module. *)
Example variant1_saved_session_loaded :
  let loaded := Variant1.loadTimeTrackingData parse_typescript_saved "" (Some "saved")
                  Variant1.initial in
  Variant1.projectStats loaded = JObj [("typescript", JNum 6000)]
  /\ Variant1.totalTimeSpent loaded = JNum 6000
  /\ Variant1.projectName loaded = JStr "demo"
  /\ Variant1.startDate loaded = JStr "2025-01-01".
Proof. vm_compute. repeat split. Qed.

Lemma variant1_load_of_saved_data_witness :
  Variant1.projectStats
    (Variant1.loadTimeTrackingData parse_typescript_saved "" (Some "saved")
       Variant1.initial)
  = json_of_stats (Session1.saved_projectStats typescript_saved)
  /\ Variant1.timers
       (Variant1.loadTimeTrackingData parse_typescript_saved "" (Some "saved")
          Variant1.initial)
     = Variant1.timers Variant1.initial.
Proof.
  destruct (variant1_load_of_saved_data parse_typescript_saved "" typescript_saved "saved"
              Session1.initial Variant1.initial eq_refl)
    as ((Hstats & _ & _ & _ & _ & _ & _ & _ & Htimers & _) & _).
  split; [exact Hstats | exact Htimers].
Defined.

(** ** A re-read before the first accrual *)

Lemma no_bucket_step copy st ev t :
  timerStartTime st = Some t ->
  inMemory (projectStats st) = ∅ -> persisted (projectStats st) = None ->
  keeps_running ev = true ->
  timerStartTime (step copy st ev) = Some t
  /\ inMemory (projectStats (step copy st ev)) = ∅
  /\ persisted (projectStats (step copy st ev)) = None.
Proof.
  intros Ht Hmem Hsaved Hev.
  assert (Hget : inMemory (globalState_get (projectStats st)) = ∅
                 /\ persisted (globalState_get (projectStats st)) = None).
  { by rewrite inMemory_get, persisted_get, Hsaved. }
  destruct Hget as [Hgm Hgp].
  destruct ev as [now|now ws| |now|now|h now e|]; try done.
  - simpl. destruct (activate_fields now st) as (-> & _ & _ & _ & -> & _). done.
  - simpl. unfold startTrackingTime. simpl. rewrite Ht. done.
  - simpl. destruct (showProjectStats_fields now st) as (-> & _ & _ & _ & -> & _). done.
  - simpl. destruct (timerOf h (timers st)) as [[d|]|]; [| |done].
    + unfold tickCallback.
      destruct (30000 <? epochMs now - lastActivityTime st); [done|].
      rewrite Hmem, bucketAt_no_project by apply lookup_empty. done.
    + destruct (showProjectStats_fields now st) as (-> & _ & _ & _ & -> & _). done.
Qed.

Lemma no_bucket_run copy evs : forall st t,
  timerStartTime st = Some t ->
  inMemory (projectStats st) = ∅ -> persisted (projectStats st) = None ->
  forallb keeps_running evs = true ->
  timerStartTime (run copy st evs) = Some t
  /\ inMemory (projectStats (run copy st evs)) = ∅
  /\ persisted (projectStats (run copy st evs)) = None.
Proof.
  induction evs as [|ev evs IH]; intros st t Ht Hmem Hsaved Hevs; [done|].
  simpl in Hevs. apply andb_prop in Hevs as [Hev Hevs]. rewrite run_cons.
  destruct (no_bucket_step copy st ev t Ht Hmem Hsaved Hev) as (Ht' & Hmem' & Hsaved').
  by apply IH.
Qed.

Lemma reread_fields copy st ev t :
  timerStartTime st = Some t -> rereads ev = true ->
  timerStartTime (step copy st ev) = Some t
  /\ projectStats (step copy st ev) = globalState_get (projectStats st).
Proof.
  intros Ht Hev. destruct ev as [now|now ws| |now|now|h now e|]; try done.
  - unfold step, startTrackingTime. cbn [timerStartTime set_projectStats].
    rewrite Ht. done.
  - simpl. by destruct (showProjectStats_fields now st) as (-> & _ & _ & _ & -> & _).
Qed.

(** X13.  On a host whose [globalState] holds no statistics, the bucket a
    start creates exists in memory only until the first tick that accrues.
    A report or a second start command before that tick re-reads the
    statistics and drops the bucket; from then on every tick of the session
    that is not idle throws, so that nothing accrues and nothing is
    persisted as long as the session lasts, whatever happens in it (ticks,
    activity, reports, start commands, an activation).  Only a stop and a
    new start end this.  (The project name is taken not to be the name of
    a member of [Object.prototype], under which the bucket is not an entry
    of [projectStats], see [Plain].) *)
Theorem reread_before_the_first_accrual_ends_accrual
    (copy : bool) (st : State) (now : Instant) (ws : option string)
    (reread : Event) (evs : list Event) :
  timerStartTime st = None ->
  persisted (projectStats st) = None ->
  resolveProjectName ws ≠ "__proto__" ->
  ~ (resolveProjectName ws ∈ Plain.inheritedFunctions) ->
  rereads reread = true ->
  forallb keeps_running evs = true ->
  let started := startTrackingTime now ws st in
  let st' := run copy started (reread :: evs) in
  bucketAt (inMemory (projectStats started)) (resolveProjectName ws) (getCurrentDate now)
  = Some emptyBucket
  /\ timerStartTime st' = Some (epochMs now)
  /\ inMemory (projectStats st') = ∅
  /\ persisted (projectStats st') = None.
Proof.
  intros Hstopped Hsaved _ _ Hreread Hevs started st'.
  destruct (startTrackingTime_stopped now ws st Hstopped)
    as (Ht & _ & Hmem & _).
  fold started in Ht, Hmem.
  assert (Hp : persisted (projectStats started) = None).
  { subst started. unfold startTrackingTime. simpl. rewrite Hstopped. simpl.
    unfold globalState_get. by rewrite Hsaved. }
  split.
  { rewrite Hmem, Hsaved, bucketAt_ensureBucket, decide_True by done.
    by rewrite bucketAt_no_project by apply lookup_empty. }
  subst st'. rewrite run_cons.
  destruct (reread_fields copy started reread _ Ht Hreread) as (Ht' & Hσ).
  apply no_bucket_run; [exact Ht'| | |exact Hevs].
  - by rewrite Hσ, inMemory_get, Hp.
  - by rewrite Hσ, persisted_get, Hp.
Qed.

Lemma reread_before_the_first_accrual_ends_accrual_witness :
  bucketAt (inMemory (projectStats (startTrackingTime noon None activated)))
           (resolveProjectName None) (getCurrentDate noon)
  = Some emptyBucket
  /\ timerStartTime (run true (startTrackingTime noon None activated)
                       (CmdShowStats noon :: after_early_report))
     = Some (epochMs noon)
  /\ inMemory (projectStats (run true (startTrackingTime noon None activated)
                               (CmdShowStats noon :: after_early_report))) = ∅
  /\ persisted (projectStats (run true (startTrackingTime noon None activated)
                                (CmdShowStats noon :: after_early_report))) = None.
Proof.
  assert (H1 : timerStartTime activated = None) by reflexivity.
  assert (H2 : persisted (projectStats activated) = None) by reflexivity.
  assert (Hproto : resolveProjectName None ≠ "__proto__")
    by (intros H; discriminate H).
  assert (Hfn : ~ (resolveProjectName None ∈ Plain.inheritedFunctions))
    by (apply (bool_decide_eq_false_1 (resolveProjectName None ∈ Plain.inheritedFunctions));
        vm_compute; reflexivity).
  assert (H3 : rereads (CmdShowStats noon) = true) by reflexivity.
  assert (H4 : forallb keeps_running after_early_report = true) by reflexivity.
  exact (reread_before_the_first_accrual_ends_accrual true activated noon None
           (CmdShowStats noon) after_early_report H1 H2 Hproto Hfn H3 H4).
Defined.

(** ** Before the first start *)

Lemma before_start_step copy st ev :
  is_not_start ev = true ->
  projectName st = "" -> timers st = [] -> timerStartTime st = None ->
  state_named st ->
  (statusBarItem st = None \/ statusBarItem st = Some Blank) ->
  Forall tells_nothing (shown st) ->
  let st' := step copy st ev in
  projectName st' = "" /\ timers st' = [] /\ timerStartTime st' = None
  /\ state_named st'
  /\ (statusBarItem st' = None \/ statusBarItem st' = Some Blank)
  /\ Forall tells_nothing (shown st')
  /\ persisted (projectStats st') = persisted (projectStats st).
Proof.
  intros Hev Hname Hts Ht Hnamed Hbar Hshown st'.
  assert (Hnamed' : state_named st') by (apply (state_named_run copy [ev]); done).
  assert (Hreport : forall now,
    shown (showProjectStats now st) = shown st ++ [NoStatsAvailable]).
  { intros now. unfold showProjectStats. cbn [projectName set_projectStats].
    rewrite decide_True by done. done. }
  assert (Hstop : let st1 := stopTrackingTime st in
    projectName st1 = "" /\ timers st1 = [] /\ timerStartTime st1 = None
    /\ (statusBarItem st1 = None \/ statusBarItem st1 = Some Blank)
    /\ Forall tells_nothing (shown st1)
    /\ persisted (projectStats st1) = persisted (projectStats st)).
  { unfold stopTrackingTime. simpl. rewrite Hts.
    split; [done|]. split; [by destruct (timerInterval st), (statsInterval st)|].
    split; [done|]. split; [done|]. split; [|done].
    apply Forall_app. split; [done|]. apply Forall_singleton. by right. }
  assert (Hshow : forall now, let st1 := showProjectStats now st in
    projectName st1 = "" /\ timers st1 = [] /\ timerStartTime st1 = None
    /\ (statusBarItem st1 = None \/ statusBarItem st1 = Some Blank)
    /\ Forall tells_nothing (shown st1)
    /\ persisted (projectStats st1) = persisted (projectStats st)).
  { intros now st1. subst st1.
    destruct (showProjectStats_fields now st) as (-> & _ & _ & -> & Hσ & _ & -> & -> & _).
    rewrite Hσ, persisted_get, Hreport.
    split; [done|]. split; [done|]. split; [done|]. split; [done|]. split; [|done].
    apply Forall_app. split; [done|]. apply Forall_singleton. by left. }
  assert (Hrest : projectName st' = "" /\ timers st' = [] /\ timerStartTime st' = None
    /\ (statusBarItem st' = None \/ statusBarItem st' = Some Blank)
    /\ Forall tells_nothing (shown st')
    /\ persisted (projectStats st') = persisted (projectStats st)).
  { subst st'.
    destruct ev as [now|now ws| |now|now|h now e|];
      [|done|exact Hstop|exact (Hshow now)|done| |exact Hstop].
    - cbn [step].
      destruct (activate_fields now st) as (-> & _ & _ & -> & Hσ & _ & -> & _ & ->).
      rewrite Hσ, persisted_get.
      split; [done|]. split; [done|]. split; [done|]. split; [|done].
      right. unfold activate, updateStatusBarItem.
      cbn [statusBarItem projectStats projectName set_projectStats set_statusBarItem].
      rewrite Hname. destruct Hnamed as [_ Hsaved]. rewrite inMemory_get.
      destruct (persisted (projectStats st)) as [s|] eqn:Hp; simpl.
      + by rewrite (Hsaved s eq_refl).
      + by rewrite lookup_empty.
    - cbn [step]. by rewrite Hts. }
  destruct Hrest as (H1 & H2 & H3 & H4 & H5 & H6).
  exact (conj H1 (conj H2 (conj H3 (conj Hnamed' (conj H4 (conj H5 H6)))))).
Qed.

(** X14.  Before the first start command the extension shows nothing of
    the statistics, whatever [globalState] holds: [projectName] is still
    empty, so every report says "No stats available.", and the status bar
    item, once created, stays without text.  The stored statistics are
    left as they are. *)
Theorem nothing_is_shown_before_the_first_start
    (copy : bool) (loadTime : Z) (saved : option StatsStore) (evs : list Event) :
  (forall s, saved = Some s -> store_named s) ->
  forallb is_not_start evs = true ->
  let st := run copy (initial loadTime saved) evs in
  projectName st = ""
  /\ Forall tells_nothing (shown st)
  /\ (statusBarItem st = None \/ statusBarItem st = Some Blank)
  /\ persisted (projectStats st) = saved.
Proof.
  intros Hsaved Hevs st.
  assert (H : forall evs st0,
    forallb is_not_start evs = true ->
    projectName st0 = "" -> timers st0 = [] -> timerStartTime st0 = None ->
    state_named st0 ->
    (statusBarItem st0 = None \/ statusBarItem st0 = Some Blank) ->
    Forall tells_nothing (shown st0) ->
    projectName (run copy st0 evs) = ""
    /\ Forall tells_nothing (shown (run copy st0 evs))
    /\ (statusBarItem (run copy st0 evs) = None
        \/ statusBarItem (run copy st0 evs) = Some Blank)
    /\ persisted (projectStats (run copy st0 evs)) = persisted (projectStats st0)).
  { clear. induction evs as [|ev evs IH]; intros st0 Hevs Hn Hts Ht Hnamed Hbar Hsh; [done|].
    simpl in Hevs. apply andb_prop in Hevs as [Hev Hevs]. rewrite run_cons.
    destruct (before_start_step copy st0 ev Hev Hn Hts Ht Hnamed Hbar Hsh)
      as (Hn' & Hts' & Ht' & Hnamed' & Hbar' & Hsh' & Hp').
    destruct (IH _ Hevs Hn' Hts' Ht' Hnamed' Hbar' Hsh') as (? & ? & ? & Hp).
    rewrite Hp, Hp'. done. }
  apply (H evs (initial loadTime saved) Hevs);
    [done|done|done|by apply state_named_initial|by left|done].
Qed.

Lemma nothing_is_shown_before_the_first_start_witness :
  projectName (run true (initial 1735732800000 (Some demo_saved)) before_start) = ""
  /\ Forall tells_nothing
       (shown (run true (initial 1735732800000 (Some demo_saved)) before_start))
  /\ (statusBarItem (run true (initial 1735732800000 (Some demo_saved)) before_start)
      = None
      \/ statusBarItem (run true (initial 1735732800000 (Some demo_saved)) before_start)
         = Some Blank)
  /\ persisted (projectStats
       (run true (initial 1735732800000 (Some demo_saved)) before_start))
     = Some demo_saved.
Proof.
  assert (H1 : forall s, Some demo_saved = Some s -> store_named s).
  { intros s H. replace s with demo_saved by congruence. vm_compute. reflexivity. }
  assert (H2 : forallb is_not_start before_start = true) by reflexivity.
  exact (nothing_is_shown_before_the_first_start true 1735732800000 (Some demo_saved)
           before_start H1 H2).
Defined.

(** The stored statistics of the demo session hold a bucket of today, and
    still the report of a restarted host, before a start, finds none. *)
Example stored_history_is_not_reported :
  bucketAt demo_saved "demo" "2025-01-01 (Wednesday)"
  = Some {| totalTime := 1000; fileStats := [(".ts", 1000)] |}
  /\ shown (run true (initial 1735732800000 (Some demo_saved)) before_start)
     = [NoStatsAvailable; TrackingStopped; NoStatsAvailable].
Proof. split; vm_compute; reflexivity. Qed.
